(** * catkin_tools: the linked devel space, its collision ledger and the job factories

    A shallow embedding of [catkin_tools/jobs/catkin.py] and of the two
    "active profile" wrappers of [catkin_tools/metadata.py], with the
    properties of the merge of a package's devel products into the shared
    devel space, of the ledger of colliding destinations, and of the clean
    and test jobs.

    Layout of the development:
    - [Py]       : exceptions and the state-and-exception monad in which the
                   Python functions are written;
    - [OS]       : the part of [os] / [os.path] the code calls, over a finite
                   map from canonical paths to nodes;
    - [Catkin]   : [clean_linked_files], [unlink_devel_products],
                   [link_devel_products], the skip lists and the clean and
                   test job factories;
    - [Execution]: the stage and job execution contract;
    - [Metadata] : [get_active_metadata] and [update_active_metadata];
    - [Scenario] : a workspace with two packages that produce the same file;
    - [Files]    : [os.path.isfile], the write of a file and [shutil.rmtree];
    - [Workspaces], [Profiles] : the search for the enclosing workspaces, the
                   migration of the metadata, the profiles;
    - [Init]     : [init_metadata_root], in a process that can print;
    - [BuildJob] : the build job factory;
    - [Frames]   : the predicates that say what a run changes;
    - [Cases]    : workspaces for the edge cases;
    - the properties, in the order: skip lists, jobs, metadata wrappers, file
      system, ledger, unmerge, merge; then what the functions remove and
      write, the build and clean jobs, the metadata, the workspace search,
      the metadata directory. *)

From Stdlib Require Import ZArith Lia Ascii.
From stdpp Require Import base option list strings sorting gmap fin_maps.

Local Open Scope string_scope.
Local Open Scope list_scope.
Local Open Scope Z_scope.

(* ===================================================================== *)
(** ** Python exceptions and the effect monad                             *)
(* ===================================================================== *)

Module Py.

(** The exception classes that can reach the modelled code.  The classes
    [FileExistsError], [FileNotFoundError], [IsADirectoryError] and
    [NotADirectoryError] are subclasses of [OSError]; every handler of the
    modelled code is an [except OSError], which does not tell them apart, so
    one constructor stands for the whole family. *)
Inductive exn :=
  | OSError
  | TypeError
  | KeyError
  | YAMLError
  | RecursionError.

#[global] Instance exn_eq_dec : EqDecision exn.
Proof. solve_decision. Defined.

(** A computation over a state [S] yields a value or raises; in both cases
    the state reached so far is kept (a raise does not roll anything back). *)
Inductive outcome (S A : Type) :=
  | Ok (a : A) (s : S)
  | Exc (e : exn) (s : S).
Arguments Ok {S A} a s.
Arguments Exc {S A} e s.

Definition M (S A : Type) := S → outcome S A.

Definition ret {S A} (a : A) : M S A := fun s => Ok a s.
Definition raise {S A} (e : exn) : M S A := fun s => Exc e s.
Definition bind {S A B} (m : M S A) (k : A → M S B) : M S B :=
  fun s => match m s with
           | Ok a s' => k a s'
           | Exc e s' => Exc e s'
           end.
Definition get {S} : M S S := fun s => Ok s s.
Definition modify {S} (f : S → S) : M S unit := fun s => Ok tt (f s).

(** [try: m except <catches>: handler].  The handler receives the exception,
    so that it can end in [raise]. *)
Definition try_except {S A} (m : M S A) (catches : exn → bool)
    (handler : exn → M S A) : M S A :=
  fun s => match m s with
           | Ok a s' => Ok a s'
           | Exc e s' => if catches e then handler e s' else Exc e s'
           end.

Definition is_OSError (e : exn) : bool := bool_decide (e = OSError).
Definition any_exception (e : exn) : bool := true.

(** A [for] loop over [xs].  [locals] are the local variables the body
    updates; the body yields [inl v] for [return v], which leaves the
    enclosing function, and [inr locals'] to go on with the next element. *)
Fixpoint for_loop {S X L R} (xs : list X) (locals : L)
    (body : L → X → M S (R + L)) : M S (R + L) :=
  match xs with
  | [] => ret (inr locals)
  | x :: xs' =>
      bind (body locals x) (fun r =>
        match r with
        | inl v => ret (inl v)
        | inr locals' => for_loop xs' locals' body
        end)
  end.

(** A [for] loop whose body never returns from the function. *)
Fixpoint for_each {S X L} (xs : list X) (locals : L)
    (body : L → X → M S L) : M S L :=
  match xs with
  | [] => ret locals
  | x :: xs' => bind (body locals x) (fun locals' => for_each xs' locals' body)
  end.

(** The state and the value an outcome carries. *)
Definition state_of {S A} (o : outcome S A) : S :=
  match o with
  | Ok _ s | Exc _ s => s
  end.

Definition value_of {S A} (o : outcome S A) : option A :=
  match o with
  | Ok a _ => Some a
  | Exc _ _ => None
  end.

End Py.

Notation "'let*' x ':=' m 'in' k" := (Py.bind m (fun x => k))
  (at level 10, x pattern, m at level 100, k at level 200, only parsing).

(* ===================================================================== *)
(** ** The operating system interface                                     *)
(* ===================================================================== *)

Module OS.

(** A path is the list of its components.  An absolute path lists them from
    the root, so ["/ws/devel/./lib"] is [["ws"; "devel"; "."; "lib"]]; the
    components ["."] and [".."] are kept as the code builds them and are
    interpreted when the path is resolved. *)
Abbreviation path := (list string).

(** [os.path.join a b] for a relative [b]: the modelled code only ever joins
    a directory with names or with the result of [os.path.relpath]. *)
Definition os_path_join (a b : path) : path := a ++ b.

(** [os.path.split p] is the pair of [os.path.dirname p] and
    [os.path.basename p]. *)
Definition os_path_dirname (p : path) : path := removelast p.
Definition os_path_basename (p : path) : string := List.last p "".
Definition os_path_split (p : path) : path * string :=
  (os_path_dirname p, os_path_basename p).

(** Lexical normalisation, as [os.path.normpath] does it on an absolute
    path: ["."] is dropped and [".."] removes the component before it. *)
Definition normpath_step (acc : path) (c : string) : path :=
  if decide (c = ".") then acc
  else if decide (c = "..") then removelast acc
  else acc ++ [c].
Definition os_path_normpath (p : path) : path := foldl normpath_step [] p.

Fixpoint strip_common (a b : path) : path * path :=
  match a, b with
  | x :: a', y :: b' => if decide (x = y) then strip_common a' b' else (a, b)
  | _, _ => (a, b)
  end.

(** [os.path.relpath p start] for absolute [p] and [start]: both are
    normalised lexically, the common prefix is dropped, one [".."] is emitted
    for every component left of [start]; the empty result is ["."]. *)
Definition os_path_relpath (p start : path) : path :=
  let '(rest_start, rest_p) := strip_common (os_path_normpath start) (os_path_normpath p) in
  match (const ".." <$> rest_start) ++ rest_p with
  | [] => ["."]
  | r => r
  end.

(** What a directory entry is.  A symbolic link stores its target as written:
    [relative = true] for a target that is resolved against the directory
    holding the link. *)
Inductive node :=
  | NFile (content : string)
  | NDir
  | NLink (relative : bool) (target : path).

#[global] Instance node_eq_dec : EqDecision node.
Proof. solve_decision. Defined.

(** The file system maps canonical paths (no ["."], no [".."], no link on the
    way) to nodes; the root [[]] is a directory and has no entry. *)
Abbreviation FS := (gmap path node).

Definition lookup_node (fs : FS) (p : path) : option node :=
  match p with
  | [] => Some NDir
  | _ => fs !! p
  end.

(** The kernel gives up a path walk after this many links ([ELOOP]). *)
Definition SYMLOOP_MAX : nat := 40.

(** The kernel's path walk over the components [rest], from the canonical
    directory [cur].  The result is the canonical location of the last
    component, which need not exist; [None] is an error on the way
    ([ENOENT], [ENOTDIR], [ELOOP]).  With [follow = false] a link in the last
    position is not followed ([lstat], [unlink], [symlink]).  [enter_link
    base rest'] continues the walk through a link: from [base], over the
    target of the link followed by what was left. *)
Fixpoint walk_components (enter_link : path → path → option path) (fs : FS)
    (follow : bool) (cur rest : path) {struct rest} : option path :=
  match rest with
  | [] => Some cur
  | c :: r =>
      if decide (c = ".") then walk_components enter_link fs follow cur r
      else if decide (c = "..") then walk_components enter_link fs follow (removelast cur) r
      else
        let p := cur ++ [c] in
        match fs !! p with
        | Some NDir => walk_components enter_link fs follow p r
        | Some (NLink rel t) =>
            match r, follow with
            | [], false => Some p
            | _, _ => enter_link (if rel then cur else []) (t ++ r)
            end
        | Some (NFile _) | None =>
            match r with
            | [] => Some p
            | _ => None
            end
        end
  end.

(** The walk with a budget of links. *)
Fixpoint walk_path (budget : nat) (fs : FS) (follow : bool) (cur rest : path)
    {struct budget} : option path :=
  walk_components
    (match budget with
     | O => fun _ _ => None
     | S b => walk_path b fs follow
     end) fs follow cur rest.

Definition os_stat (fs : FS) (p : path) : option node :=
  loc ← walk_path SYMLOOP_MAX fs true [] p; lookup_node fs loc.

Definition os_lstat (fs : FS) (p : path) : option node :=
  loc ← walk_path SYMLOOP_MAX fs false [] p; lookup_node fs loc.

(** [os.path.exists] follows links: a dangling link does not exist. *)
Definition os_path_exists (fs : FS) (p : path) : bool :=
  bool_decide (is_Some (os_stat fs p)).

Definition os_path_islink (fs : FS) (p : path) : bool :=
  match os_lstat fs p with
  | Some (NLink _ _) => true
  | _ => false
  end.

Definition os_path_isdir (fs : FS) (p : path) : bool :=
  match os_stat fs p with
  | Some NDir => true
  | _ => false
  end.

(** [os.path.realpath]: links are resolved where they exist, components that
    do not exist are kept as they are, and nothing is an error.  A chain
    longer than the budget is left unresolved at the link where it ran out. *)
Fixpoint realpath_components (enter_link : option (path → path → path)) (fs : FS)
    (cur rest : path) {struct rest} : path :=
  match rest with
  | [] => cur
  | c :: r =>
      if decide (c = ".") then realpath_components enter_link fs cur r
      else if decide (c = "..") then realpath_components enter_link fs (removelast cur) r
      else
        let p := cur ++ [c] in
        match fs !! p with
        | Some (NLink rel t) =>
            match enter_link with
            | None => p ++ r
            | Some enter => enter (if rel then cur else []) (t ++ r)
            end
        | _ => realpath_components enter_link fs p r
        end
  end.

Fixpoint realpath_from (budget : nat) (fs : FS) (cur rest : path)
    {struct budget} : path :=
  realpath_components
    (match budget with
     | O => None
     | S b => Some (realpath_from b fs)
     end) fs cur rest.

Definition os_path_realpath (fs : FS) (p : path) : path :=
  realpath_from SYMLOOP_MAX fs [] p.

(** [open(p, "rb").read()]: the content of the regular file [p] resolves to. *)
Definition read_file (fs : FS) (p : path) : option string :=
  match os_stat fs p with
  | Some (NFile c) => Some c
  | _ => None
  end.

(** [os.path.getsize]: the length of a regular file; a directory has the
    size of its own block, which is not zero. *)
Definition os_path_getsize (fs : FS) (p : path) : option nat :=
  match os_stat fs p with
  | Some (NFile c) => Some (String.length c)
  | Some NDir => Some 4096%nat
  | _ => None
  end.

(** The location an entry-creating or entry-removing call works on: the last
    component is a name, never ["."] or [".."], and is not followed; the root
    is not an entry. *)
Definition entry_location (fs : FS) (p : path) : option path :=
  let name := os_path_basename p in
  if decide (p = [] ∨ name = "." ∨ name = "..") then None
  else
    loc ← walk_path SYMLOOP_MAX fs false [] p;
    if decide (loc = []) then None else Some loc.

(** [os.symlink(src, dst)]: [None] is [OSError] (the entry exists, or its
    directory does not).  The code passes absolute sources. *)
Definition os_symlink (fs : FS) (src dst : path) : option FS :=
  loc ← entry_location fs dst;
  match fs !! loc with
  | Some _ => None
  | None => Some (<[loc := NLink false src]> fs)
  end.

Definition os_mkdir (fs : FS) (p : path) : option FS :=
  loc ← entry_location fs p;
  match fs !! loc with
  | Some _ => None
  | None => Some (<[loc := NDir]> fs)
  end.

(** [os.unlink] removes a file or a link, never a directory. *)
Definition os_unlink (fs : FS) (p : path) : option FS :=
  loc ← entry_location fs p;
  match fs !! loc with
  | Some NDir | None => None
  | Some _ => Some (delete loc fs)
  end.

(** The name of [k] inside the directory [dir], when [k] is one of its
    entries. *)
Fixpoint child_name (dir k : path) : option string :=
  match dir, k with
  | [], [x] => Some x
  | a :: dir', b :: k' => if decide (a = b) then child_name dir' k' else None
  | _, _ => None
  end.

Definition entries (fs : FS) (dir : path) : list string :=
  omap (fun kv => child_name dir kv.1) (map_to_list fs).

(** [os.rmdir] removes an empty directory. *)
Definition os_rmdir (fs : FS) (p : path) : option FS :=
  loc ← entry_location fs p;
  match fs !! loc with
  | Some NDir =>
      match entries fs loc with
      | [] => Some (delete loc fs)
      | _ => None
      end
  | _ => None
  end.

(** The loop of [os.removedirs] over the parents: it stops without an error
    at the first directory that cannot be removed. *)
Fixpoint removedirs_parents (n : nat) (fs : FS) (head : path) : FS :=
  match n with
  | O => fs
  | S n' =>
      match head with
      | [] => fs
      | _ =>
          match os_rmdir fs head with
          | Some fs' => removedirs_parents n' fs' (os_path_dirname head)
          | None => fs
          end
      end
  end.

(** [os.removedirs name]: [rmdir name], which raises when it fails, then the
    parents, silently. *)
Definition os_removedirs (fs : FS) (name : path) : option FS :=
  fs' ← os_rmdir fs name;
  Some (removedirs_parents (length name) fs' (os_path_dirname name)).

(** [os.scandir top] as [os.walk] uses it: the names in [top], split into
    those that are directories (links to directories included) and the
    others, in the order in which the map lists them (a directory has no
    order of its own).  [None] when [top] cannot be listed. *)
Definition scandir (fs : FS) (top : path) : option (list string * list string) :=
  loc ← walk_path SYMLOOP_MAX fs true [] top;
  match lookup_node fs loc with
  | Some NDir =>
      let names := entries fs loc in
      Some (filter (fun n => os_path_isdir fs (top ++ [n]) = true) names,
            filter (fun n => os_path_isdir fs (top ++ [n]) ≠ true) names)
  | _ => None
  end.

(** *** Predicates on paths and file systems used in the statements *)

(** A path without ["."] and [".."] components. *)
Definition plain (p : path) : Prop := Forall (fun c => c ≠ "." ∧ c ≠ "..") p.

(** A path that ends in ["."] or [".."]. *)
Definition ends_in_dot (p : path) : Prop :=
  p ≠ [] ∧ (List.last p "" = "." ∨ List.last p "" = "..").

(** The directories a walk has gone through: [cur] and what is above it. *)
Definition reached (f : FS) (cur : path) : Prop :=
  ∀ q, q `prefix_of` cur → lookup_node f q = Some NDir.

(** [only_empty_dirs_removed f0 f]: [f] is [f0] without some directories, each
    of which has no entry left in [f]. *)
Definition only_empty_dirs_removed (f0 f : FS) : Prop :=
  f ⊆ f0 ∧
  ∀ k n, f0 !! k = Some n → f !! k = None → n = NDir ∧ ∀ x, f !! (k ++ [x]) = None.

End OS.

(* ===================================================================== *)
(** ** catkin_tools/jobs/catkin.py                                        *)
(* ===================================================================== *)

Module Catkin.
Import Py OS.

(** *** Module constants *)

Definition DEVEL_MANIFEST_FILENAME : string := "devel_manifest.txt".

(** The entries are relative paths; [os.path.join('etc', 'catkin', ...)] is
    the list of its components. *)
Definition DEVEL_LINK_PREBUILD_SKIPLIST : list path :=
  [ [".catkin"];
    [".rosinstall"] ].

Definition DEVEL_LINK_SKIPLIST : list path :=
  DEVEL_LINK_PREBUILD_SKIPLIST ++
  [ ["etc"; "catkin"; "profile.d"; "05.catkin_make.bash"];
    ["etc"; "catkin"; "profile.d"; "05.catkin_make_isolated.bash"];
    ["etc"; "catkin"; "profile.d"; "05.catkin-test-results.sh"];
    ["env.sh"];
    ["setup.bash"];
    ["setup.fish"];
    ["setup.zsh"];
    ["setup.sh"];
    ["local_setup.bash"];
    ["local_setup.fish"];
    ["local_setup.zsh"];
    ["local_setup.sh"];
    ["_setup_util.py"] ].

Definition DEVEL_LINK_SKIP_DIRECTORIES : list string :=
  [ "__pycache__" ].

(** *** The logger

    Each call of [logger.out] or [logger.err] is recorded with the text it
    formats, as a constructor applied to the formatted values. *)
Inductive message :=
  | Unlinking (dest_file : path)
  | CouldNotUnlink (dest_file : path)
  | AlreadyUnlinked
  | NoPrivateDevelPath (private_devel_path : path)
  | NoDevelManifest (devel_manifest_file_path : path)
  | DestDoesNotExist (dest_file : path)
  | DestNotSymlink (dest_file : path)
  | DestNotExpectedSymlink (dest_file : path)
  | Linked (source dest : path)
  | Symlinking (dest : path)
  | CouldNotCreateSymlink (dest source : path)
  | CannotCreateDirectory (dest_dir : path)
  | CannotSymlinkExisting (source_file dest_file : path)
  | SourceHash (source_hash : string)
  | DestHash (dest_hash : string)
  | Cleaning (source_file dest_file : path)
  | CouldNotCleanLinkedFiles.

Inductive log_entry :=
  | LogOut (m : message)
  | LogErr (m : message).

#[global] Instance message_eq_dec : EqDecision message.
Proof. solve_decision. Defined.
#[global] Instance log_entry_eq_dec : EqDecision log_entry.
Proof. solve_decision. Defined.

(** *** The state the functions work on

    The devel manifests and the collisions file are kept as the values the
    [csv] readers and writers exchange with the code, indexed by the path of
    the file: a manifest is its first line (the package path) and its rows of
    (source, destination); the collisions file is the dictionary from
    destination to count which the code builds from its rows and writes back
    row by row.  The file system proper holds the source and devel trees. *)
Abbreviation manifest := (path * list (path * path))%type.

Record state := State {
  fs : gmap path node;
  collisions_files : gmap path (gmap path Z);
  manifest_files : gmap path manifest;
  log : list log_entry
}.

Definition set_fs (f : gmap path node) (s : state) : state :=
  State f (collisions_files s) (manifest_files s) (log s).
Definition set_collisions_file (p : path) (d : gmap path Z) (s : state) : state :=
  State (fs s) (<[p := d]> (collisions_files s)) (manifest_files s) (log s).
Definition set_manifest_file (p : path) (m : manifest) (s : state) : state :=
  State (fs s) (collisions_files s) (<[p := m]> (manifest_files s)) (log s).
Definition add_log (e : log_entry) (s : state) : state :=
  State (fs s) (collisions_files s) (manifest_files s) (log s ++ [e]).

Definition logger_out (m : message) : M state unit := modify (add_log (LogOut m)).
Definition logger_err (m : message) : M state unit := modify (add_log (LogErr m)).

(** A call into [os] that changes the file system or raises [OSError]. *)
Definition os_call (f : gmap path node → option (gmap path node)) : M state unit :=
  fun s => match f (fs s) with
           | Some fs' => Ok tt (set_fs fs' s)
           | None => Exc OSError s
           end.

(** *** clean_linked_files *)

(** The body of the loop "Add collisions". *)
Definition add_collision (dest_collisions : gmap path Z) (dest_file : path) : gmap path Z :=
  match dest_collisions !! dest_file with
  | Some n => <[dest_file := n + 1]> dest_collisions
  | None => <[dest_file := 1]> dest_collisions
  end.

(** The body of the loop "Remove files that no longer collide"; the local
    dictionary [dest_collisions] is the loop's local variable. *)
Definition clean_file (dry_run : bool) (dest_collisions : gmap path Z)
    (dest_file : path) : M state (gmap path Z) :=
  let n_collisions := default 0 (dest_collisions !! dest_file) in
  let* _ :=
    (if decide (n_collisions = 0) then
       let* _ := logger_out (Unlinking dest_file) in
       if dry_run then ret tt
       else
         let* s := get in
         if os_path_exists (fs s) dest_file then
           let* _ := try_except (os_call (fun f => os_unlink f dest_file)) is_OSError
                       (fun e => let* _ := logger_err (CouldNotUnlink dest_file) in raise e) in
           try_except (os_call (fun f => os_removedirs f (os_path_split dest_file).1))
             is_OSError (fun _ => ret tt)
         else logger_out AlreadyUnlinked
     else ret tt) in
  if decide (n_collisions > 1) then
    ret (<[dest_file := n_collisions - 1]> dest_collisions)
  else if decide (n_collisions = 1) then
    ret (delete dest_file dest_collisions)
  else ret dest_collisions.

Definition clean_linked_files (metadata_path : path)
    (files_that_collide files_to_clean : list path) (dry_run : bool) : M state unit :=
  let devel_collisions_file_path := os_path_join metadata_path ["devel_collisions.txt"] in
  let* s := get in
  let dest_collisions := default ∅ (collisions_files s !! devel_collisions_file_path) in
  let dest_collisions := foldl add_collision dest_collisions files_that_collide in
  let* dest_collisions := for_each files_to_clean dest_collisions (clean_file dry_run) in
  if dry_run then ret tt
  else modify (set_collisions_file devel_collisions_file_path dest_collisions).

(** *** unlink_devel_products *)

(** The body of the loop over the rows of the manifest; [files_to_clean] is
    its local variable. *)
Definition check_manifest_row (files_to_clean : list path) (row : path * path)
    : M state (Z + list path) :=
  let '(source_file, dest_file) := row in
  let* s := get in
  if negb (os_path_exists (fs s) dest_file) then
    let* _ := logger_err (DestDoesNotExist dest_file) in
    ret (inr files_to_clean)
  else if negb (os_path_islink (fs s) dest_file) then
    let* _ := logger_err (DestNotSymlink dest_file) in
    ret (inl (-1))
  else if false && negb (bool_decide (os_path_realpath (fs s) dest_file = source_file)) then
    let* _ := logger_err (DestNotExpectedSymlink dest_file) in
    ret (inl (-1))
  else
    ret (inr (files_to_clean ++ [dest_file])).

Definition unlink_devel_products (devel_space_abs private_devel_path metadata_path
    package_metadata_path : path) (dry_run : bool) : M state Z :=
  let* s := get in
  if negb (os_path_exists (fs s) private_devel_path) then
    let* _ := logger_err (NoPrivateDevelPath private_devel_path) in
    ret 0
  else
    let devel_manifest_file_path :=
      os_path_join package_metadata_path [DEVEL_MANIFEST_FILENAME] in
    match manifest_files s !! devel_manifest_file_path with
    | None =>
        let* _ := logger_err (NoDevelManifest devel_manifest_file_path) in
        ret 1
    | Some (_, rows) =>
        let* r := for_loop rows [] check_manifest_row in
        match r with
        | inl code => ret code
        | inr files_to_clean =>
            let* _ := clean_linked_files metadata_path [] files_to_clean dry_run in
            ret 0
        end
    end.

(** *** link_devel_products *)

(** The nested function [should_skip_file]; [skiplist], [source_devel_path]
    and [source_path] are the variables it closes over. *)
Definition should_skip_file (skiplist : list path) (source_devel_path source_path : path)
    (filename : string) : bool :=
  if bool_decide
       (os_path_relpath (os_path_join source_path [filename]) source_devel_path ∈ skiplist)
  then true
  else
    existsb (fun directory => bool_decide (directory ∈ DEVEL_LINK_SKIP_DIRECTORIES))
      (os_path_relpath (os_path_join source_path [filename]) source_devel_path).

(** [os.walk top] with its defaults (top down, links to directories listed but
    not entered, listing errors ignored), run with the body of the [for] loop
    that consumes it: each directory is listed when the walk reaches it, after
    the body has run on the directories before it.  [depth] bounds the nesting
    of directories, as the interpreter's recursion limit does. *)
Fixpoint os_walk {L R} (depth : nat) (top : path) (locals : L)
    (body : L → path * list string * list string → M state (R + L))
    {struct depth} : M state (R + L) :=
  match depth with
  | O => raise RecursionError
  | S depth' =>
      let* s := get in
      match scandir (fs s) top with
      | None => ret (inr locals)
      | Some (dirs, nondirs) =>
          let* r := body locals (top, dirs, nondirs) in
          match r with
          | inl v => ret (inl v)
          | inr locals' =>
              for_loop dirs locals' (fun locals'' dirname =>
                let new_path := os_path_join top [dirname] in
                let* s' := get in
                if os_path_islink (fs s') new_path then ret (inr locals'')
                else os_walk depth' new_path locals'' body)
          end
      end
  end.

(** A directory nested [n] deep needs [n] entries of the file system. *)
Definition walk_depth (f : gmap path node) : nat := S (size f).

Section Hash.

(** [md5(content).hexdigest()]. *)
Variable md5 : string → string.

(** The local variables [products] and [files_that_collide]. *)
Abbreviation link_locals := (list (path * path) * list path)%type.

(** The body of "create directories in the destination develspace". *)
Definition link_dir (source_path dest_path : path) (locals : link_locals)
    (dirname : string) : M state (Z + link_locals) :=
  let '(products, files_that_collide) := locals in
  if bool_decide (dirname ∈ DEVEL_LINK_SKIP_DIRECTORIES) then ret (inr locals)
  else
    let source_dir := os_path_join source_path [dirname] in
    let dest_dir := os_path_join dest_path [dirname] in
    let* s := get in
    if os_path_islink (fs s) source_dir then
      let products := products ++ [(source_dir, dest_dir)] in
      if os_path_exists (fs s) dest_dir then
        if negb (bool_decide (os_path_realpath (fs s) dest_dir = os_path_realpath (fs s) source_dir))
        then ret (inr (products, files_that_collide ++ [dest_dir]))
        else
          let* _ := logger_out (Linked source_dir dest_dir) in
          ret (inr (products, files_that_collide))
      else
        let* _ := logger_out (Symlinking dest_dir) in
        let* _ := try_except (os_call (fun f => os_symlink f source_dir dest_dir)) is_OSError
                    (fun e => let* _ := logger_err (CouldNotCreateSymlink dest_dir source_dir) in
                              raise e) in
        ret (inr (products, files_that_collide))
    else
      if negb (os_path_exists (fs s) dest_dir) then
        let* _ := os_call (fun f => os_mkdir f dest_dir) in
        ret (inr locals)
      else if negb (os_path_isdir (fs s) dest_dir) then
        let* _ := logger_err (CannotCreateDirectory dest_dir) in
        ret (inl (-1))
      else ret (inr locals).

(** [md5(open(os.path.realpath(p), "rb").read()).hexdigest()]. *)
Definition hash_of (p : path) : M state string :=
  fun s => match read_file (fs s) (os_path_realpath (fs s) p) with
           | Some content => Ok (md5 content) s
           | None => Exc OSError s
           end.

(** The body of "create symbolic links from the source to the dest". *)
Definition link_file (skiplist : list path) (source_devel_path source_path dest_path : path)
    (locals : link_locals) (filename : string) : M state (Z + link_locals) :=
  let '(products, files_that_collide) := locals in
  if should_skip_file skiplist source_devel_path source_path filename then ret (inr locals)
  else
    let source_file := os_path_join source_path [filename] in
    let dest_file := os_path_join dest_path [filename] in
    let products := products ++ [(source_file, dest_file)] in
    let* s := get in
    if os_path_exists (fs s) dest_file then
      if negb (bool_decide (os_path_realpath (fs s) dest_file = os_path_realpath (fs s) source_file))
      then
        let* source_hash := hash_of source_file in
        let* dest_hash := hash_of dest_file in
        let* _ :=
          (if negb (bool_decide (dest_hash = source_hash)) then
             let* _ := logger_err (CannotSymlinkExisting source_file dest_file) in
             let* _ := logger_err (SourceHash source_hash) in
             logger_err (DestHash dest_hash)
           else ret tt) in
        ret (inr (products, files_that_collide ++ [dest_file]))
      else
        let* _ := logger_out (Linked source_file dest_file) in
        ret (inr (products, files_that_collide))
    else
      let* _ := logger_out (Symlinking dest_file) in
      let* _ := try_except (os_call (fun f => os_symlink f source_file dest_file)) is_OSError
                  (fun e => let* _ := logger_err (CouldNotCreateSymlink dest_file source_file) in
                            raise e) in
      ret (inr (products, files_that_collide)).

(** The body of "Gather all of the files in the devel space". *)
Definition link_directory (skiplist : list path) (source_devel_path dest_devel_path : path)
    (locals : link_locals) (entry : path * list string * list string)
    : M state (Z + link_locals) :=
  let '(source_path, dirs, files) := entry in
  let dest_path :=
    os_path_join dest_devel_path (os_path_relpath source_path source_devel_path) in
  let* r := for_loop dirs locals (link_dir source_path dest_path) in
  match r with
  | inl code => ret (inl code)
  | inr locals' =>
      for_loop files locals' (link_file skiplist source_devel_path source_path dest_path)
  end.

(** The body of "Read the previously-generated products". *)
Definition stale_row (products : list (path * path)) (files_to_clean : list path)
    (row : path * path) : M state (list path) :=
  let '(source_file, dest_file) := row in
  if negb (bool_decide ((source_file, dest_file) ∈ products)) then
    let* _ := logger_out (Cleaning source_file dest_file) in
    ret (files_to_clean ++ [dest_file])
  else ret files_to_clean.

(** [link_devel_products].  [mkdir_p devel_manifest_path] creates the
    directory of the manifest, which [manifest_files] stands for. *)
Definition link_devel_products (package_path devel_manifest_path source_devel_path
    dest_devel_path metadata_path : path) (prebuild : bool) : M state Z :=
  let devel_manifest_file_path :=
    os_path_join devel_manifest_path [DEVEL_MANIFEST_FILENAME] in
  let skiplist := if prebuild then DEVEL_LINK_PREBUILD_SKIPLIST else DEVEL_LINK_SKIPLIST in
  let* s := get in
  let* r := os_walk (walk_depth (fs s)) source_devel_path (([], []) : link_locals)
              (link_directory skiplist source_devel_path dest_devel_path) in
  match r with
  | inl code => ret code
  | inr (products, files_that_collide) =>
      let* s := get in
      let* files_to_clean :=
        match manifest_files s !! devel_manifest_file_path with
        | Some (_, rows) => for_each rows [] (stale_row products)
        | None => ret []
        end in
      let* _ := try_except
                  (clean_linked_files metadata_path files_that_collide files_to_clean false)
                  any_exception
                  (fun e => let* _ := logger_err CouldNotCleanLinkedFiles in raise e) in
      let* _ := modify (set_manifest_file devel_manifest_file_path (package_path, products)) in
      ret 0
  end.

End Hash.

(** *** The ledger and the manifests, as the statements read them *)

(** [dest_collisions.get(dest_file, 0)]. *)
Definition count_of (dest_collisions : gmap path Z) (dest_file : path) : Z :=
  default 0 (dest_collisions !! dest_file).

(** The count the persisted ledger of [metadata_path] holds for a
    destination, [None] when the destination is not in it. *)
Definition ledger_count (s : state) (metadata_path dest_file : path) : option Z :=
  collisions_files s !! os_path_join metadata_path ["devel_collisions.txt"]
    ≫= fun dest_collisions => dest_collisions !! dest_file.

(** The number of packages whose manifest lists [dest_file] as a
    destination: the packages that are merged and produce it. *)
Definition producers (s : state) (dest_file : path) : nat :=
  length (filter (fun entry : path * manifest => dest_file ∈ entry.2.2.*2)
            (map_to_list (manifest_files s))).

(** The ledger invariant at one destination: the count is the number of
    producers minus one, and the destination is absent when that is 0. *)
Definition ledger_invariant_at (s : state) (metadata_path dest_file : path) : Prop :=
  ledger_count s metadata_path dest_file
  = if decide (Z.of_nat (producers s dest_file) - 1 = 0) then None
    else Some (Z.of_nat (producers s dest_file) - 1).

(** Two states with the same file system, ledger and manifests (the logs may
    differ). *)
Definition same_stores (s s' : state) : Prop :=
  fs s' = fs s ∧ collisions_files s' = collisions_files s
  ∧ manifest_files s' = manifest_files s.

(** A row of a manifest whose destination exists and is not a symbolic link. *)
Definition not_a_symlink (f : gmap path node) (row : path * path) : bool :=
  os_path_exists f row.2 && negb (os_path_islink f row.2).

(** The destinations of a manifest that are still there, and the warnings
    for those that are gone. *)
Definition present_dests (f : gmap path node) (rows : list (path * path)) : list path :=
  (filter (fun row => os_path_exists f row.2 = true) rows).*2.

Definition missing_warnings (f : gmap path node) (rows : list (path * path))
    : list log_entry :=
  (fun row => LogErr (DestDoesNotExist row.2))
    <$> filter (fun row => os_path_exists f row.2 ≠ true) rows.

(** *** Stages and jobs

    [CommandStage], [FunctionStage] and [Job] are the constructors of
    [catkin_tools.execution]; the factories only fill in their fields.  The
    workspace [Context] and the [Package] are records of the attributes and
    methods the factories read. *)

Record Package := { name : string }.

Record Context := {
  source_space_abs : path;
  devel_space_abs : path;
  install_space_abs : path;
  make_args : list string;
  merge_install : bool;
  merge_devel : bool;
  link_devel : bool;
  isolate_devel : bool;
  package_build_space : Package → path;
  package_devel_space : Package → path;
  package_install_space : Package → path;
  package_private_devel_path : Package → path;
  package_metadata_path : Package → path;
  metadata_path : path
}.

(** The functions a [FunctionStage] of these factories is bound to. *)
Inductive callable :=
  | loadenv
  | rmfiles
  | unlink_devel_products_fn.

(** The values bound to the keyword parameters of a [FunctionStage]. *)
Inductive kwvalue :=
  | KBool (b : bool)
  | KPath (p : path)
  | KPaths (ps : list path)
  | KEnv (env : gmap string string)
  | KPackage (pkg : Package)
  | KContext (ctx : Context).

(** The [logger_factory] arguments. *)
Inductive logger_factory :=
  | DefaultLogger
  | CMakeIOBufferProtocol_factory_factory (pkg_dir : path) (suppress_stdout : bool)
  | CMakeMakeRunTestsIOBufferProtocol_factory_factory (verbose : bool)
  | CatkinTestResultsIOBufferProtocol_factory.

Inductive stage_kind :=
  | Command (cmd : list string) (cwd : path)
  | Function (function : callable) (kwargs : list (string * kwvalue)).

Record Stage := {
  label : string;
  kind : stage_kind;
  stage_logger : logger_factory;
  occupy_job : bool;
  locked_resource : option string;
  early_termination_retcode : option Z;
  success_retcodes : list Z
}.

(** Modelled from the spec: the defaults of the stage constructors, which
    live in [catkin_tools.execution.stages]: a stage succeeds on exit code 0
    only, has no early-termination code, holds no lock and does not occupy
    its job slot unless the caller says so. *)
Definition default_success_retcodes : list Z := [0].

Definition CommandStage (label : string) (cmd : list string) (cwd : path)
    (logger : logger_factory) (occupy_job : bool) (locked_resource : option string)
    (early_termination_retcode : option Z) (success_retcodes : list Z) : Stage :=
  {| label := label; kind := Command cmd cwd; stage_logger := logger;
     occupy_job := occupy_job; locked_resource := locked_resource;
     early_termination_retcode := early_termination_retcode;
     success_retcodes := success_retcodes |}.

Definition FunctionStage (label : string) (function : callable)
    (locked_resource : option string) (kwargs : list (string * kwvalue)) : Stage :=
  {| label := label; kind := Function function kwargs; stage_logger := DefaultLogger;
     occupy_job := false; locked_resource := locked_resource;
     early_termination_retcode := None;
     success_retcodes := default_success_retcodes |}.

Record Job := {
  jid : string;
  deps : list string;
  env : gmap string string;
  stages : list Stage
}.

(** [sorted] on a list of paths compares them as the strings they are. *)
Definition path_string (p : path) : string := String.concat "/" p.
Definition path_le (p q : path) : Prop := String.leb (path_string p) (path_string q) = true.
#[global] Instance path_le_dec : RelDecision path_le.
Proof. intros p q. unfold path_le. apply _. Defined.
Definition sorted (ps : list path) : list path := merge_sort path_le ps.

(** The stage of the clean job that removes the metadata directory. *)
Definition rmmetadata_stage (context : Context) (package : Package) (dry_run : bool) : Stage :=
  FunctionStage "rmmetadata" rmfiles None
    [("paths", KPaths [package_metadata_path context package]); ("dry_run", KBool dry_run)].

Section Factories.

(** What the factories take from the rest of the package: the [make]
    executable found at import time, the process environment, the reader of
    a package's install manifest and the Python install directory. *)
Variable MAKE_EXEC : string.
Variable os_environ : gmap string string.
Variable get_installed_files : gmap path node → path → list path.
Variable get_python_install_dir : Context → path.

(** [create_catkin_clean_job]; [f] is the file system the factory looks at. *)
Definition create_catkin_clean_job (f : gmap path node) (context : Context)
    (package : Package) (package_path : path) (dependencies : list string)
    (dry_run clean_build clean_devel clean_install : bool) : Job :=
  let stages : list Stage := [] in
  let build_space := package_build_space context package in
  let metadata_path := package_metadata_path context package in
  let job_env : gmap string string := ∅ in
  let stages :=
    if clean_install then
      let installed_files := get_installed_files f (package_metadata_path context package) in
      let install_dir := package_install_space context package in
      let installed_files :=
        if merge_install context then
          filter (fun p => os_path_dirname p ≠ install_dir) installed_files
        else installed_files in
      let python_dir :=
        os_path_join (os_path_join install_dir (get_python_install_dir context))
          [name package] in
      let installed_files :=
        if os_path_exists f python_dir then installed_files ++ [python_dir]
        else installed_files in
      stages ++ [FunctionStage "cleaninstall" rmfiles None
                   [("paths", KPaths (sorted installed_files));
                    ("remove_empty", KBool true);
                    ("empty_root", KPath (install_space_abs context));
                    ("dry_run", KBool dry_run)]]
    else stages in
  let stages :=
    if clean_devel then
      if merge_devel context then
        stages ++ [CommandStage "clean" [MAKE_EXEC; "clean"] build_space
                     DefaultLogger false None None default_success_retcodes]
      else if link_devel context then
        stages ++ [FunctionStage "unlink" unlink_devel_products_fn
                     (Some "symlink-collisions-file")
                     [("devel_space_abs", KPath (devel_space_abs context));
                      ("private_devel_path", KPath (package_private_devel_path context package));
                      ("metadata_path", KPath (Catkin.metadata_path context));
                      ("package_metadata_path", KPath (package_metadata_path context package));
                      ("dry_run", KBool dry_run)];
                   FunctionStage "rmdevel" rmfiles None
                     [("paths", KPaths [package_private_devel_path context package]);
                      ("dry_run", KBool dry_run)]]
      else if isolate_devel context then
        stages ++ [FunctionStage "rmdevel" rmfiles None
                     [("paths", KPaths [package_devel_space context package]);
                      ("dry_run", KBool dry_run)]]
      else stages
    else stages in
  let stages :=
    if clean_build then
      stages ++ [FunctionStage "rmbuild" rmfiles None
                   [("paths", KPaths [build_space]);
                    ("dry_run", KBool dry_run)]]
    else stages in
  let stages :=
    if clean_build && clean_devel && clean_install then
      stages ++ [FunctionStage "rmmetadata" rmfiles None
                   [("paths", KPaths [metadata_path]);
                    ("dry_run", KBool dry_run)]]
    else stages in
  {| jid := name package; deps := dependencies; env := job_env; stages := stages |}.

(** [create_catkin_test_job]. *)
Definition create_catkin_test_job (context : Context) (package : Package)
    (package_path : path) (test_target : string) (verbose : bool) : Job :=
  let pkg_dir := os_path_join (source_space_abs context) package_path in
  let build_space := package_build_space context package in
  let job_env := os_environ in
  let stages : list Stage := [] in
  let stages :=
    stages ++ [FunctionStage "loadenv" loadenv None
                 [("job_env", KEnv job_env);
                  ("package", KPackage package);
                  ("context", KContext context);
                  ("verbose", KBool false)]] in
  let stages :=
    stages ++ [CommandStage "check" [MAKE_EXEC; "cmake_check_build_system"] build_space
                 (CMakeIOBufferProtocol_factory_factory pkg_dir (negb verbose))
                 true None None default_success_retcodes] in
  let stages :=
    stages ++ [CommandStage "findtest" [MAKE_EXEC; "-q"; test_target] build_space
                 DefaultLogger false None (Some 2) [0; 1; 2]] in
  let stages :=
    stages ++ [CommandStage "make" ([MAKE_EXEC; test_target] ++ make_args context) build_space
                 (CMakeMakeRunTestsIOBufferProtocol_factory_factory verbose)
                 false None None default_success_retcodes] in
  let result_cmd := ["catkin_test_results"] in
  let result_cmd := if verbose then result_cmd ++ ["--verbose"] else result_cmd in
  let stages :=
    stages ++ [CommandStage "results" result_cmd build_space
                 CatkinTestResultsIOBufferProtocol_factory
                 false None None default_success_retcodes] in
  {| jid := name package; deps := []; env := job_env; stages := stages |}.

End Factories.

End Catkin.

(* ===================================================================== *)
(** ** The stage and job execution contract                               *)
(* ===================================================================== *)

Module Execution.
Import Catkin.

Inductive stage_result :=
  | Continue
  | EarlyStop
  | Fail (code : Z)
  | Fatal.

#[global] Instance stage_result_eq_dec : EqDecision stage_result.
Proof. solve_decision. Defined.

(** Modelled from the spec: the classification of the exit code of a Command
    stage, which lives in [catkin_tools.execution]: the early-termination code
    is an early stop, another code of the success set lets the job continue,
    a code outside of the success set fails the stage. *)
Definition classify_retcode (stage : Stage) (retcode : Z) : stage_result :=
  if decide (early_termination_retcode stage = Some retcode) then EarlyStop
  else if decide (retcode ∈ success_retcodes stage) then Continue
  else Fail retcode.

Inductive job_status :=
  | Succeeded
  | Failed (code : Z)
  | Aborted.

(** What the environment answers when a stage runs: the exit code of the
    process of a Command stage, and for a Function stage what the call of
    the bound function amounts to (Continue, Fail or a fatal fault). *)
Record environment := {
  spawn : Stage → Z;
  call : Stage → stage_result
}.

Definition run_stage (e : environment) (stage : Stage) : stage_result :=
  match kind stage with
  | Command _ _ => classify_retcode stage (spawn e stage)
  | Function _ _ => call e stage
  end.

(** Modelled from the spec: the stages of a job run strictly in order; the
    job is over when a stage fails or stops early, or when all stages are
    done; a job that stops early is reported successful.  The result lists
    the stages that ran. *)
Fixpoint run_stages (e : environment) (stages : list Stage) : list Stage * job_status :=
  match stages with
  | [] => ([], Succeeded)
  | stage :: rest =>
      match run_stage e stage with
      | Continue => let '(ran, status) := run_stages e rest in (stage :: ran, status)
      | EarlyStop => ([stage], Succeeded)
      | Fail code => ([stage], Failed code)
      | Fatal => ([stage], Aborted)
      end
  end.

Definition run_job (e : environment) (job : Job) : list Stage * job_status :=
  run_stages e (stages job).

End Execution.

(* ===================================================================== *)
(** ** catkin_tools/metadata.py: the active-profile wrappers              *)
(* ===================================================================== *)

Module Metadata.
Import Py OS.

(** The Python values these functions handle: what [yaml.safe_load] yields
    and what callers pass.  A dictionary lists its items, with string keys. *)
#[local] Set Warnings "-register-all".
Inductive pyval :=
  | PyNone
  | PyBool (b : bool)
  | PyInt (z : Z)
  | PyStr (s : string)
  | PyList (l : list pyval)
  | PyDict (items : list (string * pyval)).
#[local] Set Warnings "register-all".

Definition METADATA_DIR_NAME : string := ".catkin_tools".
Definition PROFILES_YML_FILE_NAME : string := "profiles.yaml".
Definition DEFAULT_PROFILE_NAME : string := "default".

(** Truth value of an object in a condition. *)
Definition truthy (v : pyval) : bool :=
  match v with
  | PyNone => false
  | PyBool b => b
  | PyInt z => negb (z =? 0)
  | PyStr s => negb (bool_decide (s = ""))
  | PyList l => negb (bool_decide (length l = 0%nat))
  | PyDict items => negb (bool_decide (length items = 0%nat))
  end.

(** [posixpath.join] of two strings. *)
Definition starts_with_slash (s : string) : bool :=
  match s with
  | String c _ => bool_decide (c = "/"%char)
  | EmptyString => false
  end.

Fixpoint ends_with_slash (s : string) : bool :=
  match s with
  | EmptyString => false
  | String c EmptyString => bool_decide (c = "/"%char)
  | String _ s' => ends_with_slash s'
  end.

Definition posixpath_join (a b : string) : string :=
  if starts_with_slash b then b
  else if bool_decide (a = "") || ends_with_slash a then a +:+ b
  else a +:+ "/" +:+ b.

(** The components of a path given as a string, as the kernel reads it;
    the working directory of the process is taken to be the root. *)
Fixpoint components (s : string) (cur : string) : path :=
  match s with
  | EmptyString => if bool_decide (cur = "") then [] else [cur]
  | String c s' =>
      if bool_decide (c = "/"%char) then
        if bool_decide (cur = "") then components s' ""
        else cur :: components s' ""
      else components s' (cur +:+ String c "")
  end.
Definition path_of_str (s : string) : path := components s "".

Abbreviation World := (gmap path node).

(** [os.path.join(a, b)], [os.path.exists(p)], [os.path.getsize(p)] and
    [open(p).read()] on Python values; [None] where a string is expected is
    a [TypeError]. *)
Definition py_join (a : option string) (b : pyval) : M World (option string) :=
  match a, b with
  | Some x, PyStr y => ret (Some (posixpath_join x y))
  | _, _ => raise TypeError
  end.

Definition py_exists (p : option string) : M World bool :=
  match p with
  | Some x => fun w => Ok (os_path_exists w (path_of_str x)) w
  | None => raise TypeError
  end.

Definition py_getsize (p : option string) : M World nat :=
  match p with
  | Some x => fun w => match os_path_getsize w (path_of_str x) with
                       | Some n => Ok n w
                       | None => Exc OSError w
                       end
  | None => raise TypeError
  end.

Definition py_read (p : option string) : M World string :=
  match p with
  | Some x => fun w => match read_file w (path_of_str x) with
                       | Some c => Ok c w
                       | None => Exc OSError w
                       end
  | None => raise TypeError
  end.

(** ['active' in v] and [v['active']]. *)
Definition py_contains (key : string) (v : pyval) : M World bool :=
  match v with
  | PyDict items => ret (bool_decide (key ∈ items.*1))
  | PyList l => ret (existsb (fun x => match x with
                                       | PyStr s => bool_decide (s = key)
                                       | _ => false
                                       end) l)
  | PyStr s => ret (bool_decide (is_Some (String.index 0 key s)))
  | _ => raise TypeError
  end.

Definition py_getitem (v : pyval) (key : string) : M World pyval :=
  match v with
  | PyDict items =>
      match list_find (fun kv => kv.1 = key) items with
      | Some (_, kv) => ret kv.2
      | None => raise KeyError
      end
  | _ => raise TypeError
  end.

Section Environment.

(** [migrate_metadata] brings the stored metadata up to the installed
    version of the package; [yaml.safe_load] parses a document or raises;
    [py_str] is [str()].  The two wrappers below do not depend on what these
    do. *)
Variable migrate_metadata : pyval → M World unit.
Variable yaml_safe_load : string → option pyval.
Variable py_str : pyval → string.

Definition yaml_load (text : string) : M World pyval :=
  match yaml_safe_load text with
  | Some v => ret v
  | None => raise YAMLError
  end.

Definition get_profiles_path (workspace_path : pyval) : M World (option string) :=
  match workspace_path with
  | PyNone => ret None
  | _ =>
      let* p := py_join (match workspace_path with PyStr w => Some w | _ => None end)
                  (PyStr METADATA_DIR_NAME) in
      py_join p (PyStr "profiles")
  end.

Definition get_paths (workspace_path profile_name verb : pyval)
    : M World (option string * option string) :=
  let* profiles_path := get_profiles_path workspace_path in
  let* metadata_path :=
    (if truthy profile_name then py_join profiles_path profile_name else ret None) in
  let* metadata_file_path :=
    (if truthy profile_name && truthy verb then
       py_join metadata_path
         (PyStr ((match verb with PyStr v => v | _ => py_str verb end) +:+ ".yaml"))
     else ret None) in
  ret (metadata_path, metadata_file_path).

Definition get_metadata (workspace_path profile verb : pyval) : M World pyval :=
  let* _ := migrate_metadata workspace_path in
  let* paths := get_paths workspace_path profile verb in
  let '(metadata_path, metadata_file_path) := paths in
  let* present := py_exists metadata_file_path in
  let* empty :=
    (if negb present then ret true
     else let* size := py_getsize metadata_file_path in ret (bool_decide (size = 0%nat))) in
  if empty then ret (PyDict [])
  else
    let* text := py_read metadata_file_path in
    yaml_load text.

Definition get_profiles_data (workspace_path : pyval) : M World pyval :=
  let* _ := migrate_metadata workspace_path in
  match workspace_path with
  | PyNone => ret (PyDict [])
  | _ =>
      let* profiles_path := get_profiles_path workspace_path in
      let* profiles_yaml_file_path := py_join profiles_path (PyStr PROFILES_YML_FILE_NAME) in
      let* present := py_exists profiles_yaml_file_path in
      if present then
        let* text := py_read profiles_yaml_file_path in
        yaml_load text
      else ret (PyDict [])
  end.

Definition get_active_profile (workspace_path : pyval) : M World pyval :=
  let* profiles_data := get_profiles_data workspace_path in
  let* has_active := py_contains "active" profiles_data in
  if has_active then py_getitem profiles_data "active"
  else ret (PyStr DEFAULT_PROFILE_NAME).

(** [get_active_metadata]: the body ends after the call of [get_metadata],
    so the function falls off its end. *)
Definition get_active_metadata (workspace_path verb : pyval) : M World pyval :=
  let* active_profile := get_active_profile workspace_path in
  let* _ := get_metadata workspace_path active_profile verb in
  ret PyNone.

(** [update_active_metadata], called with the positional arguments [args].
    The signature is [(workspace_path, verb, new_data={})]: two or three
    arguments bind, anything else is a [TypeError] raised by the call
    itself.  [depth] is the depth of the call stack that is left. *)
Fixpoint update_active_metadata (depth : nat) (args : list pyval) {struct depth}
    : M World pyval :=
  let body (workspace_path verb new_data : pyval) : M World pyval :=
    match depth with
    | O => raise RecursionError
    | S depth' =>
        let* active_profile := get_active_profile workspace_path in
        let* _ := update_active_metadata depth'
                    [workspace_path; active_profile; verb; new_data] in
        ret PyNone
    end in
  match args with
  | [workspace_path; verb] => body workspace_path verb (PyDict [])
  | [workspace_path; verb; new_data] => body workspace_path verb new_data
  | _ => raise TypeError
  end.

End Environment.

End Metadata.

(* ===================================================================== *)
(** ** A workspace with two packages                                      *)
(* ===================================================================== *)

Module Scenario.
Import Py OS Catkin Execution Metadata.

(** The linked devel space of a workspace [/ws] with the packages [A] and
    [B]; both produce [lib/x.so], with different contents, and [A] has a
    generated [setup.sh] as well. *)
Definition devel : path := ["ws"; "devel"].
Definition private_A : path := ["ws"; "devel"; ".private"; "A"].
Definition private_B : path := ["ws"; "devel"; ".private"; "B"].
Definition profile : path := ["ws"; ".catkin_tools"; "profiles"; "default"].
Definition metadata_A : path := profile ++ ["packages"; "A"].
Definition metadata_B : path := profile ++ ["packages"; "B"].
Definition x_so : path := ["ws"; "devel"; "lib"; "x.so"].

Definition tree : gmap path node :=
  list_to_map
    [ (["ws"], NDir);
      (devel, NDir);
      (devel ++ [".private"], NDir);
      (private_A, NDir);
      (private_A ++ ["setup.sh"], NFile "#!/bin/sh");
      (private_A ++ ["lib"], NDir);
      (private_A ++ ["lib"; "x.so"], NFile "A");
      (private_B, NDir);
      (private_B ++ ["lib"], NDir);
      (private_B ++ ["lib"; "x.so"], NFile "B") ].

Definition initial : state := State tree ∅ ∅ [].

(** The digests of the two contents. *)
Definition md5 (content : string) : string :=
  if decide (content = "A") then "7fc56270e7a70fa81a5935b72eacbe29"
  else if decide (content = "B") then "9d5ed678fe57bcca610140957afab571"
  else "".

(** A hash under which the two contents collide. *)
Definition weak_hash (content : string) : string := "".

Definition merge_A (hash : string → string) : M state Z :=
  link_devel_products hash ["A"] metadata_A private_A devel profile false.
Definition merge_B (hash : string → string) : M state Z :=
  link_devel_products hash ["B"] metadata_B private_B devel profile false.
Definition unmerge_A (dry_run : bool) : M state Z :=
  unlink_devel_products devel private_A profile metadata_A dry_run.
Definition unmerge_B (dry_run : bool) : M state Z :=
  unlink_devel_products devel private_B profile metadata_B dry_run.

(** [A] merged; then [B] merged; then [B] merged once more, as a rebuild of
    [B] with unchanged output does. *)
Definition merged_A : state := state_of (merge_A md5 initial).
Definition merged_AB : state := state_of (merge_B md5 merged_A).
Definition merged_ABB : state := state_of (merge_B md5 merged_AB).

(** [A] merged, and its link removed by hand afterwards. *)
Definition link_deleted : state :=
  set_fs (delete x_so (fs merged_A)) merged_A.

(** The workspace as the job factories see it. *)
Definition example_package : Package := {| name := "A" |}.
Definition example_context : Context :=
  {| source_space_abs := ["ws"; "src"];
     devel_space_abs := devel;
     install_space_abs := ["ws"; "install"];
     make_args := ["-j4"];
     merge_install := false;
     merge_devel := false;
     link_devel := true;
     isolate_devel := false;
     package_build_space := fun p => ["ws"; "build"; name p];
     package_devel_space := fun p => ["ws"; "devel"; ".private"; name p];
     package_install_space := fun p => ["ws"; "install"];
     package_private_devel_path := fun p => ["ws"; "devel"; ".private"; name p];
     package_metadata_path := fun p => profile ++ ["packages"; name p];
     Catkin.metadata_path := profile |}.

Definition example_test_job : Job :=
  create_catkin_test_job "/usr/bin/make" ∅ example_context example_package ["A"]
    "run_tests" false.

Definition example_clean_job (clean_build clean_devel clean_install : bool) : Job :=
  create_catkin_clean_job "/usr/bin/make" (fun _ _ => []) (fun _ => ["lib"; "python3"])
    tree example_context example_package ["A"] [] false
    clean_build clean_devel clean_install.

(** The probe of the test target exits with [code], every other process
    with 0, and every function stage lets the job go on. *)
Definition exits_with (code : Z) : environment :=
  {| spawn := fun stage => if decide (label stage = "findtest") then code else 0;
     call := fun _ => Continue |}.

(** The stored [build] metadata of the default profile, with nothing to
    migrate and the one document the parser has to read. *)
Definition stored_metadata : gmap path node :=
  list_to_map
    [ (["ws"], NDir);
      (["ws"; ".catkin_tools"], NDir);
      (["ws"; ".catkin_tools"; "profiles"], NDir);
      (["ws"; ".catkin_tools"; "profiles"; "default"], NDir);
      (["ws"; ".catkin_tools"; "profiles"; "default"; "build.yaml"], NFile "jobs: 4") ].
Definition migrate_nothing (workspace_path : pyval) : M (gmap path node) unit := ret tt.
Definition load_document (text : string) : option pyval :=
  if decide (text = "jobs: 4") then Some (PyDict [("jobs", PyInt 4)]) else None.
Definition str_of (v : pyval) : string := "".

End Scenario.

(* ===================================================================== *)
(** ** More of [os] and [shutil]                                          *)
(* ===================================================================== *)

Module Files.
Import Py OS.

Definition os_path_isfile (fs : FS) (p : path) : bool :=
  match os_stat fs p with
  | Some (NFile _) => true
  | _ => false
  end.

(** [open(p, 'w')] followed by a [write] of [content]: the regular file [p]
    resolves to is created or truncated.  [None] is [OSError]: the directory
    of the file does not exist, or [p] is a directory. *)
Definition write_file (fs : FS) (p : path) (content : string) : option FS :=
  loc ← walk_path SYMLOOP_MAX fs true [] p;
  match lookup_node fs loc with
  | Some (NFile _) | None => Some (<[loc := NFile content]> fs)
  | Some NDir | Some (NLink _ _) => None
  end.

(** [k] lies below the directory [loc]. *)
Definition below (loc k : path) : Prop := loc `prefix_of` k ∧ k ≠ loc.

#[global] Instance below_dec loc k : Decision (below loc k).
Proof. unfold below. apply _. Defined.
#[global] Typeclasses Opaque below.

(** [shutil.rmtree(p)] with its defaults.  It refuses a symbolic link and
    anything that is not a directory; it removes what is below the directory
    and then calls [os.rmdir(p)], which fails when [p] ends in ["."] or
    [".."], the content being gone by then. *)
Definition shutil_rmtree (p : path) : M FS unit :=
  fun fs =>
    match walk_path SYMLOOP_MAX fs false [] p with
    | Some loc =>
        match lookup_node fs loc with
        | Some NDir =>
            let emptied := filter (fun kv : path * node => ¬ below loc kv.1) fs in
            match os_rmdir emptied p with
            | Some fs' => Ok tt fs'
            | None => Exc OSError emptied
            end
        | _ => Exc OSError fs
        end
    | None => Exc OSError fs
    end.

End Files.

(* ===================================================================== *)
(** ** catkin_tools/metadata.py: workspaces and profiles                  *)
(* ===================================================================== *)

Module Workspaces.
Import Py OS Metadata.

(** [posixpath.split]: the string is cut after its last slash; the slashes
    at the end of the head are dropped unless the head consists of slashes
    only. *)
Fixpoint cut_after_last_slash (p : string) : string * string :=
  match p with
  | EmptyString => ("", "")
  | String c p' =>
      let '(head, tail) := cut_after_last_slash p' in
      if bool_decide (head = "") then
        if bool_decide (c = "/"%char) then (String c "", p') else ("", String c p')
      else (String c head, tail)
  end.

Fixpoint all_slashes (s : string) : bool :=
  match s with
  | EmptyString => true
  | String c s' => bool_decide (c = "/"%char) && all_slashes s'
  end.

Fixpoint rstrip_slashes (s : string) : string :=
  match s with
  | EmptyString => ""
  | String c s' =>
      let r := rstrip_slashes s' in
      if bool_decide (r = "") && bool_decide (c = "/"%char) then "" else String c r
  end.

Definition posixpath_split (p : string) : string * string :=
  let '(head, tail) := cut_after_last_slash p in
  if negb (bool_decide (head = "")) && negb (all_slashes head)
  then (rstrip_slashes head, tail)
  else (head, tail).

(** The [while] loop of [find_enclosing_workspaces], with the number of
    iterations it is allowed; [None] when that number does not suffice. *)
Fixpoint search_upwards (iterations : nat) (w : World) (search_start_path : string)
    (workspaces : list string) : option (list string) :=
  if bool_decide (search_start_path = "") then Some workspaces
  else
    match iterations with
    | O => None
    | S iterations' =>
        let candidate_path := posixpath_join search_start_path METADATA_DIR_NAME in
        let workspaces :=
          if os_path_exists w (path_of_str candidate_path)
             && os_path_isdir w (path_of_str candidate_path)
          then workspaces ++ [search_start_path]
          else workspaces in
        let '(search_start_path', child_path) := posixpath_split search_start_path in
        if bool_decide (String.length child_path = 0%nat) then Some workspaces
        else search_upwards iterations' w search_start_path' workspaces
    end.

(** [find_enclosing_workspaces].  A value that is not a string is either
    falsy, and the loop is not entered, or it makes [os.path.join] raise.  On
    a string the loop is given one iteration more than the string has
    characters, which it never uses up. *)
Definition find_enclosing_workspaces (search_start_path : pyval) : M World (list string) :=
  if negb (truthy search_start_path) then ret []
  else
    match search_start_path with
    | PyStr p =>
        fun w =>
          match search_upwards (S (String.length p)) w p [] with
          | Some workspaces => Ok workspaces w
          | None => Exc RecursionError w
          end
    | _ => raise TypeError
    end.

Definition find_enclosing_workspace (search_start_path : pyval) : M World pyval :=
  let* workspaces := find_enclosing_workspaces search_start_path in
  if bool_decide (workspaces = []) then ret PyNone
  else ret (PyStr (List.last workspaces "")).

(** An absolute path in normal form, from its components. *)
Definition render (names : list string) : string := "/" +:+ String.concat "/" names.

Fixpoint has_slash (s : string) : bool :=
  match s with
  | EmptyString => false
  | String c s' => bool_decide (c = "/"%char) || has_slash s'
  end.

(** A name of a directory entry. *)
Definition entry_name (n : string) : Prop := n ≠ "" ∧ has_slash n = false.

(** The directory [names] and the directories above it, from [names] up to
    the root. *)
Definition upwards (names : list string) : list (list string) :=
  (fun i => take i names) <$> reverse (seq 0 (S (length names))).

(** The directory [names] holds a metadata directory. *)
Definition is_workspace (w : World) (names : list string) : Prop :=
  os_path_isdir w (names ++ [METADATA_DIR_NAME]) = true.

#[global] Instance is_workspace_dec w names : Decision (is_workspace w names).
Proof. unfold is_workspace. apply _. Defined.
#[global] Typeclasses Opaque is_workspace.

(** The string [x] starts the string [p]; [a] is longer than [b]. *)
Definition starts_with (x p : string) : Prop := ∃ rest, p = x +:+ rest.

Definition shorter (a b : string) : Prop := (String.length b < String.length a)%nat.

End Workspaces.

Module Profiles.
Import Py OS Metadata Files.

(** [open(p, 'w').write(text)] and [shutil.rmtree(p)] on Python values. *)
Definition py_write (p : option string) (text : string) : M World unit :=
  match p with
  | Some x => fun w => match write_file w (path_of_str x) text with
                       | Some w' => Ok tt w'
                       | None => Exc OSError w
                       end
  | None => raise TypeError
  end.

Definition py_rmtree (p : option string) : M World unit :=
  match p with
  | Some x => shutil_rmtree (path_of_str x)
  | None => raise TypeError
  end.

(** [v[key] = value] on a dictionary: the value of the key is replaced, a
    new key goes to the end. *)
Fixpoint set_item (items : list (string * pyval)) (key : string) (value : pyval)
    : list (string * pyval) :=
  match items with
  | [] => [(key, value)]
  | (k, v) :: items' =>
      if decide (k = key) then (k, value) :: items'
      else (k, v) :: set_item items' key value
  end.

Definition py_setitem (v : pyval) (key : string) (value : pyval) : M World pyval :=
  match v with
  | PyDict items => ret (PyDict (set_item items key value))
  | _ => raise TypeError
  end.

Definition get_metadata_root_path (workspace_path : pyval) : M World (option string) :=
  match workspace_path with
  | PyNone => ret None
  | _ => py_join (match workspace_path with PyStr w => Some w | _ => None end)
           (PyStr METADATA_DIR_NAME)
  end.

(** The file that names the active profile. *)
Definition profiles_file (workspace_path : string) : string :=
  posixpath_join
    (posixpath_join (posixpath_join workspace_path METADATA_DIR_NAME) "profiles")
    PROFILES_YML_FILE_NAME.

Section Migration.

(** The version of the installed package, and the migration between two
    versions of the metadata, which [migrate_metadata] decides to run. *)
Variable current_version : string.
Variable migrate_metadata_version : pyval → option string → M World unit.

Definition migrate_metadata (workspace_path : pyval) : M World unit :=
  let* metadata_root_path := get_metadata_root_path workspace_path in
  let* nothing_there :=
    (match metadata_root_path with
     | None => ret true
     | Some p =>
         if bool_decide (p = "") then ret true
         else let* present := py_exists metadata_root_path in ret (negb present)
     end) in
  if (nothing_there : bool) then ret tt
  else
    let* version_file_path := py_join metadata_root_path (PyStr "VERSION") in
    let* present := py_exists version_file_path in
    let* last_version :=
      (if (present : bool) then
         let* text := py_read version_file_path in
         ret (if bool_decide (text = "") then None else Some text)
       else ret None) in
    if bool_decide (last_version ≠ Some current_version) then
      let* _ := py_write version_file_path current_version in
      migrate_metadata_version workspace_path last_version
    else ret tt.

End Migration.

Section Profiles.

Variable migrate_metadata : pyval → M World unit.
Variable yaml_safe_load : string → option pyval.
Variable yaml_dump : pyval → string.
Variable py_str : pyval → string.

Definition remove_profile (workspace_path profile_name : pyval) : M World pyval :=
  let* _ := migrate_metadata workspace_path in
  let* paths := get_paths py_str workspace_path profile_name PyNone in
  let '(profile_path, _) := paths in
  let* present := py_exists profile_path in
  if (present : bool) then
    let* _ := py_rmtree profile_path in
    ret PyNone
  else ret PyNone.

Definition set_active_profile (workspace_path profile_name : pyval) : M World pyval :=
  let* profiles_data := get_profiles_data migrate_metadata yaml_safe_load workspace_path in
  let* profiles_data := py_setitem profiles_data "active" profile_name in
  let* profiles_path := get_profiles_path workspace_path in
  let* profiles_yaml_file_path := py_join profiles_path (PyStr PROFILES_YML_FILE_NAME) in
  let* _ := py_write profiles_yaml_file_path (yaml_dump profiles_data) in
  ret PyNone.

End Profiles.

End Profiles.

(* ===================================================================== *)
(** ** catkin_tools/metadata.py: the metadata directory                   *)
(* ===================================================================== *)

Module Init.
Import Py OS Metadata Files Profiles.

Definition METADATA_README_TEXT : string :=
"# Catkin Tools Metadata

This directory was generated by catkin_tools and it contains persistent
configuration information used by the `catkin` command and its sub-commands.

Each subdirectory of the `profiles` directory contains a set of persistent
configuration options for separate profiles. The default profile is called
`default`. If another profile is desired, it can be described in the
`profiles.yaml` file in this directory.

Please see the catkin_tools documentation before editing any files in this
directory. Most actions can be performed with the `catkin` command-line
program.
".

(** What a call works on: the file system and the lines printed so far. *)
Record process := Process {
  files : World;
  stdout : list string
}.

(** A computation on the file system, run in a process. *)
Definition on_files {A} (m : M World A) : M process A :=
  fun s =>
    match m (files s) with
    | Ok a w => Ok a (Process w (stdout s))
    | Exc e w => Exc e (Process w (stdout s))
    end.

Definition print (line : string) : M process unit :=
  modify (fun s => Process (files s) (stdout s ++ [line])).

(** [os.path.exists] on a string: the empty path names nothing. *)
Definition py_exists_str (p : string) : M World bool :=
  if bool_decide (p = "") then ret false else py_exists (Some p).

Definition py_mkdir (p : option string) : M World unit :=
  match p with
  | Some x => fun w => match os_mkdir w (path_of_str x) with
                       | Some w' => Ok tt w'
                       | None => Exc OSError w
                       end
  | None => raise TypeError
  end.

(** [open(p, 'a').close()]: the file is created when it is not there, and
    left as it is otherwise. *)
Definition touch_file (fs : FS) (p : path) : option FS :=
  loc ← walk_path SYMLOOP_MAX fs true [] p;
  match lookup_node fs loc with
  | Some (NFile _) => Some fs
  | None => Some (<[loc := NFile ""]> fs)
  | Some NDir | Some (NLink _ _) => None
  end.

Definition py_touch (p : option string) : M World unit :=
  match p with
  | Some x => fun w => match touch_file w (path_of_str x) with
                       | Some w' => Ok tt w'
                       | None => Exc OSError w
                       end
  | None => raise TypeError
  end.

Section Initialisation.

(** [migrate_metadata], which may print. *)
Variable migrate_metadata : pyval → M process unit.

(** [init_metadata_root] on a string; [IOError] is [OSError]. *)
Definition init_metadata_root (workspace_path : string) (reset : bool) : M process unit :=
  let* present := on_files (py_exists_str workspace_path) in
  if negb present then raise OSError
  else
    let* metadata_root_path := on_files (get_metadata_root_path (PyStr workspace_path)) in
    let* present := on_files (py_exists metadata_root_path) in
    let* _ :=
      (if (present : bool) then
         if reset then
           let* _ :=
             print ("Deleting existing metadata from catkin_tools metadata directory: "
                    +:+ default "None" metadata_root_path) in
           let* _ := on_files (py_rmtree metadata_root_path) in
           on_files (py_mkdir metadata_root_path)
         else ret tt
       else on_files (py_mkdir metadata_root_path)) in
    let* readme_path := on_files (py_join metadata_root_path (PyStr "README")) in
    let* _ := on_files (py_write readme_path METADATA_README_TEXT) in
    let* _ := migrate_metadata (PyStr workspace_path) in
    let* ignore_path := on_files (py_join metadata_root_path (PyStr "CATKIN_IGNORE")) in
    let* present := on_files (py_exists ignore_path) in
    if negb present then on_files (py_touch ignore_path) else ret tt.

End Initialisation.

End Init.

(* ===================================================================== *)
(** ** catkin_tools/jobs/catkin.py: the build job                         *)
(* ===================================================================== *)

Module BuildJob.
Import Py OS Catkin Files Workspaces.

(** The attributes of the workspace context that only the build factory
    reads, beside those the other factories read. *)
Record BuildContext := {
  context : Context;
  cmake_args : list string;
  catkin_make_args : list string;
  install : bool;
  isolate_install : bool
}.

(** The functions the build factory binds its [FunctionStage]s to. *)
Inductive build_callable :=
  | loadenv_fn
  | makedirs
  | copyfiles
  | link_devel_products_fn
  | copy_install_manifest.

#[global] Instance build_callable_eq_dec : EqDecision build_callable.
Proof. solve_decision. Defined.

Inductive build_kwvalue :=
  | BBool (b : bool)
  | BPath (p : path)
  | BPaths (ps : list path)
  | BEnv (env : gmap string string)
  | BPackage (pkg : Package)
  | BContext (ctx : BuildContext).

Inductive build_logger_factory :=
  | CMakeIOBufferProtocol_factory_factory (pkg_dir : path)
  | CMakeMakeIOBufferProtocol_factory.

Inductive build_stage_kind :=
  | BCommand (cmd : list string) (cwd : path)
  | BFunction (function : build_callable) (kwargs : list (string * build_kwvalue)).

(** A stage of a build job, as the arguments its constructor is called
    with: [None] stands for an argument that is not passed, and for the lock
    also for a [None] that is passed. *)
Record BuildStage := {
  label : string;
  kind : build_stage_kind;
  logger_factory : option build_logger_factory;
  occupy_job : option bool;
  locked_resource : option string
}.

Definition CommandStage (label : string) (cmd : list string) (cwd : path)
    (logger_factory : option build_logger_factory) (occupy_job : option bool)
    (locked_resource : option string) : BuildStage :=
  {| label := label; kind := BCommand cmd cwd; logger_factory := logger_factory;
     occupy_job := occupy_job; locked_resource := locked_resource |}.

Definition FunctionStage (label : string) (function : build_callable)
    (locked_resource : option string) (kwargs : list (string * build_kwvalue)) : BuildStage :=
  {| label := label; kind := BFunction function kwargs; logger_factory := None;
     occupy_job := None; locked_resource := locked_resource |}.

Record BuildJob := {
  jid : string;
  deps : list string;
  env : gmap string string;
  stages : list BuildStage
}.

(** The function a stage is bound to, if it is a [FunctionStage]. *)
Definition bound_function (stage : BuildStage) : option build_callable :=
  match kind stage with
  | BFunction function _ => Some function
  | BCommand _ _ => None
  end.

Section Factory.

(** What the factory takes from the rest of the package: the executables
    found at import time, the process environment, the check that a command
    was found, which raises when it was not, and the filter of the arguments
    of [make]. *)
Variable CMAKE_EXEC : string.
Variable MAKE_EXEC : string.
Variable os_environ : gmap string string.
Variable require_command : string → string → option exn.
Variable handle_make_arguments : list string → list string.

Definition check_command (name : string) (which : string) : M (gmap path node) unit :=
  match require_command name which with
  | Some e => raise e
  | None => ret tt
  end.

(** [create_catkin_build_job]; the state is the file system the factory
    looks at. *)
Definition create_catkin_build_job (bc : BuildContext) (package : Package)
    (package_path : path) (dependencies : list string)
    (force_cmake pre_clean skip_install prebuild : bool) : M (gmap path node) BuildJob :=
  let ctx := context bc in
  let pkg_dir := os_path_join (source_space_abs ctx) package_path in
  let build_space := package_build_space ctx package in
  let devel_space := package_devel_space ctx package in
  let install_space := package_install_space ctx package in
  let metadata_path := package_metadata_path ctx package in
  let job_env := os_environ in
  let stages : list BuildStage := [] in
  let stages :=
    stages ++ [FunctionStage "loadenv" loadenv_fn
                 (if isolate_install bc then None else Some "installspace")
                 [("job_env", BEnv job_env);
                  ("package", BPackage package);
                  ("context", BContext bc)]] in
  let stages :=
    stages ++ [FunctionStage "mkdir" makedirs None [("path", BPath build_space)]] in
  let stages :=
    stages ++ [FunctionStage "mkdir" makedirs None [("path", BPath metadata_path)]] in
  let stages :=
    stages ++ [FunctionStage "cache-manifest" copyfiles None
                 [("source_paths",
                   BPaths [os_path_join (os_path_join (source_space_abs ctx) package_path)
                             ["package.xml"]]);
                  ("dest_path", BPath (os_path_join metadata_path ["package.xml"]))]] in
  let makefile_path := os_path_join build_space ["Makefile"] in
  let* f := get in
  let* stages :=
    (if negb (os_path_isfile f makefile_path) || force_cmake then
       let* _ := check_command "cmake" CMAKE_EXEC in
       ret (stages ++
              [CommandStage "cmake"
                 ([CMAKE_EXEC;
                   render pkg_dir;
                   "--no-warn-unused-cli";
                   "-DCATKIN_DEVEL_PREFIX=" +:+ render devel_space;
                   "-DCMAKE_INSTALL_PREFIX=" +:+ render install_space]
                  ++ cmake_args bc)
                 build_space (Some (CMakeIOBufferProtocol_factory_factory pkg_dir)) (Some true)
                 None])
     else
       ret (stages ++
              [CommandStage "check" [MAKE_EXEC; "cmake_check_build_system"] build_space
                 (Some (CMakeIOBufferProtocol_factory_factory pkg_dir)) (Some true)
                 None])) in
  let make_args := handle_make_arguments (make_args ctx ++ catkin_make_args bc) in
  let stages :=
    if pre_clean then
      stages ++ [CommandStage "preclean" ([MAKE_EXEC; "clean"] ++ make_args) build_space
                   None None None]
    else stages in
  let* _ := check_command "make" MAKE_EXEC in
  let stages :=
    stages ++ [CommandStage "make" ([MAKE_EXEC] ++ make_args) build_space
                 (Some CMakeMakeIOBufferProtocol_factory) None None] in
  let stages :=
    if link_devel ctx then
      stages ++ [FunctionStage "symlink" link_devel_products_fn
                   (Some "symlink-collisions-file")
                   [("package", BPackage package);
                    ("package_path", BPath package_path);
                    ("devel_manifest_path", BPath (package_metadata_path ctx package));
                    ("source_devel_path", BPath (package_devel_space ctx package));
                    ("dest_devel_path", BPath (devel_space_abs ctx));
                    ("metadata_path", BPath (Catkin.metadata_path ctx));
                    ("prebuild", BBool prebuild)]]
    else stages in
  let stages :=
    if install bc && negb skip_install then
      stages ++ [CommandStage "install" [MAKE_EXEC; "install"] build_space
                   (Some CMakeMakeIOBufferProtocol_factory) None
                   (if isolate_install bc then None else Some "installspace");
                 FunctionStage "register" copy_install_manifest None
                   [("src_install_manifest_path", BPath build_space);
                    ("dst_install_manifest_path", BPath (package_metadata_path ctx package))]]
    else stages in
  ret {| jid := name package; deps := dependencies; env := job_env; stages := stages |}.

End Factory.

End BuildJob.

(* ===================================================================== *)
(** ** What a run changes: the predicates of the statements                *)
(* ===================================================================== *)

Module Frames.
Import Py OS Catkin.

(** Entries have only been removed from the file system [f]: a directory
    that is gone is empty afterwards, anything else that is gone was the
    entry of a path that was allowed to be removed. *)
Definition removes_only (allowed : path → Prop) (f f' : gmap path node) : Prop :=
  f' ⊆ f ∧
  ∀ k n, f !! k = Some n → f' !! k = None →
    (n = NDir ∧ ∀ x, f' !! (k ++ [x]) = None)
    ∨ (n ≠ NDir ∧ ∃ d, allowed d ∧ entry_location f d = Some k).

(** The number of times the list [files] names [d]. *)
Definition occurrences (d : path) (files : list path) : Z :=
  Z.of_nat (length (filter (eq d) files)).

(** Every count of a ledger is at least 1. *)
Definition positive_counts (dest_collisions : gmap path Z) : Prop :=
  map_Forall (fun _ n => 1 ≤ n) dest_collisions.

(** A specification of a computation: the relation [R] between the state
    before and the state after, whatever the outcome, and the property [Q] of
    the value when there is one. *)
Definition satisfies {A} (R : state → state → Prop) (Q : A → Prop) (m : M state A) : Prop :=
  ∀ s, R s (state_of (m s)) ∧ ∀ a s', m s = Ok a s' → Q a.

(** The value a loop body or a loop hands on: a [return v] with [P v], or
    the locals. *)
Definition returning {R L} (P : R → Prop) (r : R + L) : Prop :=
  match r with
  | inl v => P v
  | inr _ => True
  end.

(** The file system has only gained entries, each a directory or an absolute
    symbolic link to a path below [root]; the ledger and the manifests are the
    same; the log has only grown. *)
Definition grows (root : path) (s s1 : state) : Prop :=
  fs s ⊆ fs s1
  ∧ (∀ k n, fs s !! k = None → fs s1 !! k = Some n →
       n = NDir ∨ ∃ src, n = NLink false src ∧ root `prefix_of` src)
  ∧ collisions_files s1 = collisions_files s
  ∧ manifest_files s1 = manifest_files s
  ∧ log s `prefix_of` log s1.

(** The destinations of the rows of an old manifest that are not produced
    any more. *)
Definition stale_dests (products rows : list (path * path)) : list path :=
  (filter (fun row => row ∉ products) rows).*2.

End Frames.

(* ===================================================================== *)
(** ** Workspaces for the edge cases                                      *)
(* ===================================================================== *)

Module Cases.
Import Py OS Catkin Metadata Files Workspaces Profiles Scenario.

(** [A] merged, and the file its link refers to deleted afterwards: the
    link in the devel space dangles. *)
Definition source_deleted : state :=
  set_fs (delete (private_A ++ ["lib"; "x.so"]) (fs merged_A)) merged_A.

(** A workspace inside the source space of a workspace. *)
Definition nested : gmap path node :=
  list_to_map
    [ (["ws"], NDir);
      (["ws"; ".catkin_tools"], NDir);
      (["ws"; "src"], NDir);
      (["ws"; "src"; "inner"], NDir);
      (["ws"; "src"; "inner"; ".catkin_tools"], NDir);
      (["ws"; "src"; "inner"; "pkg"], NDir) ].

(** A workspace whose metadata directory holds nothing yet, and the same
    after version [0.4.5] has been recorded. *)
Definition bare : gmap path node :=
  list_to_map [ (["ws"], NDir); (["ws"; ".catkin_tools"], NDir) ].
Definition stamped : gmap path node :=
  <[ ["ws"; ".catkin_tools"; "VERSION"] := NFile "0.4.5" ]> bare.
(** [migrate_metadata_version] on a metadata directory that holds no
    directory: there is no profile to move and none to update, the function
    returns. *)
Definition migrate_version_nothing (workspace_path : pyval) (old_version : option string)
    : M (gmap path node) unit := ret tt.

(** The workspace of [stored_metadata] with the profile [release] active,
    and the two documents its profiles file holds in turn. *)
Definition release_active : gmap path node :=
  <[ ["ws"; ".catkin_tools"; "profiles"; "profiles.yaml"] := NFile "active: release" ]>
    stored_metadata.
Definition load_profiles (text : string) : option pyval :=
  if decide (text = "active: release") then Some (PyDict [("active", PyStr "release")])
  else if decide (text = "active: debug") then Some (PyDict [("active", PyStr "debug")])
  else None.
Definition dump_profiles (v : pyval) : string :=
  match v with
  | PyDict [(key, PyStr name)] => key +:+ ": " +:+ name
  | _ => "{}"
  end.

(** The workspace with version [0.4.5] recorded and a profiles file that
    is not a YAML document: [yaml.safe_load] raises on it. *)
Definition garbled : gmap path node :=
  <[ ["ws"; ".catkin_tools"; "profiles"; "profiles.yaml"] := NFile "active: [" ]>
    (<[ ["ws"; ".catkin_tools"; "profiles"] := NDir ]> stamped).

(** [A] merged, its private devel space removed afterwards, and a regular
    file put where its link was: the manifest of [A] still lists the
    destination. *)
Definition private_gone : state :=
  set_fs (list_to_map
            [ (["ws"], NDir);
              (devel, NDir);
              (devel ++ ["lib"], NDir);
              (x_so, NFile "kept by hand") ])
    merged_A.

End Cases.

(* ===================================================================== *)
(** ** Properties                                                         *)
(* ===================================================================== *)

Import Py OS Catkin Execution Metadata.

(** Closed, decidable statements are settled by evaluation. *)
Ltac by_evaluation := apply (bool_decide_unpack _); vm_compute; exact I.

(** An outcome is its value or exception together with its state. *)
Lemma outcome_Ok {S A} (o : outcome S A) (a : A) (s : S) :
  value_of o = Some a → state_of o = s → o = Ok a s.
Proof. destruct o; naive_solver. Qed.

Lemma outcome_Exc {S A} (o : outcome S A) (e : exn) (s : S) :
  match o with Ok _ _ => None | Exc e' _ => Some e' end = Some e → state_of o = s →
  o = Exc e s.
Proof. destruct o; naive_solver. Qed.

(** *** Relative paths and the skip lists *)









(** *** The clean job *)

Section FactoryFacts.
Variable MAKE_EXEC : string.
Variable os_environ : gmap string string.
Variable get_installed_files : gmap path node → path → list path.
Variable get_python_install_dir : Context → path.

(** The stages of the clean job except the last, conditional one; none of
    them is the removal of the metadata directory. *)
Lemma clean_job_stages (f : gmap path node) (context : Context)
    (package : Package) (package_path : path) (dependencies : list string)
    (dry_run clean_build clean_devel clean_install : bool) :
  ∃ before,
    stages (create_catkin_clean_job MAKE_EXEC get_installed_files get_python_install_dir
              f context package package_path dependencies
              dry_run clean_build clean_devel clean_install)
    = before ++ (if clean_build && clean_devel && clean_install
                 then [rmmetadata_stage context package dry_run] else [])
    ∧ Forall (fun stage => label stage ≠ "rmmetadata") before.
Proof.
  unfold create_catkin_clean_job, rmmetadata_stage.
  destruct clean_build, clean_devel, clean_install,
    (merge_devel context), (link_devel context), (isolate_devel context);
    cbn [andb stages];
    (eexists; split; [first [reflexivity | symmetry; apply app_nil_r]|]);
    cbn [app]; repeat constructor; discriminate.
Qed.

(** C8.  The clean job has a stage labelled [rmmetadata] exactly when
    [clean_build], [clean_devel] and [clean_install] are all set; that stage
    is [rmfiles] on the package's metadata directory, and no other stage of
    the job carries that label. *)
Theorem clean_job_removes_metadata_iff_all_scopes (f : gmap path node) (context : Context)
    (package : Package) (package_path : path) (dependencies : list string)
    (dry_run clean_build clean_devel clean_install : bool) :
  let job := create_catkin_clean_job MAKE_EXEC get_installed_files get_python_install_dir
               f context package package_path dependencies
               dry_run clean_build clean_devel clean_install in
  ((∃ stage, stage ∈ stages job ∧ label stage = "rmmetadata") ↔
     clean_build = true ∧ clean_devel = true ∧ clean_install = true)
  ∧ (rmmetadata_stage context package dry_run ∈ stages job ↔
     clean_build = true ∧ clean_devel = true ∧ clean_install = true)
  ∧ (∀ stage, stage ∈ stages job → label stage = "rmmetadata" →
       stage = rmmetadata_stage context package dry_run).
Proof.
  intros job. subst job.
  destruct (clean_job_stages f context package package_path dependencies
              dry_run clean_build clean_devel clean_install) as (before & -> & Hbefore).
  rewrite Forall_forall in Hbefore.
  assert (Hall : clean_build && clean_devel && clean_install = true ↔
                 clean_build = true ∧ clean_devel = true ∧ clean_install = true).
  { rewrite !andb_true_iff. tauto. }
  rewrite <- Hall.
  destruct (clean_build && clean_devel && clean_install); split_and!.
  - split; [done|]. intros _. eexists. split; [apply elem_of_app; right; by left|done].
  - split; [done|]. intros _. apply elem_of_app; right; by left.
  - intros stage [Hin|Hin]%elem_of_app Hl; [by apply Hbefore in Hin|].
    by apply list_elem_of_singleton in Hin.
  - split; [|done]. intros (stage & Hin & Hl). rewrite app_nil_r in Hin.
    by apply Hbefore in Hin.
  - split; [|done]. intros Hin. rewrite app_nil_r in Hin. by apply Hbefore in Hin.
  - intros stage Hin Hl. rewrite app_nil_r in Hin. by apply Hbefore in Hin.
Qed.
End FactoryFacts.

Lemma clean_job_removes_metadata_iff_all_scopes_witness :
  rmmetadata_stage Scenario.example_context Scenario.example_package false
    ∈ stages (Scenario.example_clean_job true true true)
  ∧ ∀ stage, stage ∈ stages (Scenario.example_clean_job true true false) →
             label stage ≠ "rmmetadata".
Proof.
  split.
  - destruct (clean_job_removes_metadata_iff_all_scopes "/usr/bin/make" (fun _ _ => [])
                (fun _ => ["lib"; "python3"]) Scenario.tree Scenario.example_context
                Scenario.example_package ["A"] [] false true true true)
      as (_ & [_ Hstage] & _).
    apply Hstage. done.
  - intros stage Hin Hlabel.
    destruct (clean_job_removes_metadata_iff_all_scopes "/usr/bin/make" (fun _ _ => [])
                (fun _ => ["lib"; "python3"]) Scenario.tree Scenario.example_context
                Scenario.example_package ["A"] [] false true true false)
      as ([Hall _] & _).
    destruct Hall as (_ & _ & Hinstall); [by exists stage|discriminate Hinstall].
Defined.

(** *** The test job *)

Lemma run_stages_cons e stage rest :
  run_stages e (stage :: rest) =
    match run_stage e stage with
    | Continue => (stage :: (run_stages e rest).1, (run_stages e rest).2)
    | EarlyStop => ([stage], Succeeded)
    | Fail code => ([stage], Failed code)
    | Fatal => ([stage], Aborted)
    end.
Proof. simpl. destruct (run_stage e stage); try done. by destruct (run_stages e rest). Qed.

Lemma run_stages_continue e before rest :
  Forall (fun stage => run_stage e stage = Continue) before →
  run_stages e (before ++ rest) = (before ++ (run_stages e rest).1, (run_stages e rest).2).
Proof.
  induction 1 as [|stage before Hstage _ IH]; simpl app.
  - by destruct (run_stages e rest).
  - by rewrite run_stages_cons, Hstage, IH.
Qed.

Lemma classify_probe stage retcode :
  early_termination_retcode stage = Some 2 → success_retcodes stage = [0; 1; 2] →
  classify_retcode stage retcode =
    if decide (retcode = 2) then EarlyStop
    else if decide (retcode = 0 ∨ retcode = 1) then Continue
    else Fail retcode.
Proof.
  intros He Hs. unfold classify_retcode. rewrite He, Hs.
  destruct (decide (retcode = 2)) as [->|Hne].
  - by rewrite decide_True.
  - rewrite decide_False by congruence.
    destruct (decide (retcode = 0 ∨ retcode = 1)) as [Hor|Hnor].
    + rewrite decide_True; [done|]. rewrite !elem_of_cons. tauto.
    + rewrite decide_False; [done|]. rewrite !elem_of_cons, elem_of_nil. tauto.
Qed.

Section TestJob.
Variable MAKE_EXEC : string.
Variable os_environ : gmap string string.

(** C7, as amended.  The third of the five stages of the test job is the
    probe [findtest], with early-termination code 2 and success codes 0, 1
    and 2.  Its exit code 2 is an early stop, 0 and 1 let the job continue,
    every other code fails the stage.  When the two stages before
    it let the job continue: on 2 the job is reported successful having run
    three stages; on 0 or 1 the job goes on with the remaining stages; on
    any other code the job has failed with that code after three stages. *)
Theorem test_job_probe_codes (context : Context) (package : Package) (package_path : path)
    (test_target : string) (verbose : bool) :
  let job := create_catkin_test_job MAKE_EXEC os_environ context package package_path
               test_target verbose in
  ∃ findtest,
    stages job !! 2%nat = Some findtest
    ∧ label findtest = "findtest"
    ∧ early_termination_retcode findtest = Some 2
    ∧ success_retcodes findtest = [0; 1; 2]
    ∧ length (stages job) = 5%nat
    ∧ (∀ retcode, classify_retcode findtest retcode =
         if decide (retcode = 2) then EarlyStop
         else if decide (retcode = 0 ∨ retcode = 1) then Continue
         else Fail retcode)
    ∧ (∀ e, Forall (fun stage => run_stage e stage = Continue) (take 2 (stages job)) →
         (spawn e findtest = 2 → run_job e job = (take 3 (stages job), Succeeded))
         ∧ (spawn e findtest = 0 ∨ spawn e findtest = 1 →
              run_job e job =
                (take 3 (stages job) ++ (run_stages e (drop 3 (stages job))).1,
                 (run_stages e (drop 3 (stages job))).2))
         ∧ (spawn e findtest ∉ [0; 1; 2] →
              run_job e job = (take 3 (stages job), Failed (spawn e findtest)))).
Proof.
  intros job. eexists. do 5 (split; [reflexivity|]).
  split; [intros retcode; by apply classify_probe|].
  intros e Hfirst. unfold run_job.
  set (findtest := CommandStage "findtest" _ _ _ _ _ _ _).
  assert (Hrun : run_stages e (stages job) =
            (take 2 (stages job) ++ (run_stages e (findtest :: drop 3 (stages job))).1,
             (run_stages e (findtest :: drop 3 (stages job))).2)).
  { rewrite <- (run_stages_continue e _ _ Hfirst). reflexivity. }
  rewrite Hrun, run_stages_cons. clear Hrun.
  change (run_stage e findtest) with (classify_retcode findtest (spawn e findtest)).
  rewrite (classify_probe findtest) by reflexivity.
  split_and!.
  - intros Hrc. repeat case_decide; done || lia.
  - intros Hrc. repeat case_decide; done || lia.
  - intros Hrc. rewrite !not_elem_of_cons in Hrc. destruct Hrc as (? & ? & ? & _).
    repeat case_decide; done || lia.
Qed.
End TestJob.

Lemma test_job_probe_codes_witness :
  run_job (Scenario.exits_with 2) Scenario.example_test_job
  = (take 3 (stages Scenario.example_test_job), Succeeded).
Proof.
  destruct (test_job_probe_codes "/usr/bin/make" ∅ Scenario.example_context
              Scenario.example_package ["A"] "run_tests" false)
    as (findtest & Hft & _ & _ & _ & _ & _ & Hrun).
  injection Hft as <-.
  destruct (Hrun (Scenario.exits_with 2)) as (Hstop & _ & _).
  - repeat constructor.
  - apply Hstop. reflexivity.
Defined.

(** C7 as stated fails: when the probe exits with 3, which is neither the
    early-termination code nor a success code, the job does not continue; it
    fails with code 3 after the probe. *)
Lemma findtest_exit_code_3_fails_the_job :
  (fun findtest => (label findtest, classify_retcode findtest 3))
    <$> stages Scenario.example_test_job !! 2%nat = Some ("findtest", Fail 3)
  ∧ run_job (Scenario.exits_with 3) Scenario.example_test_job
    = (take 3 (stages Scenario.example_test_job), Failed 3).
Proof. split; reflexivity. Qed.

(** *** The active-profile wrappers *)

Section MetadataFacts.
Variable migrate_metadata : pyval → M (gmap path node) unit.
Variable yaml_safe_load : string → option pyval.
Variable py_str : pyval → string.

(** Apart from the migration, looking up the active profile only reads. *)
Lemma get_profiles_data_state (workspace_path : pyval) (w : gmap path node) :
  state_of (get_profiles_data migrate_metadata yaml_safe_load workspace_path w)
  = state_of (migrate_metadata workspace_path w).
Proof.
  unfold get_profiles_data. unfold bind at 1.
  destruct (migrate_metadata workspace_path w) as [[] w1|e w1]; [|done].
  unfold get_profiles_path, py_join, py_exists, py_read, yaml_load, bind, ret, raise.
  repeat (simpl; case_match; simplify_eq); done.
Qed.

Lemma get_active_profile_state (workspace_path : pyval) (w : gmap path node) :
  state_of (get_active_profile migrate_metadata yaml_safe_load workspace_path w)
  = state_of (migrate_metadata workspace_path w).
Proof.
  rewrite <- get_profiles_data_state. unfold get_active_profile. unfold bind at 1.
  destruct (get_profiles_data migrate_metadata yaml_safe_load workspace_path w)
    as [data w1|e w1]; [|done].
  unfold py_contains, py_getitem, bind, ret, raise.
  repeat (simpl; case_match; simplify_eq); done.
Qed.

(** C9.  Whatever the workspace path and the verb, a call of
    [get_active_metadata] that returns returns [None]; in particular, when
    the active profile is found and [get_metadata] returns the stored
    structure, that structure is dropped and the result is [None]. *)
Theorem get_active_metadata_returns_None (workspace_path verb : pyval) (w : gmap path node) :
  (∀ v w', get_active_metadata migrate_metadata yaml_safe_load py_str workspace_path verb w
           = Ok v w' → v = PyNone)
  ∧ (∀ active_profile w1 data w2,
       get_active_profile migrate_metadata yaml_safe_load workspace_path w
       = Ok active_profile w1 →
       get_metadata migrate_metadata yaml_safe_load py_str workspace_path active_profile verb w1
       = Ok data w2 →
       get_active_metadata migrate_metadata yaml_safe_load py_str workspace_path verb w
       = Ok PyNone w2).
Proof.
  unfold get_active_metadata, bind, ret. split.
  - intros v w'.
    destruct (get_active_profile _ _ workspace_path w) as [p w1|]; [|done].
    destruct (get_metadata _ _ _ workspace_path p verb w1); [|done]. by intros [= <- _].
  - intros p w1 data w2 -> ->. done.
Qed.

(** C10, as amended.  Whatever [migrate_metadata] and the parser do, and
    whatever the workspace path, the verb and the data, a call of
    [update_active_metadata] (with or without the data argument) never
    returns: when the active profile has been looked up, the call of itself
    with four positional arguments raises [TypeError]; when the lookup itself
    raises, its exception goes through.  The stored state at the end is the
    one the metadata migration of the lookup leaves, which may have written
    the [VERSION] file; nothing of the verb or of the data is persisted. *)
Theorem update_active_metadata_always_raises (depth : nat)
    (workspace_path verb new_data : pyval) (w : gmap path node) :
  let run := update_active_metadata migrate_metadata yaml_safe_load (S depth)
               [workspace_path; verb; new_data] w in
  value_of run = None
  ∧ (∀ active_profile w',
       get_active_profile migrate_metadata yaml_safe_load workspace_path w
       = Ok active_profile w' →
       run = Exc TypeError w')
  ∧ (∀ e w',
       get_active_profile migrate_metadata yaml_safe_load workspace_path w = Exc e w' →
       run = Exc e w')
  ∧ state_of run = state_of (migrate_metadata workspace_path w)
  ∧ update_active_metadata migrate_metadata yaml_safe_load (S depth)
      [workspace_path; verb] w = run.
Proof.
  intros run.
  assert (Hrun : run = match get_active_profile migrate_metadata yaml_safe_load
                               workspace_path w with
                       | Ok _ w' => Exc TypeError w'
                       | Exc e w' => Exc e w'
                       end).
  { subst run. cbn [update_active_metadata]. unfold bind.
    destruct (get_active_profile _ _ workspace_path w) as [p w1|]; [|done]. by destruct depth. }
  split_and!.
  - rewrite Hrun. by destruct (get_active_profile _ _ workspace_path w).
  - intros p w' Hp. by rewrite Hrun, Hp.
  - intros e w' Hp. by rewrite Hrun, Hp.
  - rewrite Hrun, <- get_active_profile_state.
    by destruct (get_active_profile _ _ workspace_path w).
  - rewrite Hrun. cbn [update_active_metadata]. unfold bind.
    destruct (get_active_profile _ _ workspace_path w) as [p w1|]; [|done]. by destruct depth.
Qed.

End MetadataFacts.

Lemma get_active_metadata_returns_None_witness :
  value_of (get_metadata Scenario.migrate_nothing Scenario.load_document Scenario.str_of
              (PyStr "/ws") (PyStr "default") (PyStr "build") Scenario.stored_metadata)
  = Some (PyDict [("jobs", PyInt 4)])
  ∧ value_of (get_active_metadata Scenario.migrate_nothing Scenario.load_document Scenario.str_of
                (PyStr "/ws") (PyStr "build") Scenario.stored_metadata)
    = Some PyNone.
Proof.
  split; [reflexivity|].
  destruct (get_active_metadata_returns_None Scenario.migrate_nothing Scenario.load_document
              Scenario.str_of (PyStr "/ws") (PyStr "build") Scenario.stored_metadata)
    as [_ Hnone].
  rewrite (Hnone (PyStr "default") Scenario.stored_metadata
             (PyDict [("jobs", PyInt 4)]) Scenario.stored_metadata); reflexivity.
Defined.

Lemma update_active_metadata_always_raises_witness :
  update_active_metadata
    (Profiles.migrate_metadata "0.4.5" Cases.migrate_version_nothing) Cases.load_profiles
    1000 [PyStr "/ws"; PyStr "build"; PyDict [("jobs", PyInt 8)]] Cases.bare
  = Exc TypeError Cases.stamped.
Proof.
  destruct (update_active_metadata_always_raises
              (Profiles.migrate_metadata "0.4.5" Cases.migrate_version_nothing)
              Cases.load_profiles 999 (PyStr "/ws") (PyStr "build")
              (PyDict [("jobs", PyInt 8)]) Cases.bare)
    as (_ & Hraises & _).
  apply (Hraises (PyStr "default")).
  apply outcome_Ok; [vm_compute; reflexivity|by_evaluation].
Defined.

(** C10 as stated fails, with [migrate_metadata] as the lookup of the
    active profile runs it.  On a workspace whose profiles file is not a
    YAML document the call raises [YAMLError], not [TypeError].  On a
    workspace whose metadata directory has no [VERSION] file the call raises
    [TypeError], but the stored metadata is not as before: the migration has
    written the [VERSION] file. *)
Theorem update_active_metadata_migrates_and_relays :
  let update :=
    update_active_metadata
      (Profiles.migrate_metadata "0.4.5" Cases.migrate_version_nothing) Cases.load_profiles
      1000 in
  update [PyStr "/ws"; PyStr "build"; PyDict [("jobs", PyInt 8)]] Cases.garbled
  = Exc YAMLError Cases.garbled
  ∧ update [PyStr "/ws"; PyStr "build"; PyDict [("jobs", PyInt 8)]] Cases.bare
    = Exc TypeError Cases.stamped
  ∧ Cases.bare !! ["ws"; ".catkin_tools"; "VERSION"] = None
  ∧ Cases.stamped !! ["ws"; ".catkin_tools"; "VERSION"] = Some (NFile "0.4.5").
Proof.
  cbv zeta. split_and!.
  - apply outcome_Exc; [vm_compute; reflexivity|by_evaluation].
  - apply outcome_Exc; [vm_compute; reflexivity|by_evaluation].
  - by_evaluation.
  - by_evaluation.
Qed.

(** *** Directory listings *)

Lemma child_name_app dir x : child_name dir (dir ++ [x]) = Some x.
Proof. induction dir as [|a dir IH]; simpl; [done|]. by rewrite decide_True. Qed.

Lemma entries_nil (f : gmap path node) (dir : path) (x : string) :
  entries f dir = [] → f !! (dir ++ [x]) = None.
Proof.
  unfold entries. intros Hnil.
  destruct (f !! (dir ++ [x])) as [n|] eqn:Hlook; [|done].
  apply elem_of_map_to_list in Hlook.
  assert (Hin : x ∈ omap (fun kv : path * node => child_name dir kv.1) (map_to_list f)).
  { apply list_elem_of_omap. exists (dir ++ [x], n). split; [done|]. apply child_name_app. }
  rewrite Hnil in Hin. by apply elem_of_nil in Hin.
Qed.

(** *** What [os.rmdir] and [os.removedirs] remove *)

Lemma os_rmdir_Some (f f' : gmap path node) (p : path) :
  os_rmdir f p = Some f' →
  ∃ loc, entry_location f p = Some loc ∧ f !! loc = Some NDir
         ∧ entries f loc = [] ∧ f' = delete loc f.
Proof.
  unfold os_rmdir. destruct (entry_location f p) as [loc|]; [|done]. simpl.
  destruct (f !! loc) as [[]|] eqn:Hloc; try done.
  destruct (entries f loc) eqn:Hent; [|done]. intros [= <-]. eauto.
Qed.

Lemma only_empty_dirs_removed_refl f : only_empty_dirs_removed f f.
Proof. split; [done|]. intros k n H1 H2. congruence. Qed.

Lemma only_empty_dirs_removed_rmdir f0 f f' p :
  only_empty_dirs_removed f0 f → os_rmdir f p = Some f' → only_empty_dirs_removed f0 f'.
Proof.
  intros [Hsub Hrem] (loc & _ & Hdir & Hent & ->)%os_rmdir_Some. split.
  - etrans; [apply delete_subseteq|done].
  - intros k n Hk0 Hk. destruct (decide (k = loc)) as [->|Hne].
    + assert (n = NDir) as ->.
      { pose proof (lookup_weaken _ _ _ _ Hdir Hsub) as Hdir0. congruence. }
      split; [done|]. intros x. apply lookup_delete_None. right. by apply entries_nil.
    + rewrite lookup_delete_ne in Hk by done.
      destruct (Hrem k n Hk0 Hk) as [-> Hempty]. split; [done|].
      intros x. apply lookup_delete_None. right. apply Hempty.
Qed.

Lemma removedirs_parents_only_empty n f0 f head :
  only_empty_dirs_removed f0 f → only_empty_dirs_removed f0 (removedirs_parents n f head).
Proof.
  revert f head. induction n as [|n IH]; intros f head Hinv; simpl; [done|].
  destruct head as [|c head']; [done|].
  destruct (os_rmdir f (c :: head')) as [f'|] eqn:Hrm; [|done].
  apply IH. by eapply only_empty_dirs_removed_rmdir.
Qed.

Lemma removedirs_only_empty f0 f name :
  only_empty_dirs_removed f0 f →
  only_empty_dirs_removed f0 (default f (os_removedirs f name)).
Proof.
  intros Hinv. unfold os_removedirs.
  destruct (os_rmdir f name) as [f'|] eqn:Hrm; simpl; [|done].
  apply removedirs_parents_only_empty. by eapply only_empty_dirs_removed_rmdir.
Qed.

Lemma os_unlink_Some (f f' : gmap path node) (p : path) :
  os_unlink f p = Some f' →
  ∃ loc n, entry_location f p = Some loc ∧ f !! loc = Some n ∧ n ≠ NDir ∧ f' = delete loc f.
Proof.
  unfold os_unlink. destruct (entry_location f p) as [loc|]; [|done]. simpl.
  destruct (f !! loc) as [n|] eqn:Hloc; [|done].
  destruct n; try done; intros [= <-]; eauto 10.
Qed.

(** *** The path walk *)

Lemma lookup_node_weaken (f f0 : gmap path node) p n :
  f ⊆ f0 → lookup_node f p = Some n → lookup_node f0 p = Some n.
Proof. intros Hsub. destruct p; [done|]. simpl. intros H. by eapply lookup_weaken. Qed.

Lemma lookup_node_snoc (f : gmap path node) cur c :
  lookup_node f (cur ++ [c]) = f !! (cur ++ [c]).
Proof. by destruct cur. Qed.

(** A walk that ends on an existing entry of [f] is the same walk in a
    larger file system. *)
Lemma walk_components_weaken (f f0 : gmap path node) follow
    (enter enter0 : path → path → option path) :
  f ⊆ f0 →
  (∀ base rest loc, enter base rest = Some loc → is_Some (lookup_node f loc) →
                    enter0 base rest = Some loc) →
  ∀ rest cur loc,
    walk_components enter f follow cur rest = Some loc → is_Some (lookup_node f loc) →
    walk_components enter0 f0 follow cur rest = Some loc.
Proof.
  intros Hsub Henter. induction rest as [|c r IH]; intros cur loc; [done|].
  cbn [walk_components]. repeat case_decide; [by apply IH..|].
  destruct (f !! (cur ++ [c])) as [n|] eqn:Hp.
  - rewrite (lookup_weaken _ _ _ _ Hp Hsub).
    destruct n as [| |rel t]; [done|by apply IH|].
    destruct r, follow; try done; apply Henter.
  - destruct r; [|done]. intros [= <-]. rewrite lookup_node_snoc, Hp. by intros [? ?].
Qed.

Lemma walk_path_weaken (f f0 : gmap path node) follow :
  f ⊆ f0 →
  ∀ budget cur rest loc,
    walk_path budget f follow cur rest = Some loc → is_Some (lookup_node f loc) →
    walk_path budget f0 follow cur rest = Some loc.
Proof.
  intros Hsub. induction budget as [|b IHb]; intros cur rest loc; cbn [walk_path];
    apply walk_components_weaken; done.
Qed.

(** A walk that follows the last link and ends on an existing entry goes, when
    it does not follow the last link, to an existing entry too. *)
Lemma walk_components_nofollow (f : gmap path node)
    (enter_t enter_f : path → path → option path) :
  (∀ base rest target, enter_t base rest = Some target → is_Some (lookup_node f target) →
     ∃ loc, enter_f base rest = Some loc ∧ is_Some (lookup_node f loc)) →
  ∀ rest cur target,
    walk_components enter_t f true cur rest = Some target → is_Some (lookup_node f target) →
    ∃ loc, walk_components enter_f f false cur rest = Some loc ∧ is_Some (lookup_node f loc).
Proof.
  intros Henter. induction rest as [|c r IH]; intros cur target; [by eauto|].
  cbn [walk_components]. repeat case_decide; [by apply IH..|].
  destruct (f !! (cur ++ [c])) as [n|] eqn:Hp; [|by destruct r; eauto].
  destruct n as [| |rel t]; [by destruct r; eauto|by apply IH|].
  destruct r as [|c' r'].
  - intros _ _. eexists. split; [done|]. rewrite lookup_node_snoc, Hp. by eexists.
  - apply Henter.
Qed.

Lemma walk_path_nofollow (f : gmap path node) :
  ∀ budget cur rest target,
    walk_path budget f true cur rest = Some target → is_Some (lookup_node f target) →
    ∃ loc, walk_path budget f false cur rest = Some loc ∧ is_Some (lookup_node f loc).
Proof.
  induction budget as [|b IHb]; intros cur rest target; cbn [walk_path];
    apply walk_components_nofollow; done.
Qed.

Lemma reached_root f : reached f [].
Proof. intros q Hq. apply prefix_nil_inv in Hq. by subst. Qed.

Lemma reached_removelast f cur : reached f cur → reached f (removelast cur).
Proof.
  intros Hr q Hq. apply Hr. etrans; [exact Hq|].
  destruct (decide (cur = [])) as [->|Hne]; [done|].
  rewrite (app_removelast_last "" Hne) at 2. by apply prefix_app_r.
Qed.

Lemma reached_snoc f cur c :
  reached f cur → f !! (cur ++ [c]) = Some NDir → reached f (cur ++ [c]).
Proof.
  intros Hr Hc q Hq. destruct (decide (q = cur ++ [c])) as [->|Hne].
  - by rewrite lookup_node_snoc.
  - apply Hr. destruct Hq as [k Hk].
    destruct (decide (k = [])) as [->|Hk']; [by rewrite app_nil_r in Hk|].
    rewrite (app_removelast_last "" Hk') in Hk. rewrite app_assoc in Hk.
    apply app_inj_tail in Hk as [-> _]. by apply prefix_app_r.
Qed.

Lemma ends_in_dot_cons c r :
  ends_in_dot (c :: r) → r ≠ [] → ends_in_dot r.
Proof. intros [_ H] Hr. split; [done|]. by destruct r. Qed.

Lemma last_default_app (t r : path) d : r ≠ [] → List.last (t ++ r) d = List.last r d.
Proof.
  intros Hr. induction t as [|x t IH]; [done|].
  simpl. destruct (t ++ r) eqn:Happ; [|done].
  apply app_eq_nil in Happ as [_ ->]. done.
Qed.

Lemma ends_in_dot_app t r : r ≠ [] → ends_in_dot r → ends_in_dot (t ++ r).
Proof.
  intros Hr [_ H]. split; [by destruct t, r|]. by rewrite last_default_app.
Qed.

Lemma walk_components_dot (f : gmap path node) follow (enter : path → path → option path) :
  (∀ base rest loc, reached f base → ends_in_dot rest →
                    enter base rest = Some loc → reached f loc) →
  ∀ rest cur loc,
    reached f cur → ends_in_dot rest →
    walk_components enter f follow cur rest = Some loc → reached f loc.
Proof.
  intros Henter. induction rest as [|c r IH]; intros cur loc Hcur Hdot; [by destruct Hdot|].
  cbn [walk_components]. repeat case_decide.
  - destruct r; [by intros [= <-]|]. apply IH; [done|]. by apply ends_in_dot_cons in Hdot.
  - destruct r; [intros [= <-]; by apply reached_removelast|].
    apply IH; [by apply reached_removelast|]. by apply ends_in_dot_cons in Hdot.
  - assert (Hr : r ≠ []).
    { intros ->. destruct Hdot as [_ [?|?]]; simpl in *; congruence. }
    apply ends_in_dot_cons in Hdot; [|done].
    destruct (f !! (cur ++ [c])) as [n|] eqn:Hp; [|by destruct r].
    destruct n as [| |rel t]; [by destruct r|apply IH; [by apply reached_snoc|done]|].
    destruct r as [|c' r']; [done|].
    apply Henter; [destruct rel; [done|apply reached_root]|by apply ends_in_dot_app].
Qed.

Lemma walk_path_dot (f : gmap path node) follow :
  ∀ budget cur rest loc,
    reached f cur → ends_in_dot rest →
    walk_path budget f follow cur rest = Some loc → reached f loc.
Proof.
  induction budget as [|b IHb]; intros cur rest loc; cbn [walk_path];
    apply walk_components_dot; done.
Qed.

(** One more name after a walk that ends in a directory. *)
Lemma walk_components_snoc (f : gmap path node) (enter : path → path → option path)
    (c : string) :
  c ≠ "." → c ≠ ".." →
  (∀ base rest dir, enter base rest = Some dir → lookup_node f dir = Some NDir →
                    enter base (rest ++ [c]) = Some (dir ++ [c])) →
  ∀ rest cur dir,
    walk_components enter f false cur rest = Some dir → lookup_node f dir = Some NDir →
    walk_components enter f false cur (rest ++ [c]) = Some (dir ++ [c]).
Proof.
  intros Hc1 Hc2 Henter. induction rest as [|x r IH]; intros cur dir.
  - intros [= <-] _. cbn [app walk_components]. rewrite !decide_False by done.
    by destruct (f !! (cur ++ [c])) as [[]|].
  - cbn [app walk_components]. repeat case_decide; [by apply IH..|].
    destruct (f !! (cur ++ [x])) as [n|] eqn:Hp.
    + destruct n as [| |rel t].
      * destruct r; [|done]. intros [= <-]. by rewrite lookup_node_snoc, Hp.
      * by apply IH.
      * destruct r as [|y r'].
        -- intros [= <-]. by rewrite lookup_node_snoc, Hp.
        -- cbn [app]. rewrite app_comm_cons, app_assoc. apply Henter.
    + destruct r; [|done]. intros [= <-]. by rewrite lookup_node_snoc, Hp.
Qed.

Lemma walk_path_snoc (f : gmap path node) (c : string) :
  c ≠ "." → c ≠ ".." →
  ∀ budget cur rest dir,
    walk_path budget f false cur rest = Some dir → lookup_node f dir = Some NDir →
    walk_path budget f false cur (rest ++ [c]) = Some (dir ++ [c]).
Proof.
  intros Hc1 Hc2. induction budget as [|b IHb]; intros cur rest dir; cbn [walk_path];
    apply walk_components_snoc; done.
Qed.

(** *** Symbolic links stay removable *)

Lemma entry_location_Some (f : gmap path node) (d loc : path) :
  entry_location f d = Some loc ↔
  walk_path SYMLOOP_MAX f false [] d = Some loc ∧ loc ≠ []
  ∧ ¬ (d = [] ∨ os_path_basename d = "." ∨ os_path_basename d = "..").
Proof.
  unfold entry_location. split.
  - case_decide; [done|].
    destruct (walk_path SYMLOOP_MAX f false [] d) as [loc'|]; [|done]. simpl.
    case_decide; [done|]. by intros [= <-].
  - intros (-> & Hne & Hdot). rewrite decide_False by done. simpl.
    by rewrite decide_False.
Qed.

Lemma os_path_islink_location (f : gmap path node) (d : path) :
  os_path_islink f d = true →
  ∃ loc rel t, f !! loc = Some (NLink rel t) ∧ entry_location f d = Some loc.
Proof.
  unfold os_path_islink, os_lstat.
  destruct (walk_path SYMLOOP_MAX f false [] d) as [loc|] eqn:Hwalk; [|done]. simpl.
  destruct (lookup_node f loc) as [[| |rel t]|] eqn:Hloc; try done. intros _.
  assert (Hnot : ¬ reached f loc).
  { intros Hr. specialize (Hr loc (reflexivity _)). congruence. }
  exists loc, rel, t. split.
  - destruct loc; [done|exact Hloc].
  - unfold entry_location. rewrite decide_False.
    + rewrite Hwalk. simpl. rewrite decide_False; [done|]. by intros ->.
    + intros [->|Hdot].
      * apply Hnot. injection Hwalk as <-. apply reached_root.
      * apply Hnot. eapply walk_path_dot; [apply reached_root| |exact Hwalk].
        split; [|done]. intros ->. apply Hnot. injection Hwalk as <-. apply reached_root.
Qed.

(** After [d] has been unlinked it does not exist, whatever else is removed. *)
Lemma unlinked_stays_absent (f f1 f' : gmap path node) (d : path) :
  os_unlink f d = Some f1 → f' ⊆ f1 → os_path_exists f' d = false.
Proof.
  intros (loc & n & (Hwalk & Hne & _)%entry_location_Some & Hn & _ & ->)%os_unlink_Some Hsub.
  apply not_true_is_false. intros Hex.
  unfold os_path_exists in Hex. apply bool_decide_eq_true in Hex as [m Hm].
  unfold os_stat in Hm.
  destruct (walk_path SYMLOOP_MAX f' true [] d) as [target|] eqn:Hwalk'; [|done].
  simpl in Hm.
  destruct (walk_path_nofollow f' _ _ _ _ Hwalk' (mk_is_Some _ _ Hm)) as (loc' & Hloc' & [k Hk]).
  assert (Hsub' : f' ⊆ f) by (etrans; [exact Hsub|apply delete_subseteq]).
  pose proof (walk_path_weaken f' f false Hsub' _ _ _ _ Hloc' (mk_is_Some _ _ Hk)) as Hloc.
  assert (loc' = loc) as -> by congruence.
  destruct loc; [done|]. simpl in Hk.
  pose proof (lookup_weaken _ _ _ _ Hk Hsub) as Hk1. by rewrite lookup_delete_eq in Hk1.
Qed.

(** What does not exist cannot come to exist by removing entries. *)
Lemma absent_stays_absent (f f' : gmap path node) (d : path) :
  f' ⊆ f → os_path_exists f d = false → os_path_exists f' d = false.
Proof.
  intros Hsub Hno. apply not_true_is_false. intros Hex.
  apply not_true_iff_false in Hno. apply Hno.
  unfold os_path_exists in *. apply bool_decide_eq_true in Hex as [m Hm].
  apply bool_decide_eq_true. unfold os_stat in *.
  destruct (walk_path SYMLOOP_MAX f' true [] d) as [target|] eqn:Hwalk'; [|done].
  simpl in Hm.
  rewrite (walk_path_weaken f' f true Hsub _ _ _ _ Hwalk' (mk_is_Some _ _ Hm)). simpl.
  exists m. by eapply lookup_node_weaken.
Qed.

Lemma symlink_still_unlinkable (f f0 : gmap path node) (d : path) :
  f ⊆ f0 → os_path_islink f0 d = true → os_path_exists f d = true →
  is_Some (os_unlink f d).
Proof.
  intros Hsub (loc0 & rel & t & Hloc0 & (Hwalk0 & Hne0 & Hdot)%entry_location_Some)%os_path_islink_location
    Hex.
  unfold os_path_exists in Hex. apply bool_decide_eq_true in Hex as [n Hn].
  unfold os_stat in Hn.
  destruct (walk_path SYMLOOP_MAX f true [] d) as [target|] eqn:Hwalk; [|done].
  simpl in Hn.
  destruct (walk_path_nofollow f _ _ _ _ Hwalk (mk_is_Some _ _ Hn)) as (loc & Hloc & [m Hm]).
  pose proof (walk_path_weaken f f0 false Hsub _ _ _ _ Hloc (mk_is_Some _ _ Hm)) as Hloc'.
  assert (loc = loc0) as -> by congruence.
  pose proof (lookup_node_weaken _ _ _ _ Hsub Hm) as Hm0.
  assert (Hm' : f !! loc0 = Some (NLink rel t)).
  { destruct loc0; [done|]. simpl in *. congruence. }
  assert (Hentry : entry_location f d = Some loc0) by by apply entry_location_Some.
  unfold os_unlink. rewrite Hentry. simpl. rewrite Hm'. by eexists.
Qed.

Lemma split_last_path (p : path) : p ≠ [] → p = os_path_dirname p ++ [os_path_basename p].
Proof. apply app_removelast_last. Qed.

(** The directory an entry is in: the location of the directory part of its
    path, when that is a directory. *)
Lemma entry_location_parent (f : gmap path node) (d loc dir : path) :
  entry_location f d = Some loc →
  walk_path SYMLOOP_MAX f false [] (os_path_dirname d) = Some dir →
  lookup_node f dir = Some NDir →
  loc = dir ++ [os_path_basename d].
Proof.
  intros (Hwalk & _ & Hdot)%entry_location_Some Hdir Hnode.
  assert (Hd : d ≠ []) by tauto.
  rewrite (split_last_path d Hd) in Hwalk at 1.
  rewrite (walk_path_snoc f (os_path_basename d)) with (dir := dir) in Hwalk;
    [congruence|tauto|tauto|done|done].
Qed.

(** The directories the loop of [os.removedirs] removes lie above the entry
    [child] it starts from. *)
Lemma removedirs_parents_above (f0 : gmap path node) n : ∀ f head name child,
  f ⊆ f0 → name ≠ "." → name ≠ ".." →
  walk_path SYMLOOP_MAX f0 false [] (head ++ [name]) = Some child →
  ∀ k, is_Some (f !! k) → removedirs_parents n f head !! k = None →
       k `prefix_of` child ∧ k ≠ child.
Proof.
  induction n as [|n IH]; intros f head name child Hsub Hn1 Hn2 Hchild k Hk Hgone.
  { simpl in Hgone. destruct Hk as [? Hk]. congruence. }
  cbn [removedirs_parents] in Hgone.
  destruct head as [|h0 head']; [destruct Hk as [? Hk]; congruence|].
  set (head := h0 :: head') in *.
  destruct (os_rmdir f head) as [f'|] eqn:Hrm; [|destruct Hk as [? Hk]; congruence].
  destruct (os_rmdir_Some _ _ _ Hrm) as (dir & Hentry & Hdir & _ & ->).
  pose proof Hentry as (Hwalk & Hne & Hdot)%entry_location_Some.
  assert (Hwalk0 : walk_path SYMLOOP_MAX f0 false [] head = Some dir).
  { eapply walk_path_weaken; [exact Hsub|exact Hwalk|].
    destruct dir; [done|]. simpl. by eexists. }
  assert (Hdir0 : lookup_node f0 dir = Some NDir).
  { eapply lookup_node_weaken; [exact Hsub|]. destruct dir; [done|]. exact Hdir. }
  assert (Hchild' : child = dir ++ [name]).
  { rewrite (walk_path_snoc f0 name Hn1 Hn2 _ _ _ _ Hwalk0 Hdir0) in Hchild. congruence. }
  destruct (decide (k = dir)) as [->|Hkd].
  - split; [rewrite Hchild'; by apply prefix_app_r|].
    rewrite Hchild'. intros Heq. apply (f_equal length) in Heq.
    rewrite length_app in Heq. simpl in Heq. lia.
  - assert (Hprefix : k `prefix_of` dir ∧ k ≠ dir).
    { apply (IH (delete dir f) (os_path_dirname head) (os_path_basename head) dir).
      - etrans; [apply delete_subseteq|done].
      - tauto.
      - tauto.
      - rewrite <- split_last_path by tauto. exact Hwalk0.
      - by rewrite lookup_delete_ne.
      - exact Hgone. }
    destruct Hprefix as [Hpre _]. split.
    + rewrite Hchild'. etrans; [exact Hpre|]. by apply prefix_app_r.
    + rewrite Hchild'. intros ->. apply prefix_length in Hpre.
      rewrite length_app in Hpre. simpl in Hpre. lia.
Qed.

(** What [os.removedirs name] removes lies at or above [name]. *)
Lemma removedirs_above (f : gmap path node) (name k : path) :
  is_Some (f !! k) → default f (os_removedirs f name) !! k = None →
  ∃ dir, entry_location f name = Some dir ∧ f !! dir = Some NDir ∧ k `prefix_of` dir.
Proof.
  intros Hk Hgone. unfold os_removedirs in Hgone.
  destruct (os_rmdir f name) as [f'|] eqn:Hrm; [|destruct Hk as [? Hk]; simpl in *; congruence].
  simpl in Hgone.
  destruct (os_rmdir_Some _ _ _ Hrm) as (dir & Hentry & Hdir & _ & ->).
  exists dir. split; [done|]. split; [done|].
  destruct (decide (k = dir)) as [->|Hkd]; [done|].
  pose proof Hentry as (Hwalk & Hne & Hdot)%entry_location_Some.
  apply (removedirs_parents_above f (length name) (delete dir f) (os_path_dirname name)
           (os_path_basename name) dir).
  - apply delete_subseteq.
  - tauto.
  - tauto.
  - rewrite <- split_last_path by tauto. exact Hwalk.
  - by rewrite lookup_delete_ne.
  - exact Hgone.
Qed.

(** *** The collision counts *)

Lemma add_collision_count D d d' :
  count_of (add_collision D d) d' = count_of D d' + (if decide (d' = d) then 1 else 0).
Proof.
  unfold count_of, add_collision. destruct (D !! d) as [n|] eqn:Hd.
  - destruct (decide (d' = d)) as [->|Hne].
    + rewrite lookup_insert_eq, Hd. done.
    + rewrite lookup_insert_ne by done. simpl. lia.
  - destruct (decide (d' = d)) as [->|Hne].
    + rewrite lookup_insert_eq, Hd. done.
    + rewrite lookup_insert_ne by done. simpl. lia.
Qed.

Lemma add_collisions_count C : ∀ D d,
  count_of (foldl add_collision D C) d
  = count_of D d + Z.of_nat (length (filter (eq d) C)).
Proof.
  induction C as [|c C IH]; intros D d; simpl; [lia|].
  rewrite IH, add_collision_count. rewrite filter_cons.
  destruct (decide (d = c)); simpl; lia.
Qed.

Lemma add_collisions_present C : ∀ D d,
  d ∈ C → is_Some (foldl add_collision D C !! d).
Proof.
  assert (Hkeep : ∀ C D d, is_Some (D !! d) → is_Some (foldl add_collision D C !! d)).
  { clear. induction C as [|c C IH]; intros D d HD; simpl; [done|].
    apply IH. unfold add_collision. destruct (D !! c) eqn:Hc.
    - destruct (decide (c = d)) as [->|]; [by rewrite lookup_insert_eq|by rewrite lookup_insert_ne].
    - destruct (decide (c = d)) as [->|]; [by rewrite lookup_insert_eq|by rewrite lookup_insert_ne]. }
  induction C as [|c C IH]; intros D d Hin; [by apply elem_of_nil in Hin|].
  apply elem_of_cons in Hin as [->|Hin]; simpl; [|by apply IH].
  apply Hkeep. unfold add_collision. destruct (D !! c); by rewrite lookup_insert_eq.
Qed.

(** *** The cases of [clean_file] *)

Lemma clean_file_unlinks D d s f1 :
  count_of D d = 0 → os_path_exists (fs s) d = true → os_unlink (fs s) d = Some f1 →
  clean_file false D d s
  = Ok D (set_fs (default f1 (os_removedirs f1 (os_path_dirname d)))
            (add_log (LogOut (Unlinking d)) s)).
Proof.
  unfold count_of. intros Hn Hex Hun. unfold clean_file. rewrite Hn.
  rewrite decide_True by done. rewrite decide_False by lia. rewrite decide_False by lia.
  unfold bind, logger_out, modify, get, try_except, os_call, ret.
  cbn [add_log fs]. rewrite Hex. cbn [add_log fs]. rewrite Hun.
  cbn [set_fs fs add_log collisions_files manifest_files log is_OSError fst os_path_split].
  unfold os_path_dirname.
  destruct (os_removedirs f1 (removelast d)) as [f2|] eqn:Hrd;
    cbn [set_fs fs add_log collisions_files manifest_files log default]; [done|].
  reflexivity.
Qed.

Lemma clean_file_unlink_fails D d s :
  count_of D d = 0 → os_path_exists (fs s) d = true → os_unlink (fs s) d = None →
  clean_file false D d s
  = Exc OSError (add_log (LogErr (CouldNotUnlink d)) (add_log (LogOut (Unlinking d)) s)).
Proof.
  unfold count_of. intros Hn Hex Hun. unfold clean_file. rewrite Hn.
  rewrite decide_True by done.
  unfold bind, logger_out, logger_err, modify, get, try_except, os_call, ret, raise.
  cbn [add_log fs]. rewrite Hex. cbn [add_log fs]. by rewrite Hun.
Qed.

Lemma clean_file_already_unlinked D d s :
  count_of D d = 0 → os_path_exists (fs s) d = false →
  clean_file false D d s
  = Ok D (add_log (LogOut AlreadyUnlinked) (add_log (LogOut (Unlinking d)) s)).
Proof.
  unfold count_of. intros Hn Hex. unfold clean_file. rewrite Hn.
  rewrite decide_True by done. rewrite decide_False by lia. rewrite decide_False by lia.
  unfold bind, logger_out, modify, get, ret. cbn [add_log fs]. by rewrite Hex.
Qed.

Lemma clean_file_dry_run D d s :
  count_of D d = 0 →
  clean_file true D d s = Ok D (add_log (LogOut (Unlinking d)) s).
Proof.
  unfold count_of. intros Hn. unfold clean_file. rewrite Hn.
  rewrite decide_True by done. rewrite decide_False by lia. by rewrite decide_False by lia.
Qed.

Lemma clean_file_decrements dry_run D d s :
  count_of D d > 1 →
  clean_file dry_run D d s = Ok (<[d := count_of D d - 1]> D) s.
Proof.
  unfold count_of. intros Hn. unfold clean_file.
  rewrite decide_False by lia. by rewrite decide_True by lia.
Qed.

Lemma clean_file_forgets dry_run D d s :
  count_of D d = 1 →
  clean_file dry_run D d s = Ok (delete d D) s.
Proof.
  unfold count_of. intros Hn. unfold clean_file. rewrite Hn.
  rewrite decide_False by lia. rewrite decide_False by lia. by rewrite decide_True.
Qed.

Lemma clean_file_other dry_run D d s :
  count_of D d < 0 → clean_file dry_run D d s = Ok D s.
Proof.
  unfold count_of. intros Hn. unfold clean_file.
  rewrite decide_False by lia. rewrite decide_False by lia. by rewrite decide_False by lia.
Qed.

(** The ledger entry of a destination after the removal loop, from its count
    [n] before the loop and the number [k] of times the loop meets it: an
    entry without a positive count is left alone; a positive count is
    decremented [k] times and the entry is deleted when it reaches 0. *)
Lemma clean_files_entry dry_run files : ∀ D s D' s' d,
  for_each files D (clean_file dry_run) s = Ok D' s' →
  D' !! d =
    if decide (1 ≤ count_of D d) then
      if decide (count_of D d ≤ Z.of_nat (length (filter (eq d) files))) then None
      else Some (count_of D d - Z.of_nat (length (filter (eq d) files)))
    else D !! d.
Proof.
  induction files as [|d0 files IH]; intros D s D' s' d Hrun.
  - injection Hrun as <- <-. rewrite filter_nil. cbn [length Z.of_nat]. unfold count_of.
    destruct (D !! d) as [n|] eqn:Hd; simpl; repeat case_decide; try done; try lia.
    f_equal. lia.
  - cbn [for_each] in Hrun. unfold bind in Hrun.
    destruct (clean_file dry_run D d0 s) as [D1 s1|] eqn:Hstep; [|done].
    rewrite (IH _ _ _ _ d Hrun). clear IH Hrun.
    rewrite filter_cons.
    assert (HD1 : D1 = if decide (count_of D d0 > 1) then <[d0 := count_of D d0 - 1]> D
                       else if decide (count_of D d0 = 1) then delete d0 D else D).
    { unfold clean_file, bind in Hstep. fold (count_of D d0) in Hstep.
      match type of Hstep with
      | match ?m s with _ => _ end = _ => destruct (m s) as [[] s2|]; [|done]
      end.
      unfold ret in Hstep. repeat case_decide; by injection Hstep as <- _. }
    subst D1. unfold count_of.
    destruct (decide (d = d0)) as [->|Hne]; cbn [length].
    + repeat case_decide; rewrite ?lookup_insert_eq, ?lookup_delete_eq in *;
        simpl in *; try done; try lia; try (f_equal; lia);
        destruct (D !! d0); simpl in *; try done; try lia; f_equal; lia.
    + assert (Hsame : (if decide (default 0 (D !! d0) > 1)
                       then <[d0 := default 0 (D !! d0) - 1]> D
                       else if decide (default 0 (D !! d0) = 1) then delete d0 D else D) !! d
                      = D !! d).
      { repeat case_decide; by rewrite ?lookup_insert_ne, ?lookup_delete_ne. }
      by rewrite Hsame.
Qed.

(** In a dry run the removal loop only logs. *)
Lemma clean_files_dry_run files : ∀ D s,
  ∃ D' s', for_each files D (clean_file true) s = Ok D' s' ∧ same_stores s s'.
Proof.
  induction files as [|d files IH]; intros D s.
  - by exists D, s.
  - cbn [for_each]. unfold bind.
    assert (Hstep : ∃ D1 s1, clean_file true D d s = Ok D1 s1 ∧ same_stores s s1).
    { destruct (Z.lt_trichotomy (count_of D d) 0) as [Hneg|[Hzero|Hpos]].
      - rewrite clean_file_other by done. by eexists _, _.
      - rewrite clean_file_dry_run by done. by eexists _, _.
      - destruct (decide (count_of D d = 1)) as [Hone|Hmore].
        + rewrite clean_file_forgets by done. by eexists _, _.
        + rewrite clean_file_decrements by lia. by eexists _, _. }
    destruct Hstep as (D1 & s1 & -> & Hf1 & Hc1 & Hm1).
    destruct (IH D1 s1) as (D' & s' & -> & Hf' & Hc' & Hm').
    exists D', s'. split; [done|]. split_and!; congruence.
Qed.

(** What unlinking [d] and pruning its parents leaves of the file system. *)
Lemma unlink_and_prune (f f1 : gmap path node) (d : path) :
  os_unlink f d = Some f1 →
  let f' := default f1 (os_removedirs f1 (os_path_dirname d)) in
  ∃ loc, entry_location f d = Some loc
    ∧ f' !! loc = None
    ∧ f' ⊆ f
    ∧ ∀ k n, k ≠ loc → f !! k = Some n → f' !! k = None →
        n = NDir ∧ k `prefix_of` loc ∧ ∀ x, f' !! (k ++ [x]) = None.
Proof.
  intros Hun f'.
  destruct (os_unlink_Some _ _ _ Hun) as (loc & n & Hloc & Hn & Hnd & ->).
  pose proof (removedirs_only_empty (delete loc f) (delete loc f) (os_path_dirname d)
                (only_empty_dirs_removed_refl _)) as [Hsub Hrem].
  fold f' in Hsub, Hrem. exists loc. split_and!; [done| | |].
  - eapply lookup_weaken_None; [|exact Hsub]. apply lookup_delete_eq.
  - etrans; [exact Hsub|apply delete_subseteq].
  - intros k m Hk Hf Hf'.
    assert (Hf1 : delete loc f !! k = Some m) by by rewrite lookup_delete_ne.
    destruct (Hrem k m Hf1 Hf') as [-> Hempty]. split_and!; [done| |done].
    destruct (removedirs_above (delete loc f) (os_path_dirname d) k
                (mk_is_Some _ _ Hf1) Hf') as (dir & Hentry & Hdir & Hpre).
    apply entry_location_Some in Hentry as (Hwalk & Hne & _).
    assert (Hloc' : loc = dir ++ [os_path_basename d]).
    { eapply entry_location_parent; [exact Hloc| |].
      - eapply walk_path_weaken; [apply delete_subseteq|exact Hwalk|].
        destruct dir; [done|]. simpl. by eexists.
      - eapply lookup_node_weaken; [apply delete_subseteq|].
        destruct dir; [done|]. exact Hdir. }
    rewrite Hloc'. etrans; [exact Hpre|]. by apply prefix_app_r.
Qed.

(** *** Directories that are left empty are pruned *)

Lemma child_name_Some (dir k : path) (x : string) :
  child_name dir k = Some x → k = dir ++ [x].
Proof.
  revert k. induction dir as [|a dir IH]; intros k; cbn [child_name app].
  - destruct k as [|y [|z k']]; [done| |done]. by intros [= ->].
  - destruct k as [|b k']; [done|]. case_decide; [|done]. subst. intros Hk.
    by rewrite (IH _ Hk).
Qed.

Lemma entries_empty (f : gmap path node) (dir : path) :
  (∀ x, f !! (dir ++ [x]) = None) → entries f dir = [].
Proof.
  intros Hnone. unfold entries.
  destruct (omap _ (map_to_list f)) as [|x l] eqn:Hl; [done|].
  assert (Hin : x ∈ omap (fun kv : path * node => child_name dir kv.1) (map_to_list f))
    by (rewrite Hl; left).
  apply list_elem_of_omap in Hin as ([k n] & Hk & Hchild).
  apply elem_of_map_to_list in Hk. apply child_name_Some in Hchild. cbn in Hchild.
  subst k. by rewrite Hnone in Hk.
Qed.

(** A path in canonical form leads to itself. *)
Lemma walk_components_plain (f : gmap path node) (follow : bool)
    (enter : path → path → option path) :
  ∀ rest cur,
    plain rest → (∀ q, q `prefix_of` rest → lookup_node f (cur ++ q) = Some NDir) →
    walk_components enter f follow cur rest = Some (cur ++ rest).
Proof.
  induction rest as [|c r IH]; intros cur Hplain Hdirs.
  - by rewrite app_nil_r.
  - apply Forall_cons in Hplain as [[Hc1 Hc2] Hplain].
    cbn [walk_components]. rewrite !decide_False by done.
    assert (Hc : f !! (cur ++ [c]) = Some NDir).
    { rewrite <- lookup_node_snoc. apply Hdirs. by apply prefix_cons, prefix_nil. }
    rewrite Hc. rewrite IH; [by rewrite <- app_assoc|done|].
    intros q Hq. rewrite <- app_assoc. apply Hdirs. by apply prefix_cons.
Qed.

Lemma walk_path_plain (f : gmap path node) (follow : bool) (budget : nat) (p : path) :
  plain p → reached f p → walk_path budget f follow [] p = Some p.
Proof.
  intros Hplain Hreached. destruct budget; cbn [walk_path];
    by apply (walk_components_plain f follow _ p []).
Qed.

Lemma prefix_of_dirname (k head : path) :
  k `prefix_of` head → k ≠ head → k `prefix_of` os_path_dirname head.
Proof.
  intros [rest ->] Hne. unfold os_path_dirname.
  destruct rest as [|x rest] using rev_ind; [by rewrite app_nil_r in Hne|].
  rewrite app_assoc, removelast_last. by apply prefix_app_r.
Qed.

Lemma plain_dirname (head : path) : plain head → plain (os_path_dirname head).
Proof.
  unfold os_path_dirname. destruct head as [|x head] using rev_ind; [done|].
  rewrite removelast_last. intros H. by destruct (proj1 (Forall_app _ _ _) H).
Qed.

Lemma dirname_prefix (head : path) : os_path_dirname head `prefix_of` head.
Proof.
  unfold os_path_dirname. destruct head as [|x head] using rev_ind; [done|].
  rewrite removelast_last. by apply prefix_app_r.
Qed.

Lemma dirname_length (head : path) :
  head ≠ [] → length head = S (length (os_path_dirname head)).
Proof.
  unfold os_path_dirname. destruct head as [|x head] using rev_ind; [done|].
  intros _. rewrite removelast_last, length_app. simpl. lia.
Qed.

(** An empty directory given in canonical form is removed. *)
Lemma os_rmdir_plain (f : gmap path node) (head : path) :
  head ≠ [] → plain head → reached f head → (∀ x, f !! (head ++ [x]) = None) →
  os_rmdir f head = Some (delete head f).
Proof.
  intros Hne Hplain Hreached Hempty. unfold os_rmdir.
  assert (Hloc : entry_location f head = Some head).
  { apply entry_location_Some. split_and!; [by apply walk_path_plain|done|].
    intros [?|Hdot]; [done|].
    assert (Hlast : os_path_basename head ≠ "." ∧ os_path_basename head ≠ "..").
    { unfold plain in Hplain. rewrite (split_last_path head Hne) in Hplain.
      destruct (proj1 (Forall_app _ _ _) Hplain) as [_ Hlast].
      exact (proj1 (Forall_singleton _ _) Hlast). }
    destruct Hlast, Hdot; done. }
  rewrite Hloc. simpl.
  assert (Hdir : f !! head = Some NDir).
  { specialize (Hreached head (reflexivity _)). by destruct head. }
  rewrite Hdir. by rewrite entries_empty.
Qed.

(** The loop of [os.removedirs] removes the directory [k] above [head] when
    the directories from [k] down to [head] hold nothing but the next
    directory on the way. *)
Lemma removedirs_parents_prunes : ∀ n (f : gmap path node) (head k : path),
  plain head → reached f head → (length head ≤ n)%nat →
  k ≠ [] → k `prefix_of` head →
  (∀ j x, k `prefix_of` j → j `prefix_of` head → is_Some (f !! (j ++ [x])) →
          (j ++ [x]) `prefix_of` head) →
  removedirs_parents n f head !! k = None.
Proof.
  induction n as [|n IH]; intros f head k Hplain Hreached Hlen Hk Hpre Hchain.
  { destruct head; [|simpl in Hlen; lia]. apply prefix_nil_inv in Hpre. done. }
  assert (Hne : head ≠ []) by (intros ->; by apply prefix_nil_inv in Hpre).
  cbn [removedirs_parents]. destruct head as [|h0 head']; [done|].
  set (head := h0 :: head') in *.
  rewrite os_rmdir_plain; try done.
  2:{ intros x. destruct (f !! (head ++ [x])) eqn:Hx; [|done].
      assert (Hbad : (head ++ [x]) `prefix_of` head) by (apply (Hchain head x); by eauto).
      apply prefix_length in Hbad. rewrite length_app in Hbad. simpl in Hbad. lia. }
  destruct (decide (k = head)) as [->|Hkh].
  - eapply lookup_weaken_None; [apply lookup_delete_eq|].
    apply (removedirs_parents_only_empty n (delete head f) (delete head f)).
    apply only_empty_dirs_removed_refl.
  - apply IH.
    + by apply plain_dirname.
    + intros q Hq.
      assert (Hq' : q `prefix_of` head) by (etrans; [exact Hq|apply dirname_prefix]).
      specialize (Hreached q Hq'). destruct q as [|c q']; [done|]. cbn [lookup_node] in *.
      rewrite lookup_delete_ne; [done|]. intros Heq. rewrite <- Heq in Hq.
      apply prefix_length in Hq. pose proof (dirname_length head Hne). lia.
    + pose proof (dirname_length head Hne). lia.
    + done.
    + by apply prefix_of_dirname.
    + intros j x Hkj Hj Hx.
      assert (Hj' : j `prefix_of` head) by (etrans; [exact Hj|apply dirname_prefix]).
      destruct (decide (j ++ [x] = head)) as [Heq|Hneq].
      { rewrite Heq, lookup_delete_eq in Hx. by destruct Hx. }
      rewrite lookup_delete_ne in Hx by done.
      apply prefix_of_dirname; [by apply Hchain|done].
Qed.

Lemma removedirs_prunes (f : gmap path node) (name k : path) :
  plain name → reached f name → k ≠ [] → k `prefix_of` name →
  (∀ j x, k `prefix_of` j → j `prefix_of` name → is_Some (f !! (j ++ [x])) →
          (j ++ [x]) `prefix_of` name) →
  default f (os_removedirs f name) !! k = None.
Proof.
  intros Hplain Hreached Hk Hpre Hchain.
  assert (Hne : name ≠ []) by (intros ->; by apply prefix_nil_inv in Hpre).
  assert (Hsame : default f (os_removedirs f name)
                  = removedirs_parents (S (length name)) f name).
  { unfold os_removedirs. cbn [removedirs_parents]. destruct name; [done|].
    by destruct (os_rmdir f _). }
  rewrite Hsame. apply removedirs_parents_prunes; try done. lia.
Qed.

(** The same for a destination that has been unlinked. *)
Lemma unlink_and_prune_chain (f f1 : gmap path node) (d k : path) :
  os_unlink f d = Some f1 →
  plain (os_path_dirname d) → reached f (os_path_dirname d) →
  k ≠ [] → k `prefix_of` os_path_dirname d →
  (∀ j x, k `prefix_of` j → j `prefix_of` os_path_dirname d → is_Some (f1 !! (j ++ [x])) →
          (j ++ [x]) `prefix_of` os_path_dirname d) →
  f1 = delete d f ∧ default f1 (os_removedirs f1 (os_path_dirname d)) !! k = None.
Proof.
  intros Hun Hplain Hreached Hk Hpre Hchain.
  destruct (os_unlink_Some _ _ _ Hun) as (loc & n & Hloc & Hn & Hnd & Hf1).
  assert (Hd : loc = d).
  { pose proof Hloc as (_ & _ & Hdot)%entry_location_Some.
    rewrite (entry_location_parent f d loc (os_path_dirname d) Hloc).
    - symmetry. apply split_last_path. tauto.
    - by apply walk_path_plain.
    - by apply Hreached. }
  subst loc. split; [done|].
  apply removedirs_prunes; try done.
  intros q Hq. specialize (Hreached q Hq). destruct q as [|c q']; [done|].
  cbn [lookup_node] in *. rewrite Hf1, lookup_delete_ne; [done|].
  intros Heq. rewrite <- Heq in Hq. apply prefix_length in Hq.
  pose proof Hloc as (_ & _ & Hdot)%entry_location_Some.
  assert (Hne : d ≠ []) by tauto.
  pose proof (dirname_length d Hne). lia.
Qed.

(** A directory above an unlinked destination is pruned exactly when the
    directories from it down to the destination hold nothing but the next
    directory on the way: the pruning goes upwards and stops at the first
    directory that is not empty. *)
Lemma unlink_and_prune_exactly (f f1 : gmap path node) (d k : path) :
  os_unlink f d = Some f1 →
  plain (os_path_dirname d) → reached f (os_path_dirname d) →
  k ≠ [] → k `prefix_of` os_path_dirname d →
  default f1 (os_removedirs f1 (os_path_dirname d)) !! k = None
  ↔ ∀ j x, k `prefix_of` j → j `prefix_of` os_path_dirname d → is_Some (f1 !! (j ++ [x])) →
           (j ++ [x]) `prefix_of` os_path_dirname d.
Proof.
  intros Hun Hplain Hreached Hk Hpre. split.
  2:{ intros Hchain. by apply (unlink_and_prune_chain f f1 d k). }
  intros Hgone.
  destruct (unlink_and_prune f f1 d Hun) as (loc & Hloc & _ & Hsub & Hrem).
  cbv zeta in Hsub, Hrem.
  destruct (os_unlink_Some _ _ _ Hun) as (loc' & n & Hloc' & Hn & Hnd & Hf1).
  assert (loc' = loc) as -> by congruence.
  pose proof Hloc as (_ & _ & Hdot)%entry_location_Some.
  assert (Hne : d ≠ []) by tauto.
  assert (Hd : loc = d).
  { rewrite (entry_location_parent f d loc (os_path_dirname d) Hloc).
    - symmetry. by apply split_last_path.
    - by apply walk_path_plain.
    - by apply Hreached. }
  subst loc.
  assert (Hshort : ∀ j, j `prefix_of` os_path_dirname d → j ≠ d).
  { intros j Hj ->. apply prefix_length in Hj. pose proof (dirname_length d Hne). lia. }
  assert (Hall : ∀ r, (k ++ r) `prefix_of` os_path_dirname d →
                      default f1 (os_removedirs f1 (os_path_dirname d)) !! (k ++ r) = None).
  { induction r as [|x r IH] using rev_ind; intros Hr.
    - by rewrite app_nil_r.
    - rewrite app_assoc in Hr |- *.
      assert (Hr' : (k ++ r) `prefix_of` os_path_dirname d).
      { etrans; [|exact Hr]. by apply prefix_app_r. }
      assert (Hdir : f !! (k ++ r) = Some NDir).
      { specialize (Hreached _ Hr'). by destruct k. }
      destruct (Hrem (k ++ r) NDir (Hshort _ Hr') Hdir (IH Hr')) as (_ & _ & Hempty).
      apply Hempty. }
  intros j x [r ->] Hj Hx.
  assert (Hj1 : f1 !! ((k ++ r) ++ [x]) = f !! ((k ++ r) ++ [x])).
  { rewrite Hf1. apply lookup_delete_ne. intros Heq.
    rewrite <- Heq, Hf1, lookup_delete_eq in Hx. by destruct Hx. }
  rewrite Hj1 in Hx. destruct Hx as [m Hm].
  assert (Hdir : f !! (k ++ r) = Some NDir).
  { specialize (Hreached _ Hj). by destruct k. }
  destruct (Hrem (k ++ r) NDir (Hshort _ Hj) Hdir (Hall r Hj)) as (_ & _ & Hempty).
  assert (Hxd : (k ++ r) ++ [x] ≠ d).
  { intros Heq. rewrite Hf1, <- Heq, lookup_delete_eq in Hj1. by rewrite Hm in Hj1. }
  destruct (Hrem ((k ++ r) ++ [x]) m Hxd Hm (Hempty x)) as (_ & Hprefix & _).
  by apply prefix_of_dirname.
Qed.

(** C2.  [clean_linked_files], for any ledger, collision list and removal
    list.  The count of every destination after the first loop is its loaded
    count (0 when absent) plus the number of times it is in the collision
    list, and every destination of that list has an entry.  Outside of a dry
    run the function is then the removal loop over [files_to_clean] followed
    by the write of the ledger; when it returns, the ledger it has written
    holds, for each destination with a positive count after the first loop,
    that count minus the number of times the destination is in
    [files_to_clean], and no entry when this is not positive; other entries
    are as they were.  In a dry run nothing is unlinked and the ledger is
    not written.  At each destination of the removal loop, with the count it
    has at that point:
    - count 0 and the destination exists: it is unlinked and its parents are
      pruned by [os.removedirs] with errors ignored, which only removes
      directories above the destination that are left empty; the ledger is
      unchanged.  When the directory of the destination is given in
      canonical form (existing directories, no links, no [.] or [..]), a
      directory [k] above the destination is removed exactly when, once the
      destination is unlinked, each directory from [k] down to the directory
      of the destination holds nothing but the next directory on the way:
      the pruning removes the directories left empty, going upwards, and
      stops at the first directory that is not empty;
    - count 0 and the destination does not exist: nothing is removed;
    - count above 1: the count is decremented and nothing is unlinked;
    - count 1: the entry is deleted and nothing is unlinked. *)
Theorem clean_linked_files_spec (metadata_path : path)
    (files_that_collide files_to_clean : list path) (s : state) :
  let devel_collisions_file_path := os_path_join metadata_path ["devel_collisions.txt"] in
  let loaded := default ∅ (collisions_files s !! devel_collisions_file_path) in
  let counted := foldl add_collision loaded files_that_collide in
  (∀ dest_file,
     count_of counted dest_file
     = count_of loaded dest_file + Z.of_nat (length (filter (eq dest_file) files_that_collide)))
  ∧ (∀ dest_file, dest_file ∈ files_that_collide → is_Some (counted !! dest_file))
  ∧ clean_linked_files metadata_path files_that_collide files_to_clean false s
    = match for_each files_to_clean counted (clean_file false) s with
      | Ok dest_collisions s' =>
          Ok tt (set_collisions_file devel_collisions_file_path dest_collisions s')
      | Exc e s' => Exc e s'
      end
  ∧ (∀ s',
       clean_linked_files metadata_path files_that_collide files_to_clean false s = Ok tt s' →
       ∀ dest_file,
         ledger_count s' metadata_path dest_file =
           if decide (1 ≤ count_of counted dest_file) then
             if decide (count_of counted dest_file
                        ≤ Z.of_nat (length (filter (eq dest_file) files_to_clean)))
             then None
             else Some (count_of counted dest_file
                        - Z.of_nat (length (filter (eq dest_file) files_to_clean)))
           else counted !! dest_file)
  ∧ (∃ s', clean_linked_files metadata_path files_that_collide files_to_clean true s
           = Ok tt s'
           ∧ same_stores s s')
  ∧ ∀ (dest_collisions : gmap path Z) (dest_file : path) (s0 : state),
      (count_of dest_collisions dest_file = 0 → os_path_exists (fs s0) dest_file = true →
       ∀ f1, os_unlink (fs s0) dest_file = Some f1 →
         ∃ s1 loc,
           clean_file false dest_collisions dest_file s0 = Ok dest_collisions s1
           ∧ fs s1 = default f1 (os_removedirs f1 (os_path_dirname dest_file))
           ∧ entry_location (fs s0) dest_file = Some loc
           ∧ fs s1 !! loc = None
           ∧ fs s1 ⊆ fs s0
           ∧ (∀ k n, k ≠ loc → fs s0 !! k = Some n → fs s1 !! k = None →
                n = NDir ∧ k `prefix_of` loc ∧ ∀ x, fs s1 !! (k ++ [x]) = None)
           ∧ (plain (os_path_dirname dest_file) →
              reached (fs s0) (os_path_dirname dest_file) →
              ∀ k, k ≠ [] → k `prefix_of` os_path_dirname dest_file →
                fs s1 !! k = None
                ↔ ∀ j x, k `prefix_of` j → j `prefix_of` os_path_dirname dest_file →
                         is_Some (f1 !! (j ++ [x])) →
                         (j ++ [x]) `prefix_of` os_path_dirname dest_file))
      ∧ (count_of dest_collisions dest_file = 0 → os_path_exists (fs s0) dest_file = false →
         ∃ s1, clean_file false dest_collisions dest_file s0 = Ok dest_collisions s1
               ∧ fs s1 = fs s0)
      ∧ (count_of dest_collisions dest_file > 1 →
         clean_file false dest_collisions dest_file s0
         = Ok (<[dest_file := count_of dest_collisions dest_file - 1]> dest_collisions) s0)
      ∧ (count_of dest_collisions dest_file = 1 →
         clean_file false dest_collisions dest_file s0 = Ok (delete dest_file dest_collisions) s0).
Proof.
  intros p loaded counted. split_and!.
  - intros d. apply add_collisions_count.
  - intros d. apply add_collisions_present.
  - unfold clean_linked_files. fold p. unfold bind at 1. unfold get at 1.
    fold loaded. fold counted. unfold bind.
    by destruct (for_each files_to_clean counted (clean_file false) s).
  - unfold clean_linked_files. fold p. unfold bind at 1. unfold get at 1.
    fold loaded. fold counted. unfold bind.
    destruct (for_each files_to_clean counted (clean_file false) s) as [D' s1|] eqn:Hloop;
      [|done].
    intros s' [= <-] d. unfold ledger_count. fold p.
    cbn [set_collisions_file collisions_files]. rewrite lookup_insert_eq. cbn [mbind option_bind].
    by eapply clean_files_entry.
  - unfold clean_linked_files. fold p. unfold bind at 1. unfold get at 1.
    fold loaded. fold counted. unfold bind.
    destruct (clean_files_dry_run files_to_clean counted s) as (D' & s' & -> & Hsame).
    by exists s'.
  - intros D d s0. split_and!.
    + intros Hn Hex f1 Hun.
      destruct (unlink_and_prune _ _ _ Hun) as (loc & Hloc & Hgone & Hsub & Hrem).
      eexists _, loc. split; [by apply clean_file_unlinks|]. cbn.
      split_and!; try done.
      intros Hplain Hreached k Hk Hpre. by apply (unlink_and_prune_exactly (fs s0)).
    + intros Hn Hex. eexists. split; [by apply clean_file_already_unlinked|]. done.
    + apply clean_file_decrements.
    + apply clean_file_forgets.
Qed.

(** *** unlink_devel_products *)

Lemma check_manifest_rows_ok rows : ∀ files_to_clean s,
  existsb (not_a_symlink (fs s)) rows = false →
  for_loop rows files_to_clean check_manifest_row s
  = Ok (inr (files_to_clean ++ present_dests (fs s) rows))
       (State (fs s) (collisions_files s) (manifest_files s)
          (log s ++ missing_warnings (fs s) rows)).
Proof.
  induction rows as [|[source_file dest_file] rows IH]; intros acc s Hnone.
  - cbn. unfold present_dests, missing_warnings. cbn. rewrite !app_nil_r. by destruct s.
  - cbn [existsb] in Hnone. apply orb_false_elim in Hnone as [Hrow Hrest].
    unfold not_a_symlink in Hrow. cbn [snd] in Hrow.
    cbn [for_loop]. unfold bind at 1. unfold check_manifest_row at 1.
    unfold bind at 1. unfold get at 1.
    unfold present_dests, missing_warnings. rewrite !filter_cons. cbn [snd].
    destruct (os_path_exists (fs s) dest_file) eqn:Hex; cbn [negb].
    + cbn in Hrow. apply negb_false_iff in Hrow. rewrite Hrow. cbn [negb andb].
      unfold ret at 1. rewrite IH by done.
      rewrite decide_True by done. rewrite decide_False by auto.
      cbn [fmap list_fmap snd]. by rewrite <- app_assoc.
    + unfold bind at 1. unfold logger_err, modify at 1. unfold ret at 1.
      rewrite IH by (cbn [add_log fs]; done). cbn [add_log fs collisions_files manifest_files log].
      rewrite decide_False by done. rewrite decide_True by auto.
      cbn [fmap list_fmap snd]. by rewrite <- app_assoc.
Qed.

Lemma check_manifest_rows_abort rows : ∀ files_to_clean s,
  existsb (not_a_symlink (fs s)) rows = true →
  ∃ s', for_loop rows files_to_clean check_manifest_row s = Ok (inl (-1)) s'
        ∧ same_stores s s'.
Proof.
  induction rows as [|[source_file dest_file] rows IH]; intros acc s Hsome; [done|].
  cbn [existsb] in Hsome.
  cbn [for_loop]. unfold bind at 1. unfold check_manifest_row at 1.
  unfold bind at 1. unfold get at 1.
  unfold not_a_symlink at 1 in Hsome. cbn [snd] in Hsome.
  destruct (os_path_exists (fs s) dest_file) eqn:Hex; cbn [negb].
  - destruct (os_path_islink (fs s) dest_file) eqn:Hlink; cbn [negb andb orb] in *.
    + unfold ret at 1. by apply IH.
    + eexists. split; [reflexivity|]. done.
  - cbn [andb orb] in Hsome. unfold bind at 1. unfold logger_err, modify at 1. unfold ret at 1.
    destruct (IH (acc) (add_log (LogErr (DestDoesNotExist dest_file)) s)) as (s' & -> & Hs');
      [done|].
    eexists. split; [done|]. exact Hs'.
Qed.

(** One step of the removal loop on a destination that was a symbolic link of
    [f0], in a file system that has only lost entries since: it cannot fail,
    it only removes entries, and a destination without a collision count is
    gone afterwards. *)
Lemma clean_file_of_symlink (f0 : gmap path node) dry_run D d s :
  fs s ⊆ f0 → os_path_islink f0 d = true →
  ∃ D1 s1,
    clean_file dry_run D d s = Ok D1 s1
    ∧ fs s1 ⊆ fs s
    ∧ collisions_files s1 = collisions_files s
    ∧ manifest_files s1 = manifest_files s
    ∧ log s `prefix_of` log s1
    ∧ (∀ d', count_of D d' = 0 → count_of D1 d' = 0)
    ∧ (dry_run = false → count_of D d = 0 → os_path_exists (fs s1) d = false)
    ∧ (dry_run = true → fs s1 = fs s).
Proof.
  intros Hsub Hd.
  destruct (Z.lt_trichotomy (count_of D d) 0) as [Hneg|[Hzero|Hpos]].
  - rewrite clean_file_other by done. eexists _, _. split; [done|].
    split_and!; try done. lia.
  - destruct dry_run.
    { rewrite clean_file_dry_run by done. eexists _, _. split; [done|].
      split_and!; try done. by apply prefix_app_r. }
    destruct (os_path_exists (fs s) d) eqn:Hex.
    + destruct (symlink_still_unlinkable _ _ _ Hsub Hd Hex) as [f1 Hun].
      rewrite (clean_file_unlinks _ _ _ _ Hzero Hex Hun).
      destruct (unlink_and_prune _ _ _ Hun) as (loc & _ & _ & Hsub' & _).
      eexists _, _. split; [done|]. split_and!; try done.
      * by apply prefix_app_r.
      * intros _ _. cbn [set_fs fs]. eapply unlinked_stays_absent; [exact Hun|].
        unfold os_removedirs. destruct (os_rmdir f1 (os_path_dirname d)) as [f2|] eqn:Hrm;
          [|done]. simpl.
        pose proof (removedirs_parents_only_empty (length (os_path_dirname d)) f1 f2
                      (os_path_dirname (os_path_dirname d))) as Hinv.
        destruct Hinv as [Hsub2 _].
        { eapply only_empty_dirs_removed_rmdir; [apply only_empty_dirs_removed_refl|done]. }
        done.
    + rewrite clean_file_already_unlinked by done. eexists _, _. split; [done|].
      split_and!; try done. cbn [add_log log]. rewrite <- app_assoc. by apply prefix_app_r.
  - assert (Hother : ∀ d', count_of D d' = 0 → d' ≠ d) by (intros d' H0 ->; lia).
    destruct (decide (count_of D d = 1)) as [Hone|Hmore].
    + rewrite clean_file_forgets by done. eexists _, _. split; [done|].
      split_and!; try done; [|lia].
      intros d' H0. unfold count_of. rewrite lookup_delete_ne by (by apply not_eq_sym, Hother).
      exact H0.
    + rewrite clean_file_decrements by lia. eexists _, _. split; [done|].
      split_and!; try done; [|lia].
      intros d' H0. unfold count_of. rewrite lookup_insert_ne by (by apply not_eq_sym, Hother).
      exact H0.
Qed.

(** The whole removal loop on such destinations. *)
Lemma clean_files_of_symlinks (f0 : gmap path node) dry_run files : ∀ D s,
  fs s ⊆ f0 → Forall (fun d => os_path_islink f0 d = true) files →
  ∃ D' s',
    for_each files D (clean_file dry_run) s = Ok D' s'
    ∧ fs s' ⊆ fs s
    ∧ collisions_files s' = collisions_files s
    ∧ manifest_files s' = manifest_files s
    ∧ log s `prefix_of` log s'
    ∧ (∀ d, count_of D d = 0 → count_of D' d = 0)
    ∧ (dry_run = false → ∀ d, d ∈ files → count_of D d = 0 →
         os_path_exists (fs s') d = false)
    ∧ (dry_run = true → fs s' = fs s).
Proof.
  induction files as [|d files IH]; intros D s Hsub Hlinks.
  - exists D, s. split; [done|]. split_and!; try done. intros _ d Hin. by apply elem_of_nil in Hin.
  - inversion Hlinks as [|? ? Hd Hrest]; subst. cbn [for_each]. unfold bind.
    destruct (clean_file_of_symlink f0 dry_run D d s Hsub Hd)
      as (D1 & s1 & -> & Hsub1 & Hc1 & Hm1 & Hl1 & Hz1 & Hgone1 & Hdry1).
    destruct (IH D1 s1 (transitivity Hsub1 Hsub) Hrest)
      as (D' & s' & -> & Hsub' & Hc' & Hm' & Hl' & Hz' & Hgone' & Hdry').
    exists D', s'. split; [done|]. split_and!.
    + by etrans.
    + congruence.
    + congruence.
    + by etrans.
    + intros d' H0. by apply Hz', Hz1.
    + intros Hrun d' Hin H0. apply elem_of_cons in Hin as [->|Hin].
      * eapply absent_stays_absent; [exact Hsub'|]. by apply Hgone1.
      * apply Hgone'; [done|done|]. by apply Hz1.
    + intros Hrun. rewrite Hdry', Hdry1; done.
Qed.

Lemma present_dests_elem (f : gmap path node) rows d :
  d ∈ present_dests f rows ↔ ∃ row, row ∈ rows ∧ row.2 = d ∧ os_path_exists f d = true.
Proof.
  unfold present_dests. rewrite list_elem_of_fmap. split.
  - intros (row & -> & [Hex Hin]%list_elem_of_filter). eauto.
  - intros (row & Hin & <- & Hex). exists row. split; [done|]. by apply list_elem_of_filter.
Qed.

(** C4, as amended.  [unlink_devel_products] on a package whose manifest is
    stored.  When the private devel path of the package does not exist, the
    function only writes a line to the log and returns 0, whatever the
    manifest lists.  The rest is for a package whose private devel path
    exists.  If some listed destination exists and is not a symbolic link, the
    function returns -1 and the file system, the ledger and the manifests are
    as before.  If every listed destination that exists is a symbolic link,
    the function returns 0: the destinations that are missing are only warned
    about, the others go through [clean_linked_files] with no collision, which
    cannot fail; entries are only removed, and outside of a dry run every
    listed destination without a collision count in the ledger is gone at the
    end, while the count of a destination with one is decremented once for
    each time the destination is listed and still there, its entry being
    deleted when the count reaches 0. *)
Theorem unlink_devel_products_spec
    (devel_space_abs private_devel_path metadata_path package_metadata_path : path)
    (dry_run : bool) (s : state) (package_path : path) (rows : list (path * path)) :
  manifest_files s !! os_path_join package_metadata_path [DEVEL_MANIFEST_FILENAME]
    = Some (package_path, rows) →
  let run := unlink_devel_products devel_space_abs private_devel_path metadata_path
               package_metadata_path dry_run s in
  (os_path_exists (fs s) private_devel_path = false →
   run = Ok 0 (add_log (LogErr (NoPrivateDevelPath private_devel_path)) s))
  ∧ (os_path_exists (fs s) private_devel_path = true →
       ((∃ row, row ∈ rows ∧ os_path_exists (fs s) row.2 = true
                ∧ os_path_islink (fs s) row.2 = false) →
          ∃ s', run = Ok (-1) s' ∧ same_stores s s')
       ∧ ((∀ row, row ∈ rows → os_path_exists (fs s) row.2 = true →
                   os_path_islink (fs s) row.2 = true) →
          let checked := State (fs s) (collisions_files s) (manifest_files s)
                           (log s ++ missing_warnings (fs s) rows) in
          ∃ s',
            run = Ok 0 s'
            ∧ clean_linked_files metadata_path [] (present_dests (fs s) rows) dry_run checked
              = Ok tt s'
            ∧ log checked `prefix_of` log s'
            ∧ fs s' ⊆ fs s
            ∧ manifest_files s' = manifest_files s
            ∧ (dry_run = true → fs s' = fs s ∧ collisions_files s' = collisions_files s)
            ∧ (dry_run = false →
               let ledger := default ∅ (collisions_files s
                                          !! os_path_join metadata_path ["devel_collisions.txt"]) in
               (∀ row, row ∈ rows → count_of ledger row.2 = 0 →
                       os_path_exists (fs s') row.2 = false)
               ∧ (∀ dest_file,
                    ledger_count s' metadata_path dest_file =
                      if decide (1 ≤ count_of ledger dest_file) then
                        if decide (count_of ledger dest_file
                                   ≤ Z.of_nat (length (filter (eq dest_file)
                                                         (present_dests (fs s) rows))))
                        then None
                        else Some (count_of ledger dest_file
                                   - Z.of_nat (length (filter (eq dest_file)
                                                         (present_dests (fs s) rows))))
                      else ledger !! dest_file)))).
Proof.
  intros Hmanifest run. split.
  { intros Hprivate. subst run. unfold unlink_devel_products.
    unfold bind at 1. unfold get at 1. by rewrite Hprivate. }
  intros Hprivate.
  assert (Hrun : run = match for_loop rows [] check_manifest_row s with
                       | Ok (inl code) s' => Ok code s'
                       | Ok (inr files_to_clean) s' =>
                           match clean_linked_files metadata_path [] files_to_clean dry_run s' with
                           | Ok _ s'' => Ok 0 s''
                           | Exc e s'' => Exc e s''
                           end
                       | Exc e s' => Exc e s'
                       end).
  { subst run. unfold unlink_devel_products.
    unfold bind at 1. unfold get at 1. rewrite Hprivate. cbn [negb]. rewrite Hmanifest.
    unfold bind at 1. destruct (for_loop rows [] check_manifest_row s) as [[code|files] s'|];
      try done. }
  rewrite Hrun. clear Hrun run. split.
  - intros (row & Hin & Hex & Hlink).
    destruct (check_manifest_rows_abort rows [] s) as (s' & -> & Hs').
    { apply existsb_exists. exists row. split; [by apply list_elem_of_In|].
      unfold not_a_symlink. by rewrite Hex, Hlink. }
    by exists s'.
  - intros Hlinks.
    set (checked := State (fs s) (collisions_files s) (manifest_files s)
                      (log s ++ missing_warnings (fs s) rows)).
    rewrite check_manifest_rows_ok.
    2:{ apply not_true_is_false. intros (row & Hin%list_elem_of_In & Hrow)%existsb_exists.
        unfold not_a_symlink in Hrow. apply andb_true_iff in Hrow as [Hex Hnl].
        rewrite (Hlinks row Hin Hex) in Hnl. done. }
    cbn [app]. fold checked.
    unfold clean_linked_files. unfold bind, get. cbn [foldl].
    set (p := os_path_join metadata_path ["devel_collisions.txt"]).
    set (D := default ∅ (collisions_files checked !! p)).
    destruct (clean_files_of_symlinks (fs s) dry_run (present_dests (fs s) rows) D checked)
      as (D' & s' & Hloop & Hsub & Hc & Hm & Hl & Hz & Hgone & Hdry).
    { done. }
    { apply Forall_forall. intros d (row & Hin & <- & Hex)%present_dests_elem. by apply Hlinks. }
    rewrite Hloop.
    destruct dry_run; unfold ret, modify.
    + eexists. split; [done|]. split; [done|]. split_and!; try done. intros _. split; [|done].
      by apply Hdry.
    + eexists. split; [done|]. split; [done|]. split_and!; try done.
      intros _. cbv zeta. split.
      * intros row Hin H0. cbn [set_collisions_file fs].
        destruct (os_path_exists (fs s) row.2) eqn:Hex.
        -- apply Hgone; [done| |done]. apply present_dests_elem. eauto.
        -- eapply absent_stays_absent; [exact Hsub|done].
      * intros d. unfold ledger_count. fold p.
        cbn [set_collisions_file collisions_files]. rewrite lookup_insert_eq.
        cbn [mbind option_bind]. by eapply clean_files_entry.
Qed.

(** *** A colliding file during a merge *)

Section LinkFacts.
Variable md5 : string → string.

Lemma link_file_collision
    (skiplist : list path) (source_devel_path source_path dest_path : path)
    (products : list (path * path)) (files_that_collide : list path)
    (filename : string) (s : state) (source_content dest_content : string) :
  let source_file := os_path_join source_path [filename] in
  let dest_file := os_path_join dest_path [filename] in
  should_skip_file skiplist source_devel_path source_path filename = false →
  os_path_exists (fs s) dest_file = true →
  os_path_realpath (fs s) dest_file ≠ os_path_realpath (fs s) source_file →
  read_file (fs s) (os_path_realpath (fs s) source_file) = Some source_content →
  read_file (fs s) (os_path_realpath (fs s) dest_file) = Some dest_content →
  link_file md5 skiplist source_devel_path source_path dest_path
    (products, files_that_collide) filename s
  = Ok (inr (products ++ [(source_file, dest_file)], files_that_collide ++ [dest_file]))
       (State (fs s) (collisions_files s) (manifest_files s)
          (log s ++
             (if decide (md5 dest_content = md5 source_content) then []
              else [LogErr (CannotSymlinkExisting source_file dest_file);
                    LogErr (SourceHash (md5 source_content));
                    LogErr (DestHash (md5 dest_content))]))).
Proof.
  intros source_file dest_file Hskip Hexists Hreal Hsrc Hdst.
  unfold link_file. rewrite Hskip. fold source_file dest_file.
  unfold bind at 1. unfold get at 1. rewrite Hexists.
  rewrite bool_decide_eq_false_2 by done. cbn [negb].
  unfold bind, hash_of. rewrite Hsrc, Hdst.
  destruct (decide (md5 dest_content = md5 source_content)) as [Heq|Hne].
  - rewrite bool_decide_eq_true_2 by done. cbn. rewrite app_nil_r. by destruct s.
  - rewrite bool_decide_eq_false_2 by done.
    cbn [negb ret logger_err modify add_log fs collisions_files manifest_files log].
    unfold ret, add_log. cbn [fs collisions_files manifest_files log].
    by rewrite <- !app_assoc.
Qed.

End LinkFacts.

(** C3.  During a merge, a file that is not skipped and whose destination
    exists and resolves to another real file than the source is added to the
    collision set whatever the two content hashes are; the three warnings
    are logged exactly when the hashes differ; the file system, and with it
    the link that was there, is left as it was.  In the workspace of
    [Scenario], after merging [A] then [B] the destination still resolves
    to the file of [A], its ledger count is 1, the merge of [B] returned 0
    and warned; under a hash that does not tell the contents apart the
    count is 1 as well and nothing is warned. *)
Theorem collision_is_counted_and_first_link_kept :
  (∀ (md5 : string → string)
     (skiplist : list path) (source_devel_path source_path dest_path : path)
     (products : list (path * path)) (files_that_collide : list path)
     (filename : string) (s : state) (source_content dest_content : string),
     let source_file := os_path_join source_path [filename] in
     let dest_file := os_path_join dest_path [filename] in
     should_skip_file skiplist source_devel_path source_path filename = false →
     os_path_exists (fs s) dest_file = true →
     os_path_realpath (fs s) dest_file ≠ os_path_realpath (fs s) source_file →
     read_file (fs s) (os_path_realpath (fs s) source_file) = Some source_content →
     read_file (fs s) (os_path_realpath (fs s) dest_file) = Some dest_content →
     ∃ s',
       link_file md5 skiplist source_devel_path source_path dest_path
         (products, files_that_collide) filename s
       = Ok (inr (products ++ [(source_file, dest_file)],
                  files_that_collide ++ [dest_file])) s'
       ∧ same_stores s s'
       ∧ os_path_realpath (fs s') dest_file = os_path_realpath (fs s) dest_file
       ∧ (md5 dest_content ≠ md5 source_content →
          log s' = log s ++ [LogErr (CannotSymlinkExisting source_file dest_file);
                             LogErr (SourceHash (md5 source_content));
                             LogErr (DestHash (md5 dest_content))])
       ∧ (md5 dest_content = md5 source_content → log s' = log s))
  ∧ (value_of (Scenario.merge_B Scenario.md5 Scenario.merged_A) = Some 0
     ∧ os_path_realpath (fs Scenario.merged_AB) Scenario.x_so
       = Scenario.private_A ++ ["lib"; "x.so"]
     ∧ ledger_count Scenario.merged_AB Scenario.profile Scenario.x_so = Some 1
     ∧ log Scenario.merged_AB
       = [LogOut (Symlinking Scenario.x_so);
          LogErr (CannotSymlinkExisting (Scenario.private_B ++ ["lib"; "x.so"]) Scenario.x_so);
          LogErr (SourceHash (Scenario.md5 "B"));
          LogErr (DestHash (Scenario.md5 "A"))])
  ∧ (let merged := state_of (Scenario.merge_B Scenario.weak_hash
                               (state_of (Scenario.merge_A Scenario.weak_hash
                                            Scenario.initial))) in
     os_path_realpath (fs merged) Scenario.x_so = Scenario.private_A ++ ["lib"; "x.so"]
     ∧ ledger_count merged Scenario.profile Scenario.x_so = Some 1
     ∧ log merged = [LogOut (Symlinking Scenario.x_so)]).
Proof.
  split; [|split].
  - intros md5 skiplist source_devel_path source_path dest_path products files_that_collide
      filename s source_content dest_content source_file dest_file Hskip Hex Hreal Hsrc Hdst.
    eexists. split; [by apply link_file_collision|].
    split; [done|]. split; [done|]. cbn [log].
    split; intros Hhash.
    + by rewrite decide_False.
    + rewrite decide_True by done. by rewrite app_nil_r.
  - split_and!; by_evaluation.
  - cbv zeta. split_and!; by_evaluation.
Qed.

Lemma collision_is_counted_and_first_link_kept_witness :
  ∃ s',
    link_file Scenario.md5 DEVEL_LINK_SKIPLIST Scenario.private_B
      (Scenario.private_B ++ ["lib"]) (Scenario.devel ++ ["lib"]) ([], []) "x.so"
      Scenario.merged_A
    = Ok (inr ([(Scenario.private_B ++ ["lib"; "x.so"], Scenario.x_so)], [Scenario.x_so])) s'
    ∧ same_stores Scenario.merged_A s'.
Proof.
  destruct collision_is_counted_and_first_link_kept as [Hstep _].
  destruct (Hstep Scenario.md5 DEVEL_LINK_SKIPLIST Scenario.private_B
              (Scenario.private_B ++ ["lib"]) (Scenario.devel ++ ["lib"]) [] [] "x.so"
              Scenario.merged_A "B" "A")
    as (s' & Hrun & Hsame & _); [by_evaluation..|].
  exists s'. split; [exact Hrun|exact Hsame].
Defined.

Lemma clean_linked_files_spec_witness :
  ∃ s1,
    clean_file false ∅ Scenario.x_so Scenario.merged_A = Ok ∅ s1
    ∧ fs s1 !! Scenario.x_so = None
    ∧ fs s1 ⊆ fs Scenario.merged_A
    ∧ fs s1 !! (Scenario.devel ++ ["lib"]) = None
    ∧ fs s1 !! Scenario.devel = Some NDir.
Proof.
  destruct (clean_linked_files_spec Scenario.profile [] [Scenario.x_so] Scenario.merged_A)
    as (_ & _ & _ & _ & _ & Hstep).
  destruct (Hstep ∅ Scenario.x_so Scenario.merged_A) as (Hunlink & _).
  destruct (Hunlink eq_refl ltac:(by_evaluation)
              (delete Scenario.x_so (fs Scenario.merged_A)) ltac:(by_evaluation))
    as (s1 & loc & Hrun & Hfs & Hloc & Hgone & Hsub & _ & Hprune).
  assert (Hx : entry_location (fs Scenario.merged_A) Scenario.x_so = Some Scenario.x_so)
    by by_evaluation.
  rewrite Hx in Hloc. injection Hloc as <-.
  assert (Hplain : plain (os_path_dirname Scenario.x_so)) by (unfold plain; by_evaluation).
  assert (Hreached : reached (fs Scenario.merged_A) (os_path_dirname Scenario.x_so)).
  { intros q Hq. change (os_path_dirname Scenario.x_so) with ["ws"; "devel"; "lib"] in Hq.
    repeat (destruct q as [|c q]; [by_evaluation|];
            pose proof (prefix_cons_inv_1 _ _ _ _ Hq) as ->;
            apply prefix_cons_inv_2 in Hq).
    apply prefix_nil_inv in Hq as ->. by_evaluation. }
  specialize (Hprune Hplain Hreached).
  exists s1. split; [exact Hrun|]. split; [exact Hgone|]. split; [exact Hsub|]. split.
  - apply (Hprune (Scenario.devel ++ ["lib"])); [done|done|].
    intros j x Hkj Hj Hsome.
    assert (j = Scenario.devel ++ ["lib"]) as ->.
    { apply (anti_symm prefix); [exact Hj|exact Hkj]. }
    rewrite (entries_nil _ _ x) in Hsome; [by destruct Hsome|]. by_evaluation.
  - rewrite Hfs. by_evaluation.
Defined.

Lemma unlink_devel_products_spec_witness :
  ∃ s',
    Scenario.unmerge_A false Scenario.link_deleted = Ok 0 s'
    ∧ (log Scenario.link_deleted ++ [LogErr (DestDoesNotExist Scenario.x_so)])
        `prefix_of` log s'
    ∧ fs s' ⊆ fs Scenario.link_deleted.
Proof.
  assert (Hgone : os_path_exists (fs Scenario.link_deleted) Scenario.x_so = false)
    by by_evaluation.
  assert (Hwarn : missing_warnings (fs Scenario.link_deleted)
                    [(Scenario.private_A ++ ["lib"; "x.so"], Scenario.x_so)]
                  = [LogErr (DestDoesNotExist Scenario.x_so)]) by by_evaluation.
  destruct (unlink_devel_products_spec Scenario.devel Scenario.private_A Scenario.profile
              Scenario.metadata_A false Scenario.link_deleted ["A"]
              [(Scenario.private_A ++ ["lib"; "x.so"], Scenario.x_so)]
              ltac:(by_evaluation)) as [_ Hpresent].
  destruct (Hpresent ltac:(by_evaluation)) as [_ Hcompletes].
  destruct Hcompletes as (s' & Hrun & _ & Hlog & Hsub & _).
  - intros row Hin Hex. apply list_elem_of_singleton in Hin. subst row.
    cbn [snd] in Hex. rewrite Hgone in Hex. discriminate Hex.
  - exists s'. split; [exact Hrun|]. split; [|exact Hsub].
    rewrite <- Hwarn. exact Hlog.
Defined.

(** C4 as stated fails on a package whose private devel space is gone.
    The manifest of [A] lists [lib/x.so], which exists and is a regular
    file, not a symbolic link; the private devel path of [A] does not exist.
    The unmerge writes one line to the log and returns 0: the destination
    is not looked at and no consistency fault is reported. *)
Theorem unmerge_without_private_devel_path :
  manifest_files Cases.private_gone
    !! os_path_join Scenario.metadata_A [DEVEL_MANIFEST_FILENAME]
  = Some (["A"], [(Scenario.private_A ++ ["lib"; "x.so"], Scenario.x_so)])
  ∧ os_path_exists (fs Cases.private_gone) Scenario.x_so = true
  ∧ os_path_islink (fs Cases.private_gone) Scenario.x_so = false
  ∧ os_path_exists (fs Cases.private_gone) Scenario.private_A = false
  ∧ Scenario.unmerge_A false Cases.private_gone
    = Ok 0 (add_log (LogErr (NoPrivateDevelPath Scenario.private_A)) Cases.private_gone).
Proof.
  assert (Hprivate : os_path_exists (fs Cases.private_gone) Scenario.private_A = false)
    by by_evaluation.
  split_and!; [by_evaluation..|done|].
  unfold Scenario.unmerge_A, unlink_devel_products.
  unfold bind at 1. unfold get at 1. by rewrite Hprivate.
Qed.

(** *** The ledger over a rebuild *)

(** C1 fails on the code.  Packages [A] and [B] both produce [lib/x.so].
    After merging [A] the destination has one producer and no ledger entry;
    after merging [B] as well, two manifests list the destination and its
    ledger count is 1: the invariant holds.  Merging [B] once more, as
    every rebuild of [B] does, returns 0 and leaves two manifests listing the
    destination, but its ledger count is now 2: the invariant is broken. *)
Theorem rebuild_breaks_ledger_invariant :
  value_of (Scenario.merge_A Scenario.md5 Scenario.initial) = Some 0
  ∧ value_of (Scenario.merge_B Scenario.md5 Scenario.merged_A) = Some 0
  ∧ value_of (Scenario.merge_B Scenario.md5 Scenario.merged_AB) = Some 0
  ∧ producers Scenario.merged_A Scenario.x_so = 1%nat
  ∧ ledger_invariant_at Scenario.merged_A Scenario.profile Scenario.x_so
  ∧ producers Scenario.merged_AB Scenario.x_so = 2%nat
  ∧ ledger_count Scenario.merged_AB Scenario.profile Scenario.x_so = Some 1
  ∧ ledger_invariant_at Scenario.merged_AB Scenario.profile Scenario.x_so
  ∧ producers Scenario.merged_ABB Scenario.x_so = 2%nat
  ∧ ledger_count Scenario.merged_ABB Scenario.profile Scenario.x_so = Some 2
  ∧ ¬ ledger_invariant_at Scenario.merged_ABB Scenario.profile Scenario.x_so.
Proof.
  assert (Hp1 : producers Scenario.merged_A Scenario.x_so = 1%nat) by by_evaluation.
  assert (Hc1 : ledger_count Scenario.merged_A Scenario.profile Scenario.x_so = None)
    by by_evaluation.
  assert (Hp2 : producers Scenario.merged_AB Scenario.x_so = 2%nat) by by_evaluation.
  assert (Hc2 : ledger_count Scenario.merged_AB Scenario.profile Scenario.x_so = Some 1)
    by by_evaluation.
  assert (Hp3 : producers Scenario.merged_ABB Scenario.x_so = 2%nat) by by_evaluation.
  assert (Hc3 : ledger_count Scenario.merged_ABB Scenario.profile Scenario.x_so = Some 2)
    by by_evaluation.
  unfold ledger_invariant_at. rewrite Hp1, Hc1, Hp2, Hc2, Hp3, Hc3.
  split_and!; try done; by_evaluation.
Qed.

(** C5 fails on the code.  With [A] and [B] merged, merging [B] a second
    time with its output unchanged returns 0 and leaves the manifests and the
    file system exactly as they were, but it counts the collision of
    [lib/x.so] again: the ledger count goes from 1 to 2. *)
Theorem rebuild_counts_the_collision_again :
  value_of (Scenario.merge_B Scenario.md5 Scenario.merged_AB) = Some 0
  ∧ manifest_files Scenario.merged_ABB = manifest_files Scenario.merged_AB
  ∧ fs Scenario.merged_ABB = fs Scenario.merged_AB
  ∧ ledger_count Scenario.merged_AB Scenario.profile Scenario.x_so = Some 1
  ∧ ledger_count Scenario.merged_ABB Scenario.profile Scenario.x_so = Some 2.
Proof.
  split_and!; by_evaluation.
Qed.

(** What the drift of the count does to a clean.  With [A] and [B] merged
    once each, unmerging [B] and then [A] removes the link; after a rebuild
    of [B] the same two unmerges return 0 as well, and leave the link in the
    shared tree although no package is merged any more. *)
Lemma rebuild_leaves_a_stale_link :
  os_path_islink
    (fs (state_of (Scenario.unmerge_A false
                     (state_of (Scenario.unmerge_B false Scenario.merged_AB)))))
    Scenario.x_so = false
  ∧ value_of (Scenario.unmerge_B false Scenario.merged_ABB) = Some 0
  ∧ value_of (Scenario.unmerge_A false
                (state_of (Scenario.unmerge_B false Scenario.merged_ABB))) = Some 0
  ∧ os_path_islink
      (fs (state_of (Scenario.unmerge_A false
                       (state_of (Scenario.unmerge_B false Scenario.merged_ABB)))))
      Scenario.x_so = true.
Proof. split_and!; by_evaluation. Qed.

(* ===================================================================== *)
(** ** Properties of the rest of the code                                 *)
(* ===================================================================== *)

Import Files Workspaces Profiles Frames.

(** *** What [clean_linked_files] removes and writes *)

Lemma entry_location_weaken (f f0 : gmap path node) d loc :
  f ⊆ f0 → entry_location f d = Some loc → is_Some (f !! loc) →
  entry_location f0 d = Some loc.
Proof.
  intros Hsub (Hwalk & Hne & Hdot)%entry_location_Some Hloc.
  apply entry_location_Some. split_and!; try done.
  eapply walk_path_weaken; [done..|]. by destruct loc.
Qed.

Lemma removes_only_refl allowed f : removes_only allowed f f.
Proof. split; [done|]. intros k n H1 H2. congruence. Qed.

Lemma removes_only_mono (allowed allowed' : path → Prop) f f' :
  (∀ d, allowed d → allowed' d) → removes_only allowed f f' → removes_only allowed' f f'.
Proof.
  intros Himp [Hsub Hrem]. split; [done|]. intros k n Hk Hgone.
  destruct (Hrem k n Hk Hgone) as [?|(Hn & d & Hd & Hloc)]; [by left|].
  right. split; [done|]. exists d. auto.
Qed.

(** Unlinking [d] and pruning its parents, after other removals. *)
Lemma removes_only_unlink (allowed : path → Prop) (f0 f f1 : gmap path node) d :
  removes_only allowed f0 f → allowed d → os_unlink f d = Some f1 →
  removes_only allowed f0 (default f1 (os_removedirs f1 (os_path_dirname d))).
Proof.
  intros [Hsub Hrem] Hd Hun.
  destruct (unlink_and_prune f f1 d Hun) as (loc & Hloc & Hgone & Hsub' & Hpruned).
  destruct (os_unlink_Some _ _ _ Hun) as (loc' & n' & Hloc' & Hn' & Hnd & _).
  assert (loc' = loc) as -> by congruence.
  set (f' := default f1 (os_removedirs f1 (os_path_dirname d))) in *.
  split; [by etrans|].
  intros k n Hk0 Hk'.
  destruct (f !! k) as [m|] eqn:Hk.
  - pose proof (lookup_weaken _ _ _ _ Hk Hsub) as Hk0'.
    assert (m = n) as -> by congruence.
    destruct (decide (k = loc)) as [->|Hne].
    + right. assert (n = n') as -> by congruence. split; [done|].
      exists d. split; [done|]. eapply entry_location_weaken; [exact Hsub|exact Hloc|by eexists].
    + left. destruct (Hpruned k n Hne Hk Hk') as (-> & _ & Hempty). done.
  - destruct (Hrem k n Hk0 Hk) as [[-> Hempty]|Hright]; [|by right].
    left. split; [done|]. intros x. eapply lookup_weaken_None; [apply Hempty|exact Hsub'].
Qed.

(** The dictionary one step of the removal loop hands on. *)
Lemma clean_file_value dry_run D d s D1 s1 :
  clean_file dry_run D d s = Ok D1 s1 →
  D1 = if decide (count_of D d > 1) then <[d := count_of D d - 1]> D
       else if decide (count_of D d = 1) then delete d D else D.
Proof.
  intros Hstep. unfold clean_file, bind in Hstep. fold (count_of D d) in Hstep.
  match type of Hstep with
  | match ?m s with _ => _ end = _ => destruct (m s) as [[] s2|]; [|done]
  end.
  unfold ret in Hstep. repeat case_decide; by injection Hstep as <- _.
Qed.

(** What one step of the removal loop does to the state, whatever its outcome. *)
Lemma clean_file_state dry_run D d s :
  let s' := state_of (clean_file dry_run D d s) in
  collisions_files s' = collisions_files s
  ∧ manifest_files s' = manifest_files s
  ∧ log s `prefix_of` log s'
  ∧ (fs s' = fs s
     ∨ (dry_run = false ∧ count_of D d = 0
        ∧ ∃ f1, os_unlink (fs s) d = Some f1
                ∧ fs s' = default f1 (os_removedirs f1 (os_path_dirname d)))).
Proof.
  destruct (Z.lt_trichotomy (count_of D d) 0) as [Hneg|[Hzero|Hpos]].
  - rewrite clean_file_other by done. simpl. split_and!; try done. by left.
  - destruct dry_run.
    { rewrite clean_file_dry_run by done. simpl. split_and!; try done.
      + by apply prefix_app_r.
      + by left. }
    destruct (os_path_exists (fs s) d) eqn:Hex.
    + destruct (os_unlink (fs s) d) as [f1|] eqn:Hun.
      * rewrite (clean_file_unlinks _ _ _ _ Hzero Hex Hun). simpl. split_and!; try done.
        -- by apply prefix_app_r.
        -- right. split_and!; try done. by exists f1.
      * rewrite (clean_file_unlink_fails _ _ _ Hzero Hex Hun). simpl. split_and!; try done.
        -- rewrite <- app_assoc. by apply prefix_app_r.
        -- by left.
    + rewrite clean_file_already_unlinked by done. simpl. split_and!; try done.
      * rewrite <- app_assoc. by apply prefix_app_r.
      * by left.
  - destruct (decide (count_of D d = 1)) as [Hone|Hmore].
    + rewrite clean_file_forgets by done. simpl. split_and!; try done. by left.
    + rewrite clean_file_decrements by lia. simpl. split_and!; try done. by left.
Qed.

Lemma occurrences_cons d d0 files :
  occurrences d (d0 :: files) = (if decide (d = d0) then 1 else 0) + occurrences d files.
Proof.
  unfold occurrences. rewrite filter_cons. destruct (decide (d = d0)); simpl length; lia.
Qed.

Lemma occurrences_nonneg d files : 0 ≤ occurrences d files.
Proof. unfold occurrences. lia. Qed.

(** The removal loop, whatever its outcome: a destination is unlinked only
    when its count is not negative and smaller than the number of times the
    loop meets it. *)
Lemma clean_files_remove_only (f0 : gmap path node) dry_run files : ∀ D s,
  fs s ⊆ f0 →
  let s' := state_of (for_each files D (clean_file dry_run) s) in
  collisions_files s' = collisions_files s
  ∧ manifest_files s' = manifest_files s
  ∧ log s `prefix_of` log s'
  ∧ (dry_run = true → fs s' = fs s)
  ∧ ∀ allowed : path → Prop,
      (∀ d, 0 ≤ count_of D d < occurrences d files → allowed d) →
      removes_only allowed f0 (fs s) → removes_only allowed f0 (fs s').
Proof.
  induction files as [|d0 files IH]; intros D s Hsub; cbn zeta.
  - simpl. split_and!; done.
  - cbn [for_each]. unfold bind.
    pose proof (clean_file_state dry_run D d0 s) as Hstate. cbn zeta in Hstate.
    pose proof (clean_file_value dry_run D d0 s) as Hvalue.
    destruct (clean_file dry_run D d0 s) as [D1 s1|e s1] eqn:Hstep;
      cbn [state_of] in Hstate; destruct Hstate as (Hc & Hm & Hl & Hfs).
    + specialize (Hvalue D1 s1 eq_refl).
      assert (Hsub1 : fs s1 ⊆ f0).
      { destruct Hfs as [->|(_ & _ & f1 & Hun & ->)]; [done|].
        destruct (unlink_and_prune _ _ _ Hun) as (_ & _ & _ & Hs & _). by etrans. }
      destruct (IH D1 s1 Hsub1) as (Hc' & Hm' & Hl' & Hdry' & Hrem').
      split_and!; [congruence|congruence|by etrans| |].
      * intros ->. rewrite Hdry' by done. by destruct Hfs as [?|(? & _)].
      * intros allowed Hallowed Hinv. apply Hrem'.
        -- intros d [Hd1 Hd2]. apply Hallowed. rewrite occurrences_cons.
           pose proof (occurrences_nonneg d files).
           subst D1. unfold count_of in *.
           destruct (decide (d = d0)) as [->|Hne].
           ++ repeat case_decide;
                rewrite ?lookup_insert_eq, ?lookup_delete_eq in Hd1, Hd2; simpl in *; lia.
           ++ repeat case_decide;
                rewrite ?lookup_insert_ne, ?lookup_delete_ne in Hd1, Hd2 by done; lia.
        -- destruct Hfs as [->|(_ & Hzero & f1 & Hun & ->)]; [done|].
           eapply removes_only_unlink; [exact Hinv| |exact Hun].
           apply Hallowed. rewrite occurrences_cons, decide_True by done.
           pose proof (occurrences_nonneg d0 files). lia.
    + cbn [state_of]. split_and!; try done.
      * intros ->. by destruct Hfs as [?|(? & _)].
      * intros allowed Hallowed Hinv.
        destruct Hfs as [->|(_ & Hzero & f1 & Hun & ->)]; [done|].
        eapply removes_only_unlink; [exact Hinv| |exact Hun].
        apply Hallowed. rewrite occurrences_cons, decide_True by done.
        pose proof (occurrences_nonneg d0 files). lia.
Qed.

(** What [clean_linked_files] does to the state, whatever its outcome. *)
Lemma clean_linked_files_state metadata_path files_that_collide files_to_clean dry_run s :
  let p := os_path_join metadata_path ["devel_collisions.txt"] in
  let counted := foldl add_collision (default ∅ (collisions_files s !! p)) files_that_collide in
  let loop := for_each files_to_clean counted (clean_file dry_run) s in
  clean_linked_files metadata_path files_that_collide files_to_clean dry_run s
  = match loop with
    | Ok D' s' => Ok tt (if dry_run then s' else set_collisions_file p D' s')
    | Exc e s' => Exc e s'
    end.
Proof.
  cbn zeta. unfold clean_linked_files. unfold bind at 1. unfold get at 1. unfold bind.
  destruct (for_each _ _ _ s) as [D' s'|]; [|done]. by destruct dry_run.
Qed.

(** X1.  Whatever its outcome, [clean_linked_files] only removes entries
    from the file system: the manifests stay as they are, the log only grows,
    a dry run leaves the file system alone, and an entry that is gone is a
    directory left empty, or the entry of a destination of the removal list
    whose count, once the collisions are added, is not negative and smaller
    than the number of times the list names it. *)
Theorem clean_linked_files_only_removes (metadata_path : path)
    (files_that_collide files_to_clean : list path) (dry_run : bool) (s : state) :
  let loaded := default ∅ (collisions_files s
                             !! os_path_join metadata_path ["devel_collisions.txt"]) in
  let counted := foldl add_collision loaded files_that_collide in
  let s' := state_of (clean_linked_files metadata_path files_that_collide files_to_clean
                        dry_run s) in
  fs s' ⊆ fs s
  ∧ manifest_files s' = manifest_files s
  ∧ log s `prefix_of` log s'
  ∧ (dry_run = true → fs s' = fs s)
  ∧ ∀ k n, fs s !! k = Some n → fs s' !! k = None →
      (n = NDir ∧ ∀ x, fs s' !! (k ++ [x]) = None)
      ∨ (n ≠ NDir
         ∧ ∃ dest_file, dest_file ∈ files_to_clean
             ∧ entry_location (fs s) dest_file = Some k
             ∧ 0 ≤ count_of counted dest_file < occurrences dest_file files_to_clean).
Proof.
  intros loaded counted s'.
  pose proof (clean_files_remove_only (fs s) dry_run files_to_clean counted s
                (reflexivity _)) as Hloop. cbn zeta in Hloop.
  assert (Hs' : fs s' = fs (state_of (for_each files_to_clean counted (clean_file dry_run) s))
                ∧ manifest_files s'
                  = manifest_files (state_of (for_each files_to_clean counted
                                                (clean_file dry_run) s))
                ∧ log s' = log (state_of (for_each files_to_clean counted
                                            (clean_file dry_run) s))).
  { subst s'. rewrite clean_linked_files_state. cbn zeta. fold loaded. fold counted.
    destruct (for_each files_to_clean counted (clean_file dry_run) s) as [D1 s1|]; [|done].
    by destruct dry_run. }
  destruct Hs' as (-> & -> & ->).
  destruct Hloop as (_ & Hm & Hl & Hdry & Hrem).
  specialize (Hrem (fun d => d ∈ files_to_clean
                             ∧ 0 ≤ count_of counted d < occurrences d files_to_clean)).
  destruct Hrem as [Hsub Hrem].
  { intros d Hd. split; [|done]. unfold occurrences in Hd.
    destruct (filter (eq d) files_to_clean) as [|x l] eqn:Hf; [simpl in Hd; lia|].
    assert (Hin : x ∈ filter (eq d) files_to_clean) by (rewrite Hf; left).
    apply list_elem_of_filter in Hin as [<- Hin]. done. }
  { apply removes_only_refl. }
  split_and!; try done.
  intros k n Hk Hgone. destruct (Hrem k n Hk Hgone) as [?|(Hn & d & [Hin Hcount] & Hloc)];
    [by left|].
  right. split; [done|]. by exists d.
Qed.

(** **** When the removal loop fails *)





(** **** Counts stay positive *)

Lemma add_collision_positive D d : positive_counts D → positive_counts (add_collision D d).
Proof.
  intros HD. unfold add_collision. destruct (D !! d) as [n|] eqn:Hd.
  - apply map_Forall_insert_2; [|done]. specialize (HD d n Hd). simpl in HD. lia.
  - apply map_Forall_insert_2; [lia|done].
Qed.

Lemma add_collisions_positive C : ∀ D, positive_counts D → positive_counts (foldl add_collision D C).
Proof.
  induction C as [|c C IH]; intros D HD; simpl; [done|]. by apply IH, add_collision_positive.
Qed.

Lemma add_collisions_other C : ∀ D d, d ∉ C → foldl add_collision D C !! d = D !! d.
Proof.
  induction C as [|c C IH]; intros D d Hd; simpl; [done|].
  apply not_elem_of_cons in Hd as [Hne Hd]. rewrite IH by done.
  unfold add_collision. destruct (D !! c); by rewrite lookup_insert_ne.
Qed.

Lemma clean_files_positive dry_run files : ∀ D s D' s',
  positive_counts D → for_each files D (clean_file dry_run) s = Ok D' s' →
  positive_counts D'.
Proof.
  induction files as [|d files IH]; intros D s D' s' HD Hrun.
  - by injection Hrun as <- _.
  - cbn [for_each] in Hrun. unfold bind in Hrun.
    destruct (clean_file dry_run D d s) as [D1 s1|] eqn:Hstep; [|done].
    apply (IH D1 s1 D' s'); [|done].
    rewrite (clean_file_value _ _ _ _ _ _ Hstep). repeat case_decide.
    + apply map_Forall_insert_2; [lia|done].
    + by apply map_Forall_delete.
    + done.
Qed.

Lemma clean_files_other dry_run files : ∀ D s D' s' d,
  d ∉ files → for_each files D (clean_file dry_run) s = Ok D' s' → D' !! d = D !! d.
Proof.
  induction files as [|d0 files IH]; intros D s D' s' d Hd Hrun.
  - by injection Hrun as <- _.
  - apply not_elem_of_cons in Hd as [Hne Hd].
    cbn [for_each] in Hrun. unfold bind in Hrun.
    destruct (clean_file dry_run D d0 s) as [D1 s1|] eqn:Hstep; [|done].
    rewrite (IH D1 s1 D' s' d Hd Hrun).
    rewrite (clean_file_value _ _ _ _ _ _ Hstep).
    repeat case_decide; by rewrite ?lookup_insert_ne, ?lookup_delete_ne by done.
Qed.

(** X3.  When every count of the ledger is at least 1, so is every count
    of the ledger [clean_linked_files] writes: a destination is absent from
    it exactly when its count is 0, and a destination in neither list keeps
    its entry. *)
Theorem clean_linked_files_keeps_counts_positive (metadata_path : path)
    (files_that_collide files_to_clean : list path) (s s' : state) :
  let devel_collisions_file_path := os_path_join metadata_path ["devel_collisions.txt"] in
  let loaded := default ∅ (collisions_files s !! devel_collisions_file_path) in
  positive_counts loaded →
  clean_linked_files metadata_path files_that_collide files_to_clean false s = Ok tt s' →
  ∃ written,
    collisions_files s' = <[devel_collisions_file_path := written]> (collisions_files s)
    ∧ positive_counts written
    ∧ (∀ dest_file, written !! dest_file = None ↔ count_of written dest_file = 0)
    ∧ (∀ dest_file, dest_file ∉ files_that_collide → dest_file ∉ files_to_clean →
         written !! dest_file = loaded !! dest_file).
Proof.
  intros p loaded Hpos. rewrite clean_linked_files_state. cbn zeta. fold p. fold loaded.
  destruct (for_each _ _ _ s) as [D1 s1|e1 s1] eqn:Hloop; [|done].
  intros [= <-]. exists D1.
  assert (Hpos1 : positive_counts D1).
  { eapply clean_files_positive; [|exact Hloop]. by apply add_collisions_positive. }
  split_and!.
  - cbn [set_collisions_file collisions_files].
    pose proof (clean_files_remove_only (fs s) false files_to_clean
                  (foldl add_collision loaded files_that_collide) s (reflexivity _)) as Hst.
    cbn zeta in Hst. rewrite Hloop in Hst. cbn in Hst. destruct Hst as (-> & _). done.
  - done.
  - intros d. unfold count_of. destruct (D1 !! d) as [n|] eqn:Hd; simpl; [|done].
    specialize (Hpos1 d n Hd). simpl in Hpos1. split; [done|lia].
  - intros d Hd1 Hd2. rewrite (clean_files_other _ _ _ _ _ _ d Hd2 Hloop).
    by apply add_collisions_other.
Qed.

Lemma clean_linked_files_keeps_counts_positive_witness :
  ∃ s' written,
    clean_linked_files Scenario.profile [Scenario.x_so] [] false Scenario.merged_AB = Ok tt s'
    ∧ collisions_files s'
      = <[os_path_join Scenario.profile ["devel_collisions.txt"] := written]>
          (collisions_files Scenario.merged_AB)
    ∧ positive_counts written.
Proof.
  destruct (clean_linked_files Scenario.profile [Scenario.x_so] [] false Scenario.merged_AB)
    as [[] s1|e s1] eqn:Hrun.
  - destruct (clean_linked_files_keeps_counts_positive Scenario.profile [Scenario.x_so] []
                Scenario.merged_AB s1 ltac:(by_evaluation) Hrun)
      as (written & Hw & Hpos & _).
    exists s1, written. split; [reflexivity|]. split; [exact Hw|exact Hpos].
  - exfalso.
    assert (Hsome : value_of (clean_linked_files Scenario.profile [Scenario.x_so] [] false
                                Scenario.merged_AB) = Some tt) by by_evaluation.
    rewrite Hrun in Hsome. discriminate Hsome.
Defined.

(** **** A collision counted and cleaned again *)

(** X4.  Counting a collision on a destination and cleaning that
    destination afterwards restores the ledger, when the count the ledger
    holds for the destination, if any, is at least 1: the second call writes
    the counts the first one loaded, and the file system is not touched. *)
Theorem collision_counted_then_cleaned (metadata_path dest_file : path) (s : state) :
  let devel_collisions_file_path := os_path_join metadata_path ["devel_collisions.txt"] in
  let loaded := default ∅ (collisions_files s !! devel_collisions_file_path) in
  (∀ n, loaded !! dest_file = Some n → 1 ≤ n) →
  ∃ s1,
    clean_linked_files metadata_path [dest_file] [] false s = Ok tt s1
    ∧ ledger_count s1 metadata_path dest_file = Some (count_of loaded dest_file + 1)
    ∧ fs s1 = fs s
    ∧ clean_linked_files metadata_path [] [dest_file] false s1
      = Ok tt (set_collisions_file devel_collisions_file_path loaded s).
Proof.
  intros p loaded Hpos.
  assert (Hloaded : default ∅ (collisions_files s !! p) = loaded) by done.
  assert (Hp : os_path_join metadata_path ["devel_collisions.txt"] = p) by done.
  clearbody loaded p.
  exists (set_collisions_file p (add_collision loaded dest_file) s).
  split_and!.
  - rewrite clean_linked_files_state. cbn zeta. rewrite Hp, Hloaded. done.
  - unfold ledger_count. rewrite Hp. cbn [set_collisions_file collisions_files].
    rewrite lookup_insert_eq. cbn [mbind option_bind].
    unfold add_collision, count_of. destruct (loaded !! dest_file) as [n|];
      rewrite lookup_insert_eq; simpl; f_equal; lia.
  - done.
  - rewrite clean_linked_files_state. cbn zeta. rewrite Hp.
    cbn [set_collisions_file collisions_files]. rewrite lookup_insert_eq. cbn [default foldl].
    unfold id. cbn [for_each]. unfold bind.
    assert (Hcount : count_of (add_collision loaded dest_file) dest_file
                     = count_of loaded dest_file + 1).
    { rewrite add_collision_count. by rewrite decide_True. }
    destruct (loaded !! dest_file) as [n|] eqn:Hd.
    + specialize (Hpos n eq_refl).
      assert (Hn : count_of loaded dest_file = n) by (unfold count_of; by rewrite Hd).
      rewrite clean_file_decrements by lia. unfold ret. cbn [set_collisions_file].
      cbn [fs collisions_files manifest_files log].
      rewrite Hcount, Hn. unfold add_collision. rewrite Hd.
      replace (n + 1 - 1) with n by lia.
      rewrite (insert_insert_eq loaded dest_file n (n + 1)).
      rewrite (insert_id loaded dest_file n Hd).
      unfold set_collisions_file. cbn [fs collisions_files manifest_files log].
      by rewrite (insert_insert_eq (collisions_files s)).
    + assert (Hn : count_of loaded dest_file = 0) by (unfold count_of; by rewrite Hd).
      rewrite clean_file_forgets by lia. unfold ret.
      unfold add_collision. rewrite Hd.
      rewrite (delete_insert_id loaded dest_file 1 Hd).
      unfold set_collisions_file. cbn [fs collisions_files manifest_files log].
      by rewrite (insert_insert_eq (collisions_files s)).
Qed.

Lemma collision_counted_then_cleaned_witness :
  ∃ s1,
    clean_linked_files Scenario.profile [Scenario.x_so] [] false Scenario.merged_AB = Ok tt s1
    ∧ ledger_count s1 Scenario.profile Scenario.x_so = Some 2
    ∧ fs s1 = fs Scenario.merged_AB.
Proof.
  pose proof (collision_counted_then_cleaned Scenario.profile Scenario.x_so
                Scenario.merged_AB) as Hthm.
  cbv zeta in Hthm.
  destruct Hthm as (s1 & Hrun & Hcount & Hfs & _).
  - intros n Hn.
    match type of Hn with
    | ?l = Some n =>
        assert (Hl : from_option (fun n => bool_decide (1 ≤ n)) true l = true) by by_evaluation
    end.
    rewrite Hn in Hl. by apply bool_decide_eq_true in Hl.
  - exists s1. split; [exact Hrun|]. split; [|exact Hfs].
    match type of Hcount with
    | _ = Some (?c + 1) => assert (Hc : c = 1) by by_evaluation; rewrite Hc in Hcount
    end.
    exact Hcount.
Defined.

(** *** The outcomes of [unlink_devel_products] *)

Lemma unlink_devel_products_cases
    (devel_space_abs private_devel_path metadata_path package_metadata_path : path)
    (dry_run : bool) (s : state) :
  unlink_devel_products devel_space_abs private_devel_path metadata_path
    package_metadata_path dry_run s
  = if os_path_exists (fs s) private_devel_path then
      match manifest_files s !! os_path_join package_metadata_path [DEVEL_MANIFEST_FILENAME] with
      | None =>
          Ok 1 (add_log (LogErr (NoDevelManifest
                                   (os_path_join package_metadata_path
                                      [DEVEL_MANIFEST_FILENAME]))) s)
      | Some (_, rows) =>
          if existsb (not_a_symlink (fs s)) rows then
            match for_loop rows [] check_manifest_row s with
            | Ok (inl code) s' => Ok code s'
            | Ok (inr _) s' => Exc OSError s'
            | Exc e s' => Exc e s'
            end
          else
            match clean_linked_files metadata_path [] (present_dests (fs s) rows) dry_run
                    (State (fs s) (collisions_files s) (manifest_files s)
                       (log s ++ missing_warnings (fs s) rows)) with
            | Ok _ s' => Ok 0 s'
            | Exc e s' => Exc e s'
            end
      end
    else Ok 0 (add_log (LogErr (NoPrivateDevelPath private_devel_path)) s).
Proof.
  unfold unlink_devel_products. unfold bind at 1. unfold get at 1.
  destruct (os_path_exists (fs s) private_devel_path); cbn [negb]; [|done].
  destruct (manifest_files s !! _) as [[package_path rows]|]; [|done].
  unfold bind at 1.
  destruct (existsb (not_a_symlink (fs s)) rows) eqn:Hrows.
  - destruct (check_manifest_rows_abort rows [] s Hrows) as (s' & -> & _). done.
  - rewrite check_manifest_rows_ok by done. cbn [app].
    unfold bind. by destruct (clean_linked_files _ _ _ _ _).
Qed.

Lemma not_a_symlink_none (f : gmap path node) rows d :
  existsb (not_a_symlink f) rows = false → d ∈ present_dests f rows →
  os_path_islink f d = true.
Proof.
  intros Hnone (row & Hin & <- & Hex)%present_dests_elem.
  destruct (os_path_islink f row.2) eqn:Hlink; [done|].
  assert (Hsome : existsb (not_a_symlink f) rows = true).
  { apply existsb_exists. exists row. split; [by apply list_elem_of_In|].
    unfold not_a_symlink. by rewrite Hex, Hlink. }
  congruence.
Qed.

Lemma check_manifest_rows_log rows : ∀ files_to_clean s,
  log s `prefix_of` log (state_of (for_loop rows files_to_clean check_manifest_row s)).
Proof.
  induction rows as [|[source_file dest_file] rows IH]; intros acc s; [done|].
  cbn [for_loop]. unfold bind at 1. unfold check_manifest_row at 1.
  unfold bind at 1. unfold get at 1.
  destruct (os_path_exists (fs s) dest_file); cbn [negb].
  - destruct (os_path_islink (fs s) dest_file); cbn [negb andb].
    + unfold ret at 1. apply IH.
    + cbn. by apply prefix_app_r.
  - unfold bind at 1. unfold logger_err, modify at 1. unfold ret at 1.
    etrans; [|apply IH]. cbn. by apply prefix_app_r.
Qed.

(** X5.  Over this file system [unlink_devel_products] never raises, and
    the state it starts from decides its return code: 0 without a private
    devel path, 1 without a manifest, -1 when a destination of the manifest
    exists and is not a symbolic link, 0 otherwise.  Without a private devel
    path and whenever the code is not 0, the file system, the ledger and the
    manifests are left as they are; the log only grows. *)
Theorem unlink_devel_products_return_code
    (devel_space_abs private_devel_path metadata_path package_metadata_path : path)
    (dry_run : bool) (s : state) :
  let devel_manifest_file_path :=
    os_path_join package_metadata_path [DEVEL_MANIFEST_FILENAME] in
  ∃ code s',
    unlink_devel_products devel_space_abs private_devel_path metadata_path
      package_metadata_path dry_run s = Ok code s'
    ∧ code = (if os_path_exists (fs s) private_devel_path then
                match manifest_files s !! devel_manifest_file_path with
                | None => 1
                | Some (_, rows) => if existsb (not_a_symlink (fs s)) rows then -1 else 0
                end
              else 0)
    ∧ (os_path_exists (fs s) private_devel_path = false ∨ code ≠ 0 → same_stores s s')
    ∧ log s `prefix_of` log s'.
Proof.
  intros file. rewrite unlink_devel_products_cases. fold file.
  destruct (os_path_exists (fs s) private_devel_path) eqn:Hprivate.
  2:{ eexists _, _. split; [done|]. split_and!; try done. by apply prefix_app_r. }
  destruct (manifest_files s !! file) as [[package_path rows]|] eqn:Hmanifest.
  2:{ eexists _, _. split; [done|]. split_and!; try done. by apply prefix_app_r. }
  destruct (existsb (not_a_symlink (fs s)) rows) eqn:Hrows.
  - destruct (check_manifest_rows_abort rows [] s Hrows) as (s' & Hloop & Hsame).
    rewrite Hloop. eexists _, _. split; [done|]. split_and!; try done.
    pose proof (check_manifest_rows_log rows [] s) as Hlog. by rewrite Hloop in Hlog.
  - set (checked := State (fs s) (collisions_files s) (manifest_files s)
                      (log s ++ missing_warnings (fs s) rows)).
    rewrite clean_linked_files_state. cbn zeta. cbn [foldl].
    destruct (clean_files_of_symlinks (fs s) dry_run (present_dests (fs s) rows)
                (default ∅ (collisions_files checked
                              !! os_path_join metadata_path ["devel_collisions.txt"]))
                checked)
      as (D' & s' & Hloop & _ & _ & _ & Hlog & _).
    { done. }
    { apply Forall_forall. intros d Hd. by eapply not_a_symlink_none. }
    rewrite Hloop. eexists _, _. split; [done|]. split_and!; try done.
    + intros [?|?]; done.
    + match goal with
      | |- _ `prefix_of` log ?st => assert (log st = log s') as -> by by destruct dry_run
      end.
      etrans; [|exact Hlog]. by apply prefix_app_r.
Qed.

(** The state [unlink_devel_products] ends in: the stores are untouched, or
    the removal loop has run over the destinations that are there, all of
    them symbolic links. *)
Lemma unlink_devel_products_state
    (devel_space_abs private_devel_path metadata_path package_metadata_path : path)
    (dry_run : bool) (s : state) :
  let s' := state_of (unlink_devel_products devel_space_abs private_devel_path
                        metadata_path package_metadata_path dry_run s) in
  same_stores s s'
  ∨ ∃ package_path rows,
      manifest_files s !! os_path_join package_metadata_path [DEVEL_MANIFEST_FILENAME]
        = Some (package_path, rows)
      ∧ existsb (not_a_symlink (fs s)) rows = false
      ∧ let checked := State (fs s) (collisions_files s) (manifest_files s)
                         (log s ++ missing_warnings (fs s) rows) in
        let loop :=
          for_each (present_dests (fs s) rows)
            (default ∅ (collisions_files s
                          !! os_path_join metadata_path ["devel_collisions.txt"]))
            (clean_file dry_run) checked in
        fs s' = fs (state_of loop)
        ∧ manifest_files s' = manifest_files (state_of loop)
        ∧ (dry_run = true → collisions_files s' = collisions_files (state_of loop)).
Proof.
  cbn zeta. rewrite unlink_devel_products_cases.
  destruct (os_path_exists (fs s) private_devel_path) eqn:Hprivate; [|by left].
  destruct (manifest_files s !! _) as [[package_path rows]|] eqn:Hmanifest; [|by left].
  destruct (existsb (not_a_symlink (fs s)) rows) eqn:Hrows.
  { destruct (check_manifest_rows_abort rows [] s Hrows) as (s' & -> & Hs'). by left. }
  right. exists package_path, rows. split; [done|]. split; [done|].
  rewrite clean_linked_files_state. cbn zeta. cbn [foldl collisions_files].
  destruct (for_each _ _ _ _) as [D' s1|e s1]; [|done].
  destruct dry_run; cbn; split_and!; done.
Qed.

(** X6.  Whatever its outcome, [unlink_devel_products] removes nothing
    but symbolic links that are the entry of a destination of a row of the
    package's manifest, and directories that are left empty: every regular
    file stays, the manifests stay, and a dry run changes neither the file
    system nor the ledger. *)
Theorem unlink_devel_products_removes_only_links
    (devel_space_abs private_devel_path metadata_path package_metadata_path : path)
    (dry_run : bool) (s : state) :
  let devel_manifest_file_path :=
    os_path_join package_metadata_path [DEVEL_MANIFEST_FILENAME] in
  let s' := state_of (unlink_devel_products devel_space_abs private_devel_path
                        metadata_path package_metadata_path dry_run s) in
  fs s' ⊆ fs s
  ∧ manifest_files s' = manifest_files s
  ∧ (dry_run = true → fs s' = fs s ∧ collisions_files s' = collisions_files s)
  ∧ (∀ k content, fs s !! k = Some (NFile content) → fs s' !! k = Some (NFile content))
  ∧ ∀ k n, fs s !! k = Some n → fs s' !! k = None →
      (n = NDir ∧ ∀ x, fs s' !! (k ++ [x]) = None)
      ∨ ((∃ relative target, n = NLink relative target)
         ∧ ∃ package_path rows row,
             manifest_files s !! devel_manifest_file_path = Some (package_path, rows)
             ∧ row ∈ rows
             ∧ entry_location (fs s) row.2 = Some k).
Proof.
  intros file s'.
  assert (Hmain :
    fs s' ⊆ fs s
    ∧ manifest_files s' = manifest_files s
    ∧ (dry_run = true → fs s' = fs s ∧ collisions_files s' = collisions_files s)
    ∧ ∀ k n, fs s !! k = Some n → fs s' !! k = None →
        (n = NDir ∧ ∀ x, fs s' !! (k ++ [x]) = None)
        ∨ ((∃ relative target, n = NLink relative target)
           ∧ ∃ package_path rows row,
               manifest_files s !! file = Some (package_path, rows)
               ∧ row ∈ rows
               ∧ entry_location (fs s) row.2 = Some k)).
  { destruct (unlink_devel_products_state devel_space_abs private_devel_path metadata_path
                package_metadata_path dry_run s)
      as [(Hf & Hc & Hm)|(package_path & rows & Hmanifest & Hrows & Hf & Hm & Hc)];
      fold s' in Hf, Hm, Hc |- *.
    { fold s' in Hf, Hc, Hm. rewrite Hf. split_and!; try done. intros k n H1 H2. congruence. }
    fold file in Hmanifest.
    pose proof (clean_files_remove_only (fs s) dry_run (present_dests (fs s) rows)
                  (default ∅ (collisions_files s
                                !! os_path_join metadata_path ["devel_collisions.txt"]))
                  (State (fs s) (collisions_files s) (manifest_files s)
                     (log s ++ missing_warnings (fs s) rows))
                  (reflexivity _)) as Hloop.
    cbn zeta in Hloop. destruct Hloop as (Hc' & Hm' & _ & Hdry & Hrem).
    rewrite <- Hf in Hdry, Hrem. rewrite <- Hm in Hm'.
    specialize (Hrem (fun d => d ∈ present_dests (fs s) rows)).
    destruct Hrem as [Hsub Hrem].
    { intros d Hd. unfold occurrences in Hd.
      destruct (filter (eq d) (present_dests (fs s) rows)) as [|x l] eqn:Hfilter;
        [simpl in Hd; lia|].
      assert (Hin : x ∈ filter (eq d) (present_dests (fs s) rows))
        by (rewrite Hfilter; left).
      by apply list_elem_of_filter in Hin as [<- Hin]. }
    { apply removes_only_refl. }
    split_and!; [done|done| |].
    - intros Htrue. split; [by apply Hdry|]. rewrite Hc by done. exact Hc'.
    - intros k n Hk Hgone. destruct (Hrem k n Hk Hgone) as [?|(Hn & d & Hd & Hloc)]; [by left|].
      right. pose proof (not_a_symlink_none _ _ _ Hrows Hd) as Hlink.
      apply os_path_islink_location in Hlink as (loc & rel & t & Hnode & Hloc').
      assert (loc = k) as -> by congruence.
      split; [exists rel, t; congruence|].
      apply present_dests_elem in Hd as (row & Hin & <- & _).
      by exists package_path, rows, row. }
  destruct Hmain as (Hsub & Hm & Hdry & Hrem). split_and!; try done.
  intros k content Hk. destruct (fs s' !! k) as [m|] eqn:Hk'.
  - pose proof (lookup_weaken _ _ _ _ Hk' Hsub). congruence.
  - destruct (Hrem k _ Hk Hk') as [[? _]|[(rel & t & ?) _]]; done.
Qed.

(** *** Specifications of the computations of a merge *)

Section Satisfies.
Context (R : state → state → Prop) `{!PreOrder R}.

Lemma satisfies_ret {A} (Q : A → Prop) a : Q a → satisfies R Q (ret a).
Proof. intros Ha s. split; [reflexivity|]. by intros ? ? [= <- _]. Qed.

Lemma satisfies_raise {A} (Q : A → Prop) e : satisfies R Q (raise e).
Proof. intros s. split; [reflexivity|]. done. Qed.

Lemma satisfies_get : satisfies R (fun _ => True) get.
Proof. intros s. split; [reflexivity|]. done. Qed.

Lemma satisfies_modify (f : state → state) :
  (∀ s, R s (f s)) → satisfies R (fun _ => True) (modify f).
Proof. intros Hf s. split; [apply Hf|]. done. Qed.

Lemma satisfies_bind {A B} (P : A → Prop) (Q : B → Prop) m (k : A → M state B) :
  satisfies R P m → (∀ a, P a → satisfies R Q (k a)) → satisfies R Q (bind m k).
Proof.
  intros Hm Hk s. destruct (Hm s) as [HR HP]. unfold bind.
  destruct (m s) as [a s1|e s1]; [|done].
  destruct (Hk a (HP a s1 eq_refl) s1) as [HR' HQ]. split; [|done]. by etrans.
Qed.

Lemma satisfies_try_except {A} (Q : A → Prop) m catches (handler : exn → M state A) :
  satisfies R Q m → (∀ e, satisfies R Q (handler e)) →
  satisfies R Q (try_except m catches handler).
Proof.
  intros Hm Hh s. destruct (Hm s) as [HR HQ]. unfold try_except.
  destruct (m s) as [a s1|e s1]; [done|].
  destruct (catches e); [|done].
  destruct (Hh e s1) as [HR' HQ']. split; [|done]. by etrans.
Qed.

Lemma satisfies_for_loop {X L V} (P : V → Prop) (body : L → X → M state (V + L)) xs :
  (∀ locals x, satisfies R (returning P) (body locals x)) →
  ∀ locals, satisfies R (returning P) (for_loop xs locals body).
Proof.
  intros Hbody. induction xs as [|x xs IH]; intros locals; cbn [for_loop].
  - by apply satisfies_ret.
  - eapply satisfies_bind; [apply Hbody|].
    intros [v|locals'] Hr; [by apply satisfies_ret|]. apply IH.
Qed.

Lemma satisfies_for_each {X L} (body : L → X → M state L) xs :
  (∀ locals x, satisfies R (fun _ => True) (body locals x)) →
  ∀ locals, satisfies R (fun _ => True) (for_each xs locals body).
Proof.
  intros Hbody. induction xs as [|x xs IH]; intros locals; cbn [for_each].
  - by apply satisfies_ret.
  - eapply satisfies_bind; [apply Hbody|]. intros locals' _. apply IH.
Qed.

(** [os.walk] only hands the body directories at or below the one it starts
    from. *)
Lemma satisfies_os_walk {L V} (P : V → Prop) (root : path)
    (body : L → path * list string * list string → M state (V + L)) :
  (∀ locals top dirs nondirs, root `prefix_of` top →
     satisfies R (returning P) (body locals (top, dirs, nondirs))) →
  ∀ depth top locals, root `prefix_of` top →
    satisfies R (returning P) (os_walk depth top locals body).
Proof.
  intros Hbody. induction depth as [|depth IH]; intros top locals Htop; cbn [os_walk].
  - apply satisfies_raise.
  - eapply satisfies_bind; [apply satisfies_get|]. intros s _.
    destruct (scandir (fs s) top) as [[dirs nondirs]|]; [|by apply satisfies_ret].
    eapply satisfies_bind; [by apply Hbody|].
    intros [v|locals'] Hr; [by apply satisfies_ret|].
    apply satisfies_for_loop. intros locals'' dirname.
    eapply satisfies_bind; [apply satisfies_get|]. intros s' _.
    destruct (os_path_islink (fs s') _); [by apply satisfies_ret|].
    apply IH. etrans; [exact Htop|]. by apply prefix_app_r.
Qed.

End Satisfies.

(** *** The link phase of a merge *)

Lemma grows_refl root s : grows root s s.
Proof. split_and!; try done. intros k n H1 H2. congruence. Qed.

Lemma grows_trans root s1 s2 s3 : grows root s1 s2 → grows root s2 s3 → grows root s1 s3.
Proof.
  intros (Hf & Hn & Hc & Hm & Hl) (Hf' & Hn' & Hc' & Hm' & Hl').
  split_and!; [by etrans| |congruence|congruence|by etrans].
  intros k n Hk1 Hk3. destruct (fs s2 !! k) as [m|] eqn:Hk2.
  - pose proof (lookup_weaken _ _ _ _ Hk2 Hf') as Hk3'.
    assert (m = n) as -> by congruence. by apply (Hn k).
  - by apply (Hn' k).
Qed.

#[global] Instance grows_preorder root : PreOrder (grows root).
Proof. split; [intros s; apply grows_refl|intros s1 s2 s3; apply grows_trans]. Qed.

Lemma grows_log root e s : grows root s (add_log e s).
Proof.
  split_and!; try done. { intros k n H1 H2. cbn in H2. congruence. }
  by apply prefix_app_r.
Qed.

Lemma satisfies_logger_out root m : satisfies (grows root) (fun _ => True) (logger_out m).
Proof. apply satisfies_modify. apply grows_log. Qed.

Lemma satisfies_logger_err root m : satisfies (grows root) (fun _ => True) (logger_err m).
Proof. apply satisfies_modify. apply grows_log. Qed.

Lemma satisfies_os_symlink root src dst :
  root `prefix_of` src →
  satisfies (grows root) (fun _ => True) (os_call (fun f => os_symlink f src dst)).
Proof.
  intros Hsrc s. split; [|done]. unfold os_call, os_symlink.
  destruct (entry_location (fs s) dst) as [loc|]; [|apply grows_refl]. simpl.
  destruct (fs s !! loc) eqn:Hloc; [apply grows_refl|]. cbn [state_of].
  split_and!; try done.
  - by apply insert_subseteq.
  - intros k n Hk. cbn [set_fs fs]. destruct (decide (k = loc)) as [->|Hne].
    + rewrite lookup_insert_eq. intros [= <-]. right. by exists src.
    + rewrite lookup_insert_ne by done. congruence.
Qed.

Lemma satisfies_os_mkdir root p :
  satisfies (grows root) (fun _ => True) (os_call (fun f => os_mkdir f p)).
Proof.
  intros s. split; [|done]. unfold os_call, os_mkdir.
  destruct (entry_location (fs s) p) as [loc|]; [|apply grows_refl]. simpl.
  destruct (fs s !! loc) eqn:Hloc; [apply grows_refl|]. cbn [state_of].
  split_and!; try done.
  - by apply insert_subseteq.
  - intros k n Hk. cbn [set_fs fs]. destruct (decide (k = loc)) as [->|Hne].
    + rewrite lookup_insert_eq. intros [= <-]. by left.
    + rewrite lookup_insert_ne by done. congruence.
Qed.

Section LinkPhase.
Variable md5 : string → string.
Variable root : path.

Local Ltac sat_ret := apply satisfies_ret; [apply _|done].
Local Ltac sat_bind lem := eapply satisfies_bind; [apply _|lem|].
Local Ltac sat_log :=
  first [sat_bind ltac:(apply satisfies_logger_out) | sat_bind ltac:(apply satisfies_logger_err)];
  intros _ _.
Local Ltac sat_get := sat_bind ltac:(apply satisfies_get; apply _).

Lemma satisfies_hash_of p : satisfies (grows root) (fun _ => True) (hash_of md5 p).
Proof.
  intros s. unfold hash_of. split; [|done].
  destruct (read_file _ _); apply grows_refl.
Qed.

Lemma satisfies_symlink_or_raise src dst (m : message) :
  root `prefix_of` src →
  satisfies (grows root) (fun _ => True)
    (try_except (os_call (fun f => os_symlink f src dst)) is_OSError
       (fun e => let* _ := logger_err m in raise e)).
Proof.
  intros Hsrc. apply satisfies_try_except; [apply _| |].
  - by apply satisfies_os_symlink.
  - intros e. sat_log. apply satisfies_raise. apply _.
Qed.

Lemma satisfies_link_dir source_path dest_path locals dirname :
  root `prefix_of` source_path →
  satisfies (grows root) (returning (eq (-1))) (link_dir source_path dest_path locals dirname).
Proof.
  intros Hroot. unfold link_dir. destruct locals as [products files_that_collide].
  case_bool_decide; [sat_ret|].
  sat_get. intros s _.
  destruct (os_path_islink (fs s) _).
  - destruct (os_path_exists (fs s) _).
    + destruct (negb _); [sat_ret|]. sat_log. sat_ret.
    + sat_log. sat_bind ltac:(apply satisfies_symlink_or_raise).
      * unfold os_path_join. etrans; [exact Hroot|]. by apply prefix_app_r.
      * intros _ _. sat_ret.
  - destruct (negb (os_path_exists (fs s) _)).
    + sat_bind ltac:(apply satisfies_os_mkdir). intros _ _. sat_ret.
    + destruct (negb (os_path_isdir (fs s) _)); [|sat_ret]. sat_log. sat_ret.
Qed.

Lemma satisfies_link_file skiplist source_devel_path source_path dest_path locals filename :
  root `prefix_of` source_path →
  satisfies (grows root) (returning (eq (-1)))
    (link_file md5 skiplist source_devel_path source_path dest_path locals filename).
Proof.
  intros Hroot. unfold link_file. destruct locals as [products files_that_collide].
  destruct (should_skip_file _ _ _ _); [sat_ret|].
  sat_get. intros s _.
  destruct (os_path_exists (fs s) _).
  - destruct (negb _).
    + sat_bind ltac:(apply satisfies_hash_of). intros source_hash _.
      sat_bind ltac:(apply satisfies_hash_of). intros dest_hash _.
      eapply satisfies_bind with (P := fun _ => True); [apply _| |].
      * destruct (negb _); [|sat_ret]. sat_log. sat_log. apply satisfies_logger_err.
      * intros _ _. sat_ret.
    + sat_log. sat_ret.
  - sat_log. sat_bind ltac:(apply satisfies_symlink_or_raise).
    + unfold os_path_join. etrans; [exact Hroot|]. by apply prefix_app_r.
    + intros _ _. sat_ret.
Qed.

Lemma satisfies_link_directory skiplist source_devel_path dest_devel_path locals
    source_path dirs files :
  root `prefix_of` source_path →
  satisfies (grows root) (returning (eq (-1)))
    (link_directory md5 skiplist source_devel_path dest_devel_path locals
       (source_path, dirs, files)).
Proof.
  intros Hroot. unfold link_directory.
  eapply satisfies_bind; [apply _| |].
  - apply satisfies_for_loop; [apply _|]. intros l x. by apply satisfies_link_dir.
  - intros [code|locals'] Hr; [sat_ret|].
    apply satisfies_for_loop; [apply _|]. intros l x. by apply satisfies_link_file.
Qed.

End LinkPhase.

(** *** The outcomes of [link_devel_products] *)

Lemma stale_rows_state products rows : ∀ files_to_clean s,
  ∃ s', for_each rows files_to_clean (stale_row products) s
        = Ok (files_to_clean ++ stale_dests products rows) s'
        ∧ same_stores s s' ∧ log s `prefix_of` log s'.
Proof.
  induction rows as [|[source_file dest_file] rows IH]; intros acc s.
  - exists s. unfold stale_dests. cbn. by rewrite app_nil_r.
  - cbn [for_each]. unfold bind at 1. unfold stale_row at 1.
    unfold stale_dests. rewrite filter_cons.
    destruct (decide ((source_file, dest_file) ∉ products)) as [Hstale|Hkept].
    + rewrite bool_decide_eq_false_2 by done. cbn [negb].
      unfold bind at 1. unfold logger_out, modify at 1. unfold ret at 1.
      destruct (IH (acc ++ [dest_file]) (add_log (LogOut (Cleaning source_file dest_file)) s))
        as (s' & -> & Hsame & Hlog).
      exists s'. split; [|split].
      * cbn [fmap list_fmap snd]. by rewrite <- app_assoc.
      * done.
      * etrans; [|exact Hlog]. by apply prefix_app_r.
    + rewrite bool_decide_eq_true_2 by (by apply dec_stable). cbn [negb]. unfold ret at 1.
      apply IH.
Qed.

Section LinkOutcome.
Variable md5 : string → string.

(** [link_devel_products] as its three phases: the walk that links, the scan
    of the old manifest, the cleanup with the write of the ledger; the manifest
    is written last. *)
Lemma link_devel_products_cases
    (package_path devel_manifest_path source_devel_path dest_devel_path metadata_path : path)
    (prebuild : bool) (s : state) :
  let devel_manifest_file_path := os_path_join devel_manifest_path [DEVEL_MANIFEST_FILENAME] in
  let skiplist := if prebuild then DEVEL_LINK_PREBUILD_SKIPLIST else DEVEL_LINK_SKIPLIST in
  ∃ walked,
    walked = os_walk (walk_depth (fs s)) source_devel_path (([], []) : list (path * path) * list path)
               (link_directory md5 skiplist source_devel_path dest_devel_path) s
    ∧ grows source_devel_path s (state_of walked)
    ∧ match walked with
      | Ok (inl code) s1 =>
          code = -1
          ∧ link_devel_products md5 package_path devel_manifest_path source_devel_path
              dest_devel_path metadata_path prebuild s = Ok (-1) s1
      | Ok (inr (products, files_that_collide)) s1 =>
          ∃ s2,
            same_stores s1 s2 ∧ log s1 `prefix_of` log s2
            ∧ let files_to_clean :=
                match manifest_files s !! devel_manifest_file_path with
                | Some (_, rows) => stale_dests products rows
                | None => []
                end in
              link_devel_products md5 package_path devel_manifest_path source_devel_path
                dest_devel_path metadata_path prebuild s
              = match clean_linked_files metadata_path files_that_collide files_to_clean
                        false s2 with
                | Ok _ s3 =>
                    Ok 0 (set_manifest_file devel_manifest_file_path
                            (package_path, products) s3)
                | Exc e s3 => Exc e (add_log (LogErr CouldNotCleanLinkedFiles) s3)
                end
      | Exc e s1 =>
          link_devel_products md5 package_path devel_manifest_path source_devel_path
            dest_devel_path metadata_path prebuild s = Exc e s1
      end.
Proof.
  intros file skiplist. eexists. split; [reflexivity|].
  pose proof (satisfies_os_walk (grows source_devel_path) (eq (-1)) source_devel_path
                (link_directory md5 skiplist source_devel_path dest_devel_path)) as Hwalk.
  destruct (Hwalk (fun locals top dirs nondirs Htop =>
                     satisfies_link_directory md5 source_devel_path skiplist source_devel_path
                       dest_devel_path locals top dirs nondirs Htop)
              (walk_depth (fs s)) source_devel_path ([], []) (reflexivity _) s)
    as [Hgrows Hcode].
  split; [exact Hgrows|].
  assert (Hunfold :
    link_devel_products md5 package_path devel_manifest_path source_devel_path
      dest_devel_path metadata_path prebuild s
    = match os_walk (walk_depth (fs s)) source_devel_path
              (([], []) : list (path * path) * list path)
              (link_directory md5 skiplist source_devel_path dest_devel_path) s with
      | Ok (inl code) s1 => Ok code s1
      | Ok (inr (products, files_that_collide)) s1 =>
          match match manifest_files s1 !! file with
                | Some (_, rows) => for_each rows [] (stale_row products)
                | None => ret []
                end s1 with
          | Ok files_to_clean s2 =>
              match clean_linked_files metadata_path files_that_collide files_to_clean
                      false s2 with
              | Ok _ s3 => Ok 0 (set_manifest_file file (package_path, products) s3)
              | Exc e s3 => Exc e (add_log (LogErr CouldNotCleanLinkedFiles) s3)
              end
          | Exc e s2 => Exc e s2
          end
      | Exc e s1 => Exc e s1
      end).
  { unfold link_devel_products. fold file. fold skiplist.
    unfold bind at 1. unfold get at 1. unfold bind at 1.
    destruct (os_walk _ _ _ _ s) as [[code|[products files_that_collide]] s1|e s1]; try done.
    unfold bind at 1. unfold get at 1. unfold bind at 1.
    destruct (match manifest_files s1 !! file with
              | Some (_, rows) => for_each rows [] (stale_row products)
              | None => ret []
              end s1) as [files_to_clean s2|e s2]; [|done].
    unfold bind at 1. unfold try_except.
    destruct (clean_linked_files _ _ _ _ s2) as [[] s3|e s3]; done. }
  rewrite Hunfold. clear Hunfold.
  destruct (os_walk _ _ _ _ s) as [[code|[products files_that_collide]] s1|e s1] eqn:Hrun.
  - specialize (Hcode (inl code) s1 eq_refl). cbn [returning] in Hcode. by subst code.
  - destruct Hgrows as (_ & _ & _ & Hm & _). cbn [state_of] in Hm. rewrite Hm.
    destruct (manifest_files s !! file) as [[pp rows]|].
    + destruct (stale_rows_state products rows [] s1) as (s2 & -> & Hsame & Hlog).
      by exists s2.
    + by exists s1.
  - done.
Qed.

End LinkOutcome.

(** What [clean_linked_files] does to the three stores. *)
Lemma clean_linked_files_stores metadata_path files_that_collide files_to_clean dry_run s :
  let run := clean_linked_files metadata_path files_that_collide files_to_clean dry_run s in
  fs (state_of run) ⊆ fs s
  ∧ manifest_files (state_of run) = manifest_files s
  ∧ (files_to_clean = [] → fs (state_of run) = fs s)
  ∧ log s `prefix_of` log (state_of run)
  ∧ match run with
    | Ok _ s' =>
        if dry_run then collisions_files s' = collisions_files s
        else ∃ written,
               collisions_files s'
               = <[os_path_join metadata_path ["devel_collisions.txt"] := written]>
                   (collisions_files s)
    | Exc _ s' => collisions_files s' = collisions_files s
    end.
Proof.
  cbn zeta. rewrite clean_linked_files_state. cbn zeta.
  set (counted := foldl add_collision _ files_that_collide).
  pose proof (clean_files_remove_only (fs s) dry_run files_to_clean counted s
                (reflexivity _)) as Hloop. cbn zeta in Hloop.
  destruct Hloop as (Hc & Hm & Hl & _ & Hrem).
  destruct (Hrem (fun _ => True) ltac:(done) (removes_only_refl _ _)) as [Hsub _].
  assert (Hnil : files_to_clean = [] →
                 fs (state_of (for_each files_to_clean counted (clean_file dry_run) s)) = fs s)
    by (by intros ->).
  destruct (for_each files_to_clean counted (clean_file dry_run) s) as [D' s1|e s1];
    cbn [state_of] in *.
  - destruct dry_run; cbn [set_collisions_file fs manifest_files collisions_files].
    + done.
    + split_and!; try done. exists D'. by rewrite Hc.
  - done.
Qed.

Section LinkTheorems.
Variable md5 : string → string.

(** X7.  [link_devel_products] returns 0 or -1.  When it returns 0 it
    has written the manifest of the package, with the package path and the
    products, and the ledger; in every other outcome, -1 or an exception,
    the manifests and the ledger are as before.  The log only grows. *)
Theorem link_devel_products_outcomes
    (package_path devel_manifest_path source_devel_path dest_devel_path metadata_path : path)
    (prebuild : bool) (s : state) :
  let devel_manifest_file_path := os_path_join devel_manifest_path [DEVEL_MANIFEST_FILENAME] in
  let devel_collisions_file_path := os_path_join metadata_path ["devel_collisions.txt"] in
  let run := link_devel_products md5 package_path devel_manifest_path source_devel_path
               dest_devel_path metadata_path prebuild s in
  (∀ code s', run = Ok code s' → code = 0 ∨ code = -1)
  ∧ (∀ s', run = Ok 0 s' →
       (∃ products,
          manifest_files s'
          = <[devel_manifest_file_path := (package_path, products)]> (manifest_files s))
       ∧ ∃ written,
           collisions_files s' = <[devel_collisions_file_path := written]> (collisions_files s))
  ∧ ((∀ s', run ≠ Ok 0 s') →
       manifest_files (state_of run) = manifest_files s
       ∧ collisions_files (state_of run) = collisions_files s)
  ∧ log s `prefix_of` log (state_of run).
Proof.
  intros file ledger run.
  destruct (link_devel_products_cases md5 package_path devel_manifest_path source_devel_path
              dest_devel_path metadata_path prebuild s)
    as (walked & _ & (_ & _ & Hc & Hm & Hl) & Hcases).
  fold file in Hcases. fold run in Hcases.
  destruct walked as [[code|[products files_that_collide]] s1|e s1]; cbn [state_of] in *.
  - destruct Hcases as [-> Hrun]. rewrite Hrun. split_and!; try done.
    + intros code s' [= <- _]. by right.
  - destruct Hcases as (s2 & (Hf2 & Hc2 & Hm2) & Hl2 & Hrun). cbn zeta in Hrun.
    rewrite Hrun.
    match goal with
    | |- context [clean_linked_files ?mp ?c ?f false s2] =>
        pose proof (clean_linked_files_stores mp c f false s2) as Hclean; cbn zeta in Hclean;
        destruct (clean_linked_files mp c f false s2) as [[] s3|e s3]
    end; cbn [state_of] in *; destruct Hclean as (_ & Hm3 & _ & Hlog & Hc3).
    + destruct Hc3 as [written Hc3]. split_and!.
      * intros code s' [= <- _]. by left.
      * intros s' [= <-]. cbn [set_manifest_file manifest_files collisions_files]. split.
        -- exists products. congruence.
        -- exists written. fold ledger in Hc3. congruence.
      * intros Hnot. by destruct (Hnot _ eq_refl).
      * cbn [set_manifest_file log]. etrans; [exact Hl|]. etrans; [exact Hl2|]. exact Hlog.
    + split_and!; try done.
      * cbn [add_log manifest_files collisions_files]. intros _. split; congruence.
      * cbn [add_log log]. etrans; [exact Hl|]. etrans; [exact Hl2|].
        etrans; [exact Hlog|]. by apply prefix_app_r.
  - rewrite Hcases. split_and!; done.
Qed.

(** X8.  Whatever its outcome, every entry of the file system after
    [link_devel_products] is an entry that was there before, unchanged, or a
    new directory, or a new absolute symbolic link to a path at or below the
    package's devel space.  Nothing is removed when the package has no
    manifest yet, or when the function returns -1. *)
Theorem link_devel_products_file_system
    (package_path devel_manifest_path source_devel_path dest_devel_path metadata_path : path)
    (prebuild : bool) (s : state) :
  let devel_manifest_file_path := os_path_join devel_manifest_path [DEVEL_MANIFEST_FILENAME] in
  let run := link_devel_products md5 package_path devel_manifest_path source_devel_path
               dest_devel_path metadata_path prebuild s in
  (∀ k n, fs (state_of run) !! k = Some n →
     fs s !! k = Some n
     ∨ (fs s !! k = None
        ∧ (n = NDir ∨ ∃ src, n = NLink false src ∧ source_devel_path `prefix_of` src)))
  ∧ (manifest_files s !! devel_manifest_file_path = None → fs s ⊆ fs (state_of run))
  ∧ (∀ s', run = Ok (-1) s' → fs s ⊆ fs s').
Proof.
  intros file run.
  destruct (link_devel_products_cases md5 package_path devel_manifest_path source_devel_path
              dest_devel_path metadata_path prebuild s)
    as (walked & _ & (Hsub & Hnew & _) & Hcases).
  fold file in Hcases. fold run in Hcases.
  assert (Hentries : ∀ f1,
            f1 ⊆ fs (state_of walked) →
            ∀ k n, f1 !! k = Some n →
              fs s !! k = Some n
              ∨ (fs s !! k = None
                 ∧ (n = NDir
                    ∨ ∃ src, n = NLink false src ∧ source_devel_path `prefix_of` src))).
  { intros f1 Hf1 k n Hk. pose proof (lookup_weaken _ _ _ _ Hk Hf1) as Hk1.
    destruct (fs s !! k) as [m|] eqn:Hk0.
    - left. pose proof (lookup_weaken _ _ _ _ Hk0 Hsub). congruence.
    - right. split; [done|]. by apply (Hnew k). }
  destruct walked as [[code|[products files_that_collide]] s1|e s1]; cbn [state_of] in *.
  - destruct Hcases as [-> Hrun]. rewrite Hrun. cbn [state_of]. split_and!.
    + by apply Hentries.
    + done.
    + by intros s' [= <-].
  - destruct Hcases as (s2 & (Hf2 & _) & _ & Hrun). cbn zeta in Hrun. rewrite Hrun.
    match goal with
    | |- context [clean_linked_files ?mp ?c ?f false s2] =>
        pose proof (clean_linked_files_stores mp c f false s2) as Hclean; cbn zeta in Hclean;
        destruct Hclean as (Hsub3 & _ & Hnil & _);
        assert (Hfs : ∀ o : outcome state unit,
                  fs (state_of match o with
                               | Ok _ s3 => Ok 0 (set_manifest_file file
                                                    (package_path, products) s3)
                               | Exc e s3 =>
                                   Exc e (add_log (LogErr CouldNotCleanLinkedFiles) s3)
                               end) = fs (state_of o)) by (by intros [[] ?|? ?]);
        rewrite (Hfs (clean_linked_files mp c f false s2))
    end.
    rewrite Hf2 in Hsub3. split_and!.
    + by apply Hentries.
    + intros Hnone. rewrite Hnone in Hnil |- *. rewrite Hnil by done. by rewrite Hf2.
    + intros s'. match goal with |- context [clean_linked_files ?mp ?c ?f false s2] =>
        by destruct (clean_linked_files mp c f false s2) as [[] ?|? ?] end.
  - rewrite Hcases. cbn [state_of]. split_and!; [by apply Hentries|done|done].
Qed.

(** X9.  A destination that is a dangling symbolic link stops the
    merge: the file is not skipped, [os.path.exists] says the destination is
    not there, [os.symlink] fails on the link that is, and the [OSError] is
    raised again after the two messages. *)
Theorem link_file_dangling_destination
    (skiplist : list path) (source_devel_path source_path dest_path : path)
    (products : list (path * path)) (files_that_collide : list path)
    (filename : string) (s : state) :
  let source_file := os_path_join source_path [filename] in
  let dest_file := os_path_join dest_path [filename] in
  should_skip_file skiplist source_devel_path source_path filename = false →
  os_path_islink (fs s) dest_file = true →
  os_path_exists (fs s) dest_file = false →
  link_file md5 skiplist source_devel_path source_path dest_path
    (products, files_that_collide) filename s
  = Exc OSError
      (add_log (LogErr (CouldNotCreateSymlink dest_file source_file))
         (add_log (LogOut (Symlinking dest_file)) s)).
Proof.
  intros source_file dest_file Hskip Hlink Hex.
  unfold link_file. rewrite Hskip. fold source_file dest_file.
  unfold bind at 1. unfold get at 1. rewrite Hex.
  unfold bind at 1. unfold logger_out at 1. unfold modify at 1.
  unfold bind at 1. unfold try_except, os_call. cbn [add_log fs].
  apply os_path_islink_location in Hlink as (loc & rel & t & Hnode & Hloc).
  unfold os_symlink. rewrite Hloc. cbn [mbind option_bind]. rewrite Hnode.
  reflexivity.
Qed.

End LinkTheorems.

Lemma link_file_dangling_destination_witness :
  link_file Scenario.md5 DEVEL_LINK_SKIPLIST Scenario.private_B
    (Scenario.private_B ++ ["lib"]) (Scenario.devel ++ ["lib"]) ([], []) "x.so"
    Cases.source_deleted
  = Exc OSError
      (add_log (LogErr (CouldNotCreateSymlink Scenario.x_so
                          (Scenario.private_B ++ ["lib"; "x.so"])))
         (add_log (LogOut (Symlinking Scenario.x_so)) Cases.source_deleted)).
Proof.
  apply (link_file_dangling_destination Scenario.md5 DEVEL_LINK_SKIPLIST Scenario.private_B
           (Scenario.private_B ++ ["lib"]) (Scenario.devel ++ ["lib"]) [] [] "x.so"
           Cases.source_deleted); by_evaluation.
Defined.

(** *** The build job *)

(** A property of every stage of a list that is written out, and a stage of
    such a list with a property. *)
Ltac each_stage :=
  repeat (apply Forall_cons; split;
          [cbn; intros;
           repeat match goal with H : ∃ _, _ |- _ => destruct H end;
           first [done | discriminate | split; [done|first [by left | by right]]]|]);
  by apply Forall_nil.
Ltac some_stage :=
  repeat first [by (apply Exists_cons_hd; cbn; eauto) | apply Exists_cons_tl].

Section BuildFacts.
Variable CMAKE_EXEC : string.
Variable MAKE_EXEC : string.
Variable os_environ : gmap string string.
Variable require_command : string → string → option exn.
Variable handle_make_arguments : list string → list string.

(** X10.  The build job: the factory does not touch the file system, the
    job carries the name of the package and the dependencies, and its stages
    are, in this order, [loadenv], [mkdir], [mkdir], [cache-manifest], then
    [cmake] when there is no Makefile in the build space or cmake is forced
    and [check] otherwise, [preclean] on request, [make], [symlink] in a
    linked devel space, and [install] and [register] when installing.  The
    factory returns exactly when [make] was found and, if it configures,
    [cmake] was found. *)
Theorem build_job_stages (bc : BuildJob.BuildContext) (package : Package)
    (package_path : path) (dependencies : list string)
    (force_cmake pre_clean skip_install prebuild : bool) (f : gmap path node) :
  let run := BuildJob.create_catkin_build_job CMAKE_EXEC MAKE_EXEC os_environ
               require_command handle_make_arguments bc package package_path dependencies
               force_cmake pre_clean skip_install prebuild f in
  let configure :=
    negb (os_path_isfile f (package_build_space (BuildJob.context bc) package ++ ["Makefile"]))
    || force_cmake in
  (∀ job f', run = Ok job f' →
     f' = f
     ∧ BuildJob.jid job = name package
     ∧ BuildJob.deps job = dependencies
     ∧ BuildJob.label <$> BuildJob.stages job
       = ["loadenv"; "mkdir"; "mkdir"; "cache-manifest"]
         ++ [if configure then "cmake" else "check"]
         ++ (if pre_clean then ["preclean"] else [])
         ++ ["make"]
         ++ (if link_devel (BuildJob.context bc) then ["symlink"] else [])
         ++ (if BuildJob.install bc && negb skip_install then ["install"; "register"] else []))
  ∧ ((∃ job f', run = Ok job f')
     ↔ (configure = true → require_command "cmake" CMAKE_EXEC = None)
       ∧ require_command "make" MAKE_EXEC = None).
Proof.
  intros run configure. subst run.
  assert (Hconfigure :
    configure
    = negb (os_path_isfile f
              (package_build_space (BuildJob.context bc) package ++ ["Makefile"]))
      || force_cmake) by done.
  clearbody configure.
  unfold BuildJob.create_catkin_build_job, BuildJob.check_command, bind, get, ret, raise,
    os_path_join.
  cbv beta iota. rewrite <- Hconfigure. clear Hconfigure.
  destruct configure; destruct (require_command "cmake" CMAKE_EXEC) as [e1|];
    destruct (require_command "make" MAKE_EXEC) as [e2|]; cbn [app].
  all: split;
    [intros job f' Hrun; try discriminate Hrun; injection Hrun as <- <-;
     cbn [BuildJob.jid BuildJob.deps BuildJob.stages];
     split_and!; try done;
     destruct pre_clean, (link_devel (BuildJob.context bc)),
       (BuildJob.install bc && negb skip_install); reflexivity
    |].
  all: split;
    [intros (job & f' & Hrun); try discriminate Hrun; by split
    |intros [H1 H2]; try discriminate H2; try (by specialize (H1 eq_refl));
     by eexists _, _].
Qed.

(** X11.  The stages that work on the ledger hold the lock of the
    ledger.  In a build job a stage bound to [link_devel_products] is the
    [symlink] stage with the lock [symlink-collisions-file], and there is one
    exactly in a linked devel space; the lock [installspace] is held by the
    [loadenv] and [install] stages only, and only when the install spaces
    are not isolated.  In a clean job a stage bound to
    [unlink_devel_products] is the [unlink] stage with the same lock, and
    there is one exactly when the devel space is cleaned, linked and not
    merged. *)
Theorem ledger_stages_hold_the_ledger_lock
    (get_installed_files : gmap path node → path → list path)
    (get_python_install_dir : Context → path)
    (bc : BuildJob.BuildContext) (package : Package)
    (package_path : path) (dependencies : list string)
    (force_cmake pre_clean skip_install prebuild : bool)
    (dry_run clean_build clean_devel clean_install : bool) (f : gmap path node) :
  let build := BuildJob.create_catkin_build_job CMAKE_EXEC MAKE_EXEC os_environ
                 require_command handle_make_arguments bc package package_path dependencies
                 force_cmake pre_clean skip_install prebuild f in
  let clean := create_catkin_clean_job MAKE_EXEC get_installed_files get_python_install_dir
                 f (BuildJob.context bc) package package_path dependencies
                 dry_run clean_build clean_devel clean_install in
  (∀ job f', build = Ok job f' →
     (∀ stage, stage ∈ BuildJob.stages job →
        BuildJob.bound_function stage = Some BuildJob.link_devel_products_fn →
        BuildJob.locked_resource stage = Some "symlink-collisions-file"
        ∧ BuildJob.label stage = "symlink")
     ∧ ((∃ stage, stage ∈ BuildJob.stages job
                  ∧ BuildJob.bound_function stage = Some BuildJob.link_devel_products_fn)
        ↔ link_devel (BuildJob.context bc) = true)
     ∧ (∀ stage, stage ∈ BuildJob.stages job →
          BuildJob.locked_resource stage = Some "installspace" →
          BuildJob.isolate_install bc = false
          ∧ (BuildJob.label stage = "loadenv" ∨ BuildJob.label stage = "install")))
  ∧ (∀ stage, stage ∈ stages clean →
       (∃ kwargs, kind stage = Function unlink_devel_products_fn kwargs) →
       locked_resource stage = Some "symlink-collisions-file" ∧ label stage = "unlink")
  ∧ ((∃ stage, stage ∈ stages clean
               ∧ ∃ kwargs, kind stage = Function unlink_devel_products_fn kwargs)
     ↔ clean_devel = true ∧ merge_devel (BuildJob.context bc) = false
       ∧ link_devel (BuildJob.context bc) = true).
Proof.
  intros build clean. split_and!.
  - subst build clean.
    unfold BuildJob.create_catkin_build_job, BuildJob.check_command, bind, get, ret, raise,
      os_path_join.
    cbv beta iota.
    destruct (negb _ || force_cmake); destruct (require_command "cmake" CMAKE_EXEC) as [e1|];
      destruct (require_command "make" MAKE_EXEC) as [e2|]; cbn [app];
      intros job f' Hrun; try discriminate Hrun; injection Hrun as <- <-;
      cbn [BuildJob.stages].
    all: destruct pre_clean, (link_devel (BuildJob.context bc)),
           (BuildJob.install bc && negb skip_install), (BuildJob.isolate_install bc);
      cbn [app].
    all: split_and!;
      [ refine (proj1 (Forall_forall _ _) _); each_stage
      | split;
        [ try done; intros (stage & Hin & Hfn); revert stage Hin Hfn;
          refine (proj1 (Forall_forall _ _) _); each_stage
        | try done; intros _; refine (proj1 (Exists_exists _ _) _); some_stage ]
      | refine (proj1 (Forall_forall _ _) _); each_stage ].
  - subst clean. unfold create_catkin_clean_job.
    destruct clean_build, clean_devel, clean_install,
      (merge_devel (BuildJob.context bc)), (link_devel (BuildJob.context bc)),
      (isolate_devel (BuildJob.context bc));
      cbn [andb stages app]; refine (proj1 (Forall_forall _ _) _); each_stage.
  - subst clean. unfold create_catkin_clean_job.
    destruct clean_build, clean_devel, clean_install,
      (merge_devel (BuildJob.context bc)), (link_devel (BuildJob.context bc)),
      (isolate_devel (BuildJob.context bc));
      cbn [andb stages app];
      (split;
       [ try (by intros _);
         intros (stage & Hin & Hkind); revert stage Hin Hkind;
         refine (proj1 (Forall_forall _ _) _); each_stage
       | try (by intros (? & ? & ?)); intros _;
         refine (proj1 (Exists_exists _ _) _); some_stage ]).
Qed.

End BuildFacts.

(** *** What the clean job removes from the install space *)

#[global] Instance path_le_total : Total path_le.
Proof. intros p q. unfold path_le. apply String.leb_total. Qed.

Lemma sorted_paths (paths : list path) :
  Sorted path_le (sorted paths) ∧ ∀ p, p ∈ sorted paths ↔ p ∈ paths.
Proof.
  split; [apply Sorted_merge_sort; apply _|].
  intros p. unfold sorted. by rewrite merge_sort_Permutation.
Qed.

Section CleanInstall.
Variable MAKE_EXEC : string.
Variable get_installed_files : gmap path node → path → list path.
Variable get_python_install_dir : Context → path.

(** X12.  The first stage of a clean job that cleans the install space
    is [cleaninstall]; its paths are sorted and are the installed files of
    the package, without those that lie directly in the install space when
    the install space is merged, together with the Python package directory
    of the package when that exists. *)
Theorem clean_job_installed_paths (f : gmap path node) (context : Context)
    (package : Package) (package_path : path) (dependencies : list string)
    (dry_run clean_build clean_devel : bool) :
  let job := create_catkin_clean_job MAKE_EXEC get_installed_files get_python_install_dir
               f context package package_path dependencies
               dry_run clean_build clean_devel true in
  let installed_files := get_installed_files f (package_metadata_path context package) in
  let install_dir := package_install_space context package in
  let python_dir :=
    os_path_join (os_path_join install_dir (get_python_install_dir context)) [name package] in
  ∃ paths,
    stages job !! 0%nat
    = Some (FunctionStage "cleaninstall" rmfiles None
              [("paths", KPaths paths);
               ("remove_empty", KBool true);
               ("empty_root", KPath (install_space_abs context));
               ("dry_run", KBool dry_run)])
    ∧ Sorted path_le paths
    ∧ (∀ p, p ∈ paths ↔
         (p ∈ installed_files
          ∧ (merge_install context = true → os_path_dirname p ≠ install_dir))
         ∨ (p = python_dir ∧ os_path_exists f python_dir = true)).
Proof.
  intros job installed_files install_dir python_dir. subst job.
  unfold create_catkin_clean_job. fold installed_files install_dir.
  fold python_dir.
  destruct clean_build, clean_devel, (merge_devel context), (link_devel context),
    (isolate_devel context); cbn [andb app stages];
    (eexists; split; [reflexivity|]);
    (split; [apply sorted_paths|]); intros p; rewrite (proj2 (sorted_paths _));
    destruct (os_path_exists f python_dir), (merge_install context);
    rewrite ?elem_of_app, ?list_elem_of_filter, ?list_elem_of_singleton;
    intuition (auto; congruence).
Qed.

End CleanInstall.

(** *** Paths given as strings *)

Lemma components_cons c s cur :
  components (String c s) cur
  = if bool_decide (c = "/"%char) then
      if bool_decide (cur = "") then components s "" else cur :: components s ""
    else components s (cur +:+ String c "").
Proof. done. Qed.

Lemma components_slash a : ∀ b cur,
  components (a +:+ String "/" b) cur = components a cur ++ components b "".
Proof.
  induction a as [|c a IH]; intros b cur.
  - change ("" +:+ String "/" b) with (String "/" b). rewrite components_cons.
    rewrite (bool_decide_eq_true_2 ("/"%char = "/"%char)) by done.
    change (components "" cur) with (if bool_decide (cur = "") then [] else [cur]).
    by case_bool_decide.
  - change (String c a +:+ String "/" b) with (String c (a +:+ String "/" b)).
    rewrite !components_cons. case_bool_decide; [case_bool_decide|]; by rewrite IH.
Qed.

Lemma components_ends_with_slash a : ∀ b cur,
  ends_with_slash a = true →
  components (a +:+ b) cur = components a cur ++ components b "".
Proof.
  induction a as [|c a IH]; intros b cur Hend; [done|].
  change (String c a +:+ b) with (String c (a +:+ b)). rewrite !components_cons.
  destruct a as [|c' a'].
  - cbn in Hend. apply bool_decide_eq_true in Hend as ->.
    rewrite (bool_decide_eq_true_2 ("/"%char = "/"%char)) by done.
    change ("" +:+ b) with b. change (components "" "") with (@nil string).
    by case_bool_decide.
  - assert (Hend' : ends_with_slash (String c' a') = true) by exact Hend.
    case_bool_decide; [case_bool_decide|]; by rewrite (IH b _ Hend').
Qed.

Lemma path_of_str_join a b :
  starts_with_slash b = false →
  path_of_str (posixpath_join a b) = path_of_str a ++ path_of_str b.
Proof.
  intros Hb. unfold posixpath_join, path_of_str. rewrite Hb.
  destruct (bool_decide (a = "")) eqn:Ha; cbn [orb].
  - apply bool_decide_eq_true in Ha as ->. done.
  - destruct (ends_with_slash a) eqn:Hend.
    + by apply components_ends_with_slash.
    + change ("/" +:+ b) with (String "/" b). apply components_slash.
Qed.

Lemma posixpath_join_absolute a b : starts_with_slash b = true → posixpath_join a b = b.
Proof. intros Hb. unfold posixpath_join. by rewrite Hb. Qed.

(** *** Writing a file *)

(** A walk does not tell a regular file from a missing entry, so it is the
    same after a file has been written where there was a file or nothing. *)
Lemma walk_components_insert_file (f : gmap path node) (loc : path) (content : string)
    follow (enter enter' : path → path → option path) :
  (∀ n, f !! loc = Some n → ∃ c0, n = NFile c0) →
  (∀ base rest, enter' base rest = enter base rest) →
  ∀ rest cur,
    walk_components enter' (<[loc := NFile content]> f) follow cur rest
    = walk_components enter f follow cur rest.
Proof.
  intros Hloc Henter. induction rest as [|c r IH]; intros cur; [done|].
  cbn [walk_components]. repeat case_decide; [by apply IH..|].
  destruct (decide (cur ++ [c] = loc)) as [<-|Hne].
  - rewrite lookup_insert_eq.
    destruct (f !! (cur ++ [c])) as [n|] eqn:Hn; [|done].
    destruct (Hloc n eq_refl) as [c0 ->]. done.
  - rewrite lookup_insert_ne by done.
    destruct (f !! (cur ++ [c])) as [[| |rel t]|]; try done.
    destruct r, follow; try done; apply Henter.
Qed.

Lemma walk_path_insert_file (f : gmap path node) (loc : path) (content : string) follow :
  (∀ n, f !! loc = Some n → ∃ c0, n = NFile c0) →
  ∀ budget cur rest,
    walk_path budget (<[loc := NFile content]> f) follow cur rest
    = walk_path budget f follow cur rest.
Proof.
  intros Hloc. induction budget as [|b IHb]; intros cur rest; cbn [walk_path];
    apply walk_components_insert_file; done.
Qed.

Lemma write_file_Some (f f' : gmap path node) (p : path) (content : string) :
  write_file f p content = Some f' →
  ∃ loc, walk_path SYMLOOP_MAX f true [] p = Some loc
         ∧ loc ≠ []
         ∧ (∀ n, f !! loc = Some n → ∃ c0, n = NFile c0)
         ∧ f' = <[loc := NFile content]> f.
Proof.
  unfold write_file. destruct (walk_path SYMLOOP_MAX f true [] p) as [loc|]; [|done]. simpl.
  destruct loc as [|c loc']; [done|]. simpl.
  destruct (f !! (c :: loc')) as [[c0| |rel t]|] eqn:Hloc; try done.
  - intros [= <-]. exists (c :: loc'). split_and!; try done.
    intros n. rewrite Hloc. intros [= <-]. by exists c0.
  - intros [= <-]. exists (c :: loc'). split_and!; try done.
    intros n. by rewrite Hloc.
Qed.

(** Whether a file can be written does not depend on what is written. *)
Lemma write_file_is_Some (f : gmap path node) (p : path) (content content' : string) :
  is_Some (write_file f p content) → is_Some (write_file f p content').
Proof.
  unfold write_file. destruct (walk_path SYMLOOP_MAX f true [] p) as [loc|]; [|done]. simpl.
  destruct (lookup_node f loc) as [[| |]|]; try done; by eexists.
Qed.

Lemma os_stat_write (f f' : gmap path node) (p q : path) (content : string) :
  write_file f p content = Some f' →
  os_stat f' q
  = if decide (walk_path SYMLOOP_MAX f true [] q = walk_path SYMLOOP_MAX f true [] p)
    then Some (NFile content) else os_stat f q.
Proof.
  intros (loc & Hwalk & Hne & Hloc & ->)%write_file_Some.
  unfold os_stat. rewrite walk_path_insert_file by done. rewrite Hwalk.
  destruct (walk_path SYMLOOP_MAX f true [] q) as [l|] eqn:Hq; cbn [mbind option_bind].
  - case_decide as Hl.
    + injection Hl as ->. destruct loc; [done|]. cbn [lookup_node].
      by rewrite lookup_insert_eq.
    + destruct l; [done|]. cbn [lookup_node]. rewrite lookup_insert_ne; [done|congruence].
  - by case_decide.
Qed.

Lemma read_file_write (f f' : gmap path node) (p : path) (content : string) :
  write_file f p content = Some f' → read_file f' p = Some content.
Proof.
  intros Hw. unfold read_file. rewrite (os_stat_write _ _ _ _ _ Hw). by rewrite decide_True.
Qed.

Lemma os_path_exists_write (f f' : gmap path node) (p q : path) (content : string) :
  write_file f p content = Some f' → os_path_exists f q = true → os_path_exists f' q = true.
Proof.
  intros Hw. unfold os_path_exists. rewrite (os_stat_write _ _ _ _ _ Hw).
  intros Hq%bool_decide_eq_true. apply bool_decide_eq_true. by case_decide.
Qed.

Lemma os_path_exists_written (f f' : gmap path node) (p : path) (content : string) :
  write_file f p content = Some f' → os_path_exists f' p = true.
Proof.
  intros Hw. unfold os_path_exists. rewrite (os_stat_write _ _ _ _ _ Hw).
  rewrite decide_True by done. by apply bool_decide_eq_true.
Qed.

(** A file that can be written is a regular file when it exists. *)
Lemma read_file_writable (f f' : gmap path node) (p : path) (content : string) :
  write_file f p content = Some f' → os_path_exists f p = true → is_Some (read_file f p).
Proof.
  intros (loc & Hwalk & Hne & Hloc & _)%write_file_Some.
  unfold os_path_exists, read_file, os_stat. rewrite Hwalk. simpl.
  intros [n Hn]%bool_decide_eq_true. rewrite Hn.
  destruct loc; [done|]. simpl in Hn. destruct (Hloc n Hn) as [c0 ->]. by eexists.
Qed.

Lemma posixpath_join_nonempty a b : b ≠ "" → posixpath_join a b ≠ "".
Proof.
  intros Hb. unfold posixpath_join. destruct (starts_with_slash b); [done|].
  destruct (bool_decide (a = "") || ends_with_slash a).
  - destruct a; [done|]. done.
  - destruct a; done.
Qed.

(** *** The migration of the metadata *)

Section MigrationFacts.
Variable current_version : string.

(** X13.  [migrate_metadata] writes the version before it migrates.
    With the metadata directory there, a recorded version other than the
    current one and a writable [VERSION] file, the call is the migration from
    the recorded version run on the file system in which [VERSION] already
    holds the current version; as long as that version is not the empty
    string, a second call does nothing, whatever the migration does. *)
Theorem migrate_metadata_stamps_first
    (migrate_metadata_version : pyval → option string → M (gmap path node) unit)
    (workspace_path : string) (w w1 : gmap path node) :
  let metadata_root_path := posixpath_join workspace_path METADATA_DIR_NAME in
  let version_file_path := posixpath_join metadata_root_path "VERSION" in
  let last_version :=
    match read_file w (path_of_str version_file_path) with
    | Some text => if bool_decide (text = "") then None else Some text
    | None => None
    end in
  current_version ≠ "" →
  os_path_exists w (path_of_str metadata_root_path) = true →
  last_version ≠ Some current_version →
  write_file w (path_of_str version_file_path) current_version = Some w1 →
  migrate_metadata current_version migrate_metadata_version (PyStr workspace_path) w
  = migrate_metadata_version (PyStr workspace_path) last_version w1
  ∧ ∀ migrate_metadata_version',
      migrate_metadata current_version migrate_metadata_version' (PyStr workspace_path) w1
      = Ok tt w1.
Proof.
  intros root file last Hcur Hroot Hlast Hwrite.
  assert (Hroot_ne : root ≠ "") by (by apply posixpath_join_nonempty).
  assert (Hstart : ∀ mmv w0,
    os_path_exists w0 (path_of_str root) = true →
    migrate_metadata current_version mmv (PyStr workspace_path) w0
    = match (if os_path_exists w0 (path_of_str file) then
               match read_file w0 (path_of_str file) with
               | Some text => Ok (if bool_decide (text = "") then None else Some text) w0
               | None => Exc OSError w0
               end
             else Ok None w0) with
      | Ok last_version w0' =>
          if bool_decide (last_version ≠ Some current_version) then
            match write_file w0' (path_of_str file) current_version with
            | Some w0'' => mmv (PyStr workspace_path) last_version w0''
            | None => Exc OSError w0'
            end
          else Ok tt w0'
      | Exc e w0' => Exc e w0'
      end).
  { intros mmv w0 Hex. unfold migrate_metadata.
    unfold bind at 1. cbn [get_metadata_root_path py_join ret]. fold root.
    unfold bind at 1. rewrite bool_decide_eq_false_2 by done.
    unfold bind at 1. cbn [py_exists]. rewrite Hex. cbn [ret negb].
    unfold bind at 1. cbn [py_join ret]. fold file.
    unfold bind at 1. cbn [py_exists].
    destruct (os_path_exists w0 (path_of_str file)).
    - unfold bind at 1. unfold bind at 1. cbn [py_read].
      destruct (read_file w0 (path_of_str file)) as [text|]; [|done].
      cbn [ret]. case_bool_decide; [|done].
      unfold bind. cbn [py_write]. by destruct (write_file w0 _ _).
    - unfold bind at 1. cbn [ret]. case_bool_decide; [|done].
      unfold bind. cbn [py_write]. by destruct (write_file w0 _ _). }
  split.
  - rewrite Hstart by done.
    destruct (os_path_exists w (path_of_str file)) eqn:Hex.
    + destruct (read_file_writable _ _ _ _ Hwrite Hex) as [text Htext].
      subst last. rewrite Htext in Hlast |- *.
      rewrite bool_decide_eq_true_2 by done. by rewrite Hwrite.
    + assert (Hnone : read_file w (path_of_str file) = None).
      { unfold read_file. unfold os_path_exists in Hex.
        apply bool_decide_eq_false in Hex.
        destruct (os_stat w (path_of_str file)) as [n|]; [|done].
        destruct Hex. by eexists. }
      subst last. rewrite Hnone in Hlast |- *.
      rewrite bool_decide_eq_true_2 by done. by rewrite Hwrite.
  - intros mmv'. rewrite Hstart by (by eapply os_path_exists_write).
    rewrite (os_path_exists_written _ _ _ _ Hwrite).
    rewrite (read_file_write _ _ _ _ Hwrite).
    rewrite (bool_decide_eq_false_2 (current_version = "")) by done.
    by rewrite bool_decide_eq_false_2 by (by intros []).
Qed.

End MigrationFacts.

Lemma migrate_metadata_stamps_first_witness :
  migrate_metadata "0.4.5" Cases.migrate_version_nothing (PyStr "/ws") Cases.bare
  = Ok tt Cases.stamped
  ∧ migrate_metadata "0.4.5" Cases.migrate_version_nothing (PyStr "/ws") Cases.stamped
    = Ok tt Cases.stamped.
Proof.
  pose proof (migrate_metadata_stamps_first "0.4.5" Cases.migrate_version_nothing "/ws"
                Cases.bare Cases.stamped) as Hthm.
  cbv zeta in Hthm. destruct Hthm as [Hfirst Hagain].
  - done.
  - by_evaluation.
  - by_evaluation.
  - by_evaluation.
  - split; [exact Hfirst|apply Hagain].
Defined.

(** *** The directory of an entry *)

(** A walk over [rest ++ [c]] that follows links has gone over [rest] to a
    directory first. *)
Lemma walk_components_parent (f : gmap path node) (c : string)
    (enter : path → path → option path) :
  c ≠ "." → c ≠ ".." →
  (∀ base rest loc, reached f base → enter base (rest ++ [c]) = Some loc →
     ∃ dir, enter base rest = Some dir ∧ lookup_node f dir = Some NDir) →
  ∀ rest cur loc,
    reached f cur → walk_components enter f true cur (rest ++ [c]) = Some loc →
    ∃ dir, walk_components enter f true cur rest = Some dir ∧ lookup_node f dir = Some NDir.
Proof.
  intros Hc1 Hc2 Henter. induction rest as [|x r IH]; intros cur loc Hcur.
  - intros _. exists cur. split; [done|]. by apply Hcur.
  - cbn [app walk_components]. repeat case_decide.
    + by apply IH.
    + apply IH. by apply reached_removelast.
    + destruct (f !! (cur ++ [x])) as [[| |rel t]|] eqn:Hx.
      * by destruct r.
      * apply IH. by apply reached_snoc.
      * assert (Hbase : reached f (if rel then cur else [])).
        { destruct rel; [done|apply reached_root]. }
        destruct r as [|y r']; cbn [app].
        -- intros Hloc. apply (Henter _ (t ++ []) loc Hbase).
           by rewrite <- app_assoc.
        -- intros Hloc. apply (Henter _ (t ++ y :: r') loc Hbase).
           by rewrite <- app_assoc.
      * by destruct r.
Qed.

Lemma walk_path_parent (f : gmap path node) (c : string) :
  c ≠ "." → c ≠ ".." →
  ∀ budget rest cur loc,
    reached f cur → walk_path budget f true cur (rest ++ [c]) = Some loc →
    ∃ dir, walk_path budget f true cur rest = Some dir ∧ lookup_node f dir = Some NDir.
Proof.
  intros Hc1 Hc2. induction budget as [|b IHb]; intros rest cur loc; cbn [walk_path];
    apply walk_components_parent; try done.
  intros base rest' loc' Hbase. by apply IHb.
Qed.

(** Nothing can be reached through a directory that does not exist. *)
Lemma walk_path_no_parent (f : gmap path node) (p : path) (c : string) :
  c ≠ "." → c ≠ ".." → os_path_exists f p = false →
  walk_path SYMLOOP_MAX f true [] (p ++ [c]) = None.
Proof.
  intros Hc1 Hc2 Hex.
  destruct (walk_path SYMLOOP_MAX f true [] (p ++ [c])) as [loc|] eqn:Hwalk; [|done].
  destruct (walk_path_parent f c Hc1 Hc2 _ _ _ _ (reached_root f) Hwalk) as (dir & Hdir & Hnode).
  apply bool_decide_eq_false in Hex. destruct Hex.
  unfold os_stat. rewrite Hdir. simpl. rewrite Hnode. by eexists.
Qed.

(** *** Dictionaries *)

Lemma set_item_key items key value : key ∈ (set_item items key value).*1.
Proof.
  induction items as [|[k v] items IH]; cbn [set_item].
  - cbn. left.
  - case_decide as Hk; cbn [fmap list_fmap fst].
    + subst. left.
    + by right.
Qed.

Lemma set_item_find items key value :
  ∃ i, list_find (fun kv : string * pyval => kv.1 = key) (set_item items key value)
       = Some (i, (key, value)).
Proof.
  induction items as [|[k v] items IH]; cbn [set_item].
  - exists 0%nat. cbn. by rewrite decide_True.
  - case_decide as Hk.
    + subst. exists 0%nat. cbn. by rewrite decide_True.
    + destruct IH as [i Hi]. exists (S i). cbn. rewrite decide_False by done.
      cbn in Hi. rewrite Hi. done.
Qed.

(** *** The active profile *)

Section ProfileFacts.
Variable migrate_metadata : pyval → M (gmap path node) unit.
Variable yaml_safe_load : string → option pyval.
Variable yaml_dump : pyval → string.
Variable py_str : pyval → string.

Lemma get_profiles_data_str (workspace_path : string) (w : gmap path node) :
  migrate_metadata (PyStr workspace_path) w = Ok tt w →
  get_profiles_data migrate_metadata yaml_safe_load (PyStr workspace_path) w
  = if os_path_exists w (path_of_str (profiles_file workspace_path)) then
      match read_file w (path_of_str (profiles_file workspace_path)) with
      | Some text =>
          match yaml_safe_load text with
          | Some v => Ok v w
          | None => Exc YAMLError w
          end
      | None => Exc OSError w
      end
    else Ok (PyDict []) w.
Proof.
  intros Hmig. unfold get_profiles_data. unfold bind at 1. rewrite Hmig.
  unfold bind at 1. cbn [get_profiles_path py_join ret]. unfold bind at 1. cbn [ret].
  unfold bind at 1. cbn [py_join ret]. fold (profiles_file workspace_path).
  unfold bind at 1. cbn [py_exists].
  destruct (os_path_exists w _); [|done].
  unfold bind. cbn [py_read]. destruct (read_file w _) as [text|]; [|done].
  unfold yaml_load. by destruct (yaml_safe_load text).
Qed.

(** X14.  The profile set by [set_active_profile] is the one
    [get_active_profile] returns afterwards, when the stored document is a
    dictionary, the profiles file can be written, the parser reads back what
    the dumper writes, and the migration has nothing to do afterwards.  All
    [set_active_profile] does to the file system is the write of that file. *)
Theorem set_active_profile_round_trip (workspace_path : string) (profile_name : pyval)
    (items : list (string * pyval)) (w : gmap path node) :
  let written := PyDict (set_item items "active" profile_name) in
  (∀ w', write_file w (path_of_str (profiles_file workspace_path)) (yaml_dump written)
         = Some w' →
         migrate_metadata (PyStr workspace_path) w' = Ok tt w') →
  get_profiles_data migrate_metadata yaml_safe_load (PyStr workspace_path) w
    = Ok (PyDict items) w →
  is_Some (write_file w (path_of_str (profiles_file workspace_path)) "") →
  yaml_safe_load (yaml_dump written) = Some written →
  ∃ w',
    set_active_profile migrate_metadata yaml_safe_load yaml_dump
      (PyStr workspace_path) profile_name w = Ok PyNone w'
    ∧ write_file w (path_of_str (profiles_file workspace_path)) (yaml_dump written) = Some w'
    ∧ get_active_profile migrate_metadata yaml_safe_load (PyStr workspace_path) w'
      = Ok profile_name w'.
Proof.
  intros written Hmig Hdata Hwritable Hyaml.
  destruct (write_file_is_Some _ _ _ (yaml_dump written) Hwritable) as [w' Hwrite].
  exists w'. split_and!.
  - unfold set_active_profile. unfold bind at 1. rewrite Hdata.
    unfold bind at 1. cbn [py_setitem ret]. fold written.
    unfold bind at 1. cbn [get_profiles_path py_join ret].
    unfold bind at 1. cbn [ret]. unfold bind at 1. cbn [py_join ret].
    fold (profiles_file workspace_path).
    unfold bind. cbn [py_write]. by rewrite Hwrite.
  - done.
  - unfold get_active_profile. unfold bind at 1.
    rewrite get_profiles_data_str by (by apply Hmig).
    rewrite (os_path_exists_written _ _ _ _ Hwrite).
    rewrite (read_file_write _ _ _ _ Hwrite). rewrite Hyaml.
    unfold bind at 1. subst written. cbn [py_contains ret].
    rewrite bool_decide_eq_true_2 by apply set_item_key.
    cbn [py_getitem].
    destruct (set_item_find items "active" profile_name) as [i ->]. done.
Qed.

(** X15.  [set_active_profile] does not create the directory of the
    profiles: when that directory does not exist, and the migration has
    nothing to do, the call raises [OSError] and changes nothing. *)
Theorem set_active_profile_needs_directory (workspace_path : string) (profile_name : pyval)
    (w : gmap path node) :
  let profiles_path :=
    posixpath_join (posixpath_join workspace_path METADATA_DIR_NAME) "profiles" in
  migrate_metadata (PyStr workspace_path) w = Ok tt w →
  os_path_exists w (path_of_str profiles_path) = false →
  set_active_profile migrate_metadata yaml_safe_load yaml_dump
    (PyStr workspace_path) profile_name w = Exc OSError w.
Proof.
  intros profiles_path Hmig Hex.
  assert (Hfile : path_of_str (profiles_file workspace_path)
                  = path_of_str profiles_path ++ ["profiles.yaml"]).
  { unfold profiles_file. fold profiles_path. by rewrite path_of_str_join. }
  assert (Hwalk : walk_path SYMLOOP_MAX w true [] (path_of_str (profiles_file workspace_path))
                  = None).
  { rewrite Hfile. by apply walk_path_no_parent. }
  unfold set_active_profile. unfold bind at 1.
  rewrite get_profiles_data_str by done.
  assert (Hnofile : os_path_exists w (path_of_str (profiles_file workspace_path)) = false).
  { apply bool_decide_eq_false. unfold os_stat. rewrite Hwalk. by intros [? ?]. }
  rewrite Hnofile.
  unfold bind at 1. cbn [py_setitem ret].
  unfold bind at 1. cbn [get_profiles_path py_join ret].
  unfold bind at 1. cbn [ret]. unfold bind at 1. cbn [py_join ret].
  fold (profiles_file workspace_path).
  unfold bind. cbn [py_write]. unfold write_file. by rewrite Hwalk.
Qed.

End ProfileFacts.

Lemma set_active_profile_round_trip_witness :
  ∃ w',
    set_active_profile Scenario.migrate_nothing Cases.load_profiles Cases.dump_profiles
      (PyStr "/ws") (PyStr "debug") Cases.release_active = Ok PyNone w'
    ∧ read_file w' ["ws"; ".catkin_tools"; "profiles"; "profiles.yaml"] = Some "active: debug"
    ∧ get_active_profile Scenario.migrate_nothing Cases.load_profiles (PyStr "/ws") w'
      = Ok (PyStr "debug") w'.
Proof.
  destruct (set_active_profile_round_trip Scenario.migrate_nothing Cases.load_profiles
              Cases.dump_profiles "/ws" (PyStr "debug") [("active", PyStr "release")]
              Cases.release_active) as (w' & Hset & Hwrite & Hget).
  - done.
  - rewrite get_profiles_data_str by reflexivity.
    assert (os_path_exists Cases.release_active (path_of_str (profiles_file "/ws")) = true)
      as -> by by_evaluation.
    assert (read_file Cases.release_active (path_of_str (profiles_file "/ws"))
            = Some "active: release") as -> by by_evaluation.
    reflexivity.
  - by_evaluation.
  - reflexivity.
  - exists w'. split_and!; [exact Hset| |exact Hget].
    exact (read_file_write _ _ _ _ Hwrite).
Defined.

Lemma set_active_profile_needs_directory_witness :
  set_active_profile Scenario.migrate_nothing Cases.load_profiles Cases.dump_profiles
    (PyStr "/ws") (PyStr "debug") Cases.bare = Exc OSError Cases.bare.
Proof.
  apply (set_active_profile_needs_directory Scenario.migrate_nothing Cases.load_profiles
           Cases.dump_profiles "/ws" (PyStr "debug") Cases.bare);
    [reflexivity|by_evaluation].
Defined.

(** *** Removing a directory tree *)

Lemma shutil_rmtree_state (p : path) (f : gmap path node) :
  let f' := state_of (shutil_rmtree p f) in
  f' ⊆ f
  ∧ (∀ k, is_Some (f !! k) → f' !! k = None →
       ∃ loc, walk_path SYMLOOP_MAX f false [] p = Some loc
              ∧ lookup_node f loc = Some NDir ∧ loc `prefix_of` k)
  ∧ (∀ v, shutil_rmtree p f = Ok v f' → os_path_exists f' p = false).
Proof.
  cbn zeta. unfold shutil_rmtree.
  destruct (walk_path SYMLOOP_MAX f false [] p) as [loc|] eqn:Hwalk; cbn [state_of].
  2:{ split_and!; try done. intros k [n Hn] Hk. congruence. }
  destruct (lookup_node f loc) as [[| |]|] eqn:Hnode; cbn [state_of];
    try (split_and!; try done; intros k [n Hn] Hk; congruence).
  set (emptied := filter (fun kv : path * node => ¬ below loc kv.1) f).
  assert (Hsub : emptied ⊆ f) by apply map_filter_subseteq.
  assert (Hbelow : ∀ k, is_Some (f !! k) → emptied !! k = None → loc `prefix_of` k).
  { intros k [n Hn] Hk. apply map_lookup_filter_None in Hk as [Hk|Hk]; [congruence|].
    specialize (Hk n Hn). cbn in Hk. apply dec_stable in Hk. by destruct Hk. }
  destruct (os_rmdir emptied p) as [f'|] eqn:Hrm; cbn [state_of].
  - destruct (os_rmdir_Some _ _ _ Hrm) as (loc' & Hentry & Hdir & _ & ->).
    pose proof Hentry as (Hwalk' & Hne & _)%entry_location_Some.
    assert (loc' = loc) as ->.
    { pose proof (walk_path_weaken emptied f false Hsub _ _ _ _ Hwalk') as Hw.
      rewrite Hw in Hwalk; [congruence|]. destruct loc'; [done|]. by eexists. }
    split_and!.
    + etrans; [apply delete_subseteq|done].
    + intros k Hk Hgone. exists loc. split_and!; [done..|].
      destruct (decide (k = loc)) as [->|Hk']; [done|].
      rewrite lookup_delete_ne in Hgone by done. by apply Hbelow.
    + intros _ _. apply not_true_is_false. intros Hex.
      apply bool_decide_eq_true in Hex as [m Hm]. unfold os_stat in Hm.
      destruct (walk_path SYMLOOP_MAX (delete loc emptied) true [] p) as [target|] eqn:Ht;
        [|done].
      simpl in Hm.
      destruct (walk_path_nofollow _ _ _ _ _ Ht (mk_is_Some _ _ Hm)) as (l & Hl & [x Hx]).
      assert (Hsub' : delete loc emptied ⊆ emptied) by apply delete_subseteq.
      pose proof (walk_path_weaken _ _ false Hsub' _ _ _ _ Hl (mk_is_Some _ _ Hx)) as Hl'.
      assert (l = loc) as -> by congruence.
      destruct loc; [done|]. simpl in Hx. by rewrite lookup_delete_eq in Hx.
  - split_and!; [done| |done].
    intros k Hk Hgone. exists loc. split_and!; [done..|]. by apply Hbelow.
Qed.

Section RemoveProfileFacts.
Variable migrate_metadata : pyval → M (gmap path node) unit.
Variable py_str : pyval → string.

(** X16.  After the migration, [remove_profile] with a non-empty profile
    name only removes entries, and each entry that is gone is the directory
    the profile path leads to or lies below it; when it returns, it returns
    [None] and the profile path does not exist any more; when it raises, it
    raises [OSError]. *)
Theorem remove_profile_removes_only_the_profile
    (workspace_path profile_name : string) (w w1 : gmap path node) :
  let profile_path :=
    posixpath_join
      (posixpath_join (posixpath_join workspace_path METADATA_DIR_NAME) "profiles")
      profile_name in
  let run := remove_profile migrate_metadata py_str (PyStr workspace_path)
               (PyStr profile_name) w in
  profile_name ≠ "" →
  migrate_metadata (PyStr workspace_path) w = Ok tt w1 →
  state_of run ⊆ w1
  ∧ (∀ k, is_Some (w1 !! k) → state_of run !! k = None →
       ∃ loc, walk_path SYMLOOP_MAX w1 false [] (path_of_str profile_path) = Some loc
              ∧ lookup_node w1 loc = Some NDir ∧ loc `prefix_of` k)
  ∧ (∀ v w', run = Ok v w' →
       v = PyNone ∧ os_path_exists w' (path_of_str profile_path) = false)
  ∧ (∀ e w', run = Exc e w' → e = OSError).
Proof.
  intros profile_path run Hname Hmig.
  assert (Hrun : run = if os_path_exists w1 (path_of_str profile_path) then
                         match shutil_rmtree (path_of_str profile_path) w1 with
                         | Ok _ w' => Ok PyNone w'
                         | Exc e w' => Exc e w'
                         end
                       else Ok PyNone w1).
  { subst run. unfold remove_profile. unfold bind at 1. rewrite Hmig.
    unfold bind at 1. unfold get_paths. unfold bind at 1.
    cbn [get_profiles_path py_join ret]. unfold bind at 1. cbn [ret].
    cbn [truthy]. rewrite bool_decide_eq_false_2 by done. cbn [negb andb].
    unfold bind at 1. cbn [py_join ret]. fold profile_path.
    unfold bind at 1. cbn [ret]. cbn [ret].
    unfold bind at 1. cbn [py_exists].
    destruct (os_path_exists w1 (path_of_str profile_path)); [|done].
    unfold bind. cbn [py_rmtree]. by destruct (shutil_rmtree _ w1). }
  rewrite Hrun. clear Hrun run.
  destruct (os_path_exists w1 (path_of_str profile_path)) eqn:Hex.
  - pose proof (shutil_rmtree_state (path_of_str profile_path) w1) as Hrm. cbn zeta in Hrm.
    assert (Hexc : ∀ e w', shutil_rmtree (path_of_str profile_path) w1 = Exc e w' → e = OSError).
    { intros e w'. unfold shutil_rmtree.
      repeat match goal with |- context [match ?x with _ => _ end] => destruct x end;
        by intros [= <- _]. }
    destruct (shutil_rmtree (path_of_str profile_path) w1) as [[] w2|e w2];
      cbn [state_of] in *; destruct Hrm as (Hsub & Hrem & Hgone).
    + split_and!; [done|done| |done]. intros v w' [= <- <-]. split; [done|]. by eapply Hgone.
    + split_and!; [done|done|done|]. intros e' w' [= <- <-]. by eapply Hexc.
  - cbn [state_of]. split_and!; [done| |by intros v w' [= <- <-]|done].
    intros k [n Hn] Hk. congruence.
Qed.

End RemoveProfileFacts.

Lemma remove_profile_removes_only_the_profile_witness :
  ∃ w',
    remove_profile Scenario.migrate_nothing Scenario.str_of (PyStr "/ws") (PyStr "default")
      Cases.release_active = Ok PyNone w'
    ∧ w' ⊆ Cases.release_active
    ∧ os_path_exists w' ["ws"; ".catkin_tools"; "profiles"; "default"] = false.
Proof.
  pose proof (remove_profile_removes_only_the_profile Scenario.migrate_nothing Scenario.str_of
                "/ws" "default" Cases.release_active Cases.release_active) as Hthm.
  cbv zeta in Hthm. destruct Hthm as (Hsub & _ & Hok & _); [done|reflexivity|].
  assert (Hreturns : match remove_profile Scenario.migrate_nothing Scenario.str_of
                             (PyStr "/ws") (PyStr "default") Cases.release_active with
                     | Ok _ _ => true
                     | Exc _ _ => false
                     end = true) by by_evaluation.
  destruct (remove_profile Scenario.migrate_nothing Scenario.str_of (PyStr "/ws")
              (PyStr "default") Cases.release_active) as [v w'|e w'].
  - destruct (Hok v w' eq_refl) as [-> Hgone]. exists w'.
    split_and!; [done|exact Hsub|exact Hgone].
  - discriminate Hreturns.
Defined.

(** *** The paths of the metadata and the stored documents *)

Section MetadataReaders.
Variable migrate_metadata : pyval → M (gmap path node) unit.
Variable yaml_safe_load : string → option pyval.
Variable py_str : pyval → string.

(** X17.  [get_paths]: with a falsy profile name both paths are [None],
    also without a workspace; with a truthy profile name and no workspace
    the call is a [TypeError]; without a verb there is no file path; and an
    absolute profile name takes the place of the profiles directory. *)
Theorem get_paths_edge_cases (workspace_path : string) (verb : pyval) (w : gmap path node) :
  let profiles_path :=
    posixpath_join (posixpath_join workspace_path METADATA_DIR_NAME) "profiles" in
  (∀ profile_name, truthy profile_name = false →
     get_paths py_str (PyStr workspace_path) profile_name verb w = Ok (None, None) w
     ∧ get_paths py_str PyNone profile_name verb w = Ok (None, None) w)
  ∧ (∀ profile_name, truthy profile_name = true →
       get_paths py_str PyNone profile_name verb w = Exc TypeError w)
  ∧ (∀ profile_name, profile_name ≠ "" →
       get_paths py_str (PyStr workspace_path) (PyStr profile_name) PyNone w
       = Ok (Some (posixpath_join profiles_path profile_name), None) w)
  ∧ (∀ profile_name verb_name, starts_with_slash profile_name = true → verb_name ≠ "" →
       get_paths py_str (PyStr workspace_path) (PyStr profile_name) (PyStr verb_name) w
       = Ok (Some profile_name,
             Some (posixpath_join profile_name (verb_name +:+ ".yaml"))) w).
Proof.
  intros profiles_path. split_and!.
  - intros profile_name Hfalse. unfold get_paths. split.
    + unfold bind at 1. cbn [get_profiles_path py_join ret]. unfold bind at 1. cbn [ret].
      rewrite Hfalse. done.
    + unfold bind at 1. cbn [get_profiles_path ret]. rewrite Hfalse. done.
  - intros profile_name Htrue. unfold get_paths.
    unfold bind at 1. cbn [get_profiles_path ret]. rewrite Htrue. done.
  - intros profile_name Hne. unfold get_paths.
    unfold bind at 1. cbn [get_profiles_path py_join ret]. unfold bind at 1. cbn [ret].
    cbn [truthy]. rewrite bool_decide_eq_false_2 by done. done.
  - intros profile_name verb_name Habs Hverb.
    assert (Hne : profile_name ≠ "") by (by intros ->).
    unfold get_paths.
    unfold bind at 1. cbn [get_profiles_path py_join ret]. unfold bind at 1. cbn [ret].
    cbn [truthy]. rewrite !bool_decide_eq_false_2 by done. cbn [negb andb].
    unfold bind at 1. cbn [py_join ret]. rewrite (posixpath_join_absolute _ profile_name) by done. done.
Qed.

(** X18.  [get_metadata], after the migration: a metadata file that is
    missing or empty gives the empty dictionary, without the parser being
    asked; an empty profile name or an empty verb is a [TypeError]. *)
Theorem get_metadata_edge_cases (workspace_path profile verb : string) (w w1 : gmap path node) :
  let metadata_file_path :=
    posixpath_join
      (posixpath_join
         (posixpath_join (posixpath_join workspace_path METADATA_DIR_NAME) "profiles")
         profile)
      (verb +:+ ".yaml") in
  migrate_metadata (PyStr workspace_path) w = Ok tt w1 →
  (profile ≠ "" → verb ≠ "" →
   os_path_exists w1 (path_of_str metadata_file_path) = false
   ∨ os_path_getsize w1 (path_of_str metadata_file_path) = Some 0%nat →
   get_metadata migrate_metadata yaml_safe_load py_str
     (PyStr workspace_path) (PyStr profile) (PyStr verb) w = Ok (PyDict []) w1)
  ∧ (profile = "" ∨ verb = "" →
     get_metadata migrate_metadata yaml_safe_load py_str
       (PyStr workspace_path) (PyStr profile) (PyStr verb) w = Exc TypeError w1).
Proof.
  intros file Hmig. split.
  - intros Hprofile Hverb Hfile. unfold get_metadata. unfold bind at 1. rewrite Hmig.
    unfold bind at 1. unfold get_paths.
    unfold bind at 1. cbn [get_profiles_path py_join ret]. unfold bind at 1. cbn [ret].
    cbn [truthy]. rewrite !bool_decide_eq_false_2 by done. cbn [negb andb].
    unfold bind at 1. cbn [py_join ret]. unfold bind at 1. cbn [py_join ret]. fold file.
    unfold bind at 1. cbn [py_exists].
    destruct Hfile as [Hmissing|Hempty].
    + rewrite Hmissing. done.
    + destruct (os_path_exists w1 (path_of_str file)); [|done]. cbn [negb].
      unfold bind at 1. unfold bind at 1. cbn [py_getsize]. rewrite Hempty. done.
  - intros Hempty. unfold get_metadata. unfold bind at 1. rewrite Hmig.
    unfold bind at 1. unfold get_paths.
    unfold bind at 1. cbn [get_profiles_path py_join ret]. unfold bind at 1. cbn [ret].
    cbn [truthy].
    destruct (decide (profile = "")) as [->|Hprofile].
    + done.
    + destruct Hempty as [?| ->]; [done|].
      rewrite bool_decide_eq_false_2 by done. cbn [negb andb].
      unfold bind at 1. cbn [py_join ret]. done.
Qed.

Lemma list_find_key (items : list (string * pyval)) (key : string) :
  key ∈ items.*1 → is_Some (list_find (fun kv : string * pyval => kv.1 = key) items).
Proof.
  induction items as [|[k v] items IH]; cbn [fmap list_fmap fst].
  - intros H. by apply elem_of_nil in H.
  - intros [->|Hin]%elem_of_cons; cbn.
    + rewrite decide_True by done. by eexists.
    + case_decide; [by eexists|]. destruct (IH Hin) as [[i x] ->]. by eexists.
Qed.

(** X19.  [get_active_profile] never raises [KeyError]: on a dictionary
    it returns the value stored under [active], or the default profile when
    there is none; a document that is [None], a boolean or a number is a
    [TypeError]. *)
Theorem get_active_profile_cases (workspace_path : pyval) (w w1 : gmap path node)
    (document : pyval) :
  get_profiles_data migrate_metadata yaml_safe_load workspace_path w = Ok document w1 →
  (∀ items, document = PyDict items →
     get_active_profile migrate_metadata yaml_safe_load workspace_path w
     = Ok match list_find (fun kv : string * pyval => kv.1 = "active") items with
          | Some (_, kv) => kv.2
          | None => PyStr DEFAULT_PROFILE_NAME
          end w1)
  ∧ (document = PyNone ∨ (∃ b, document = PyBool b) ∨ (∃ z, document = PyInt z) →
     get_active_profile migrate_metadata yaml_safe_load workspace_path w = Exc TypeError w1)
  ∧ (∀ w', get_active_profile migrate_metadata yaml_safe_load workspace_path w
           ≠ Exc KeyError w').
Proof.
  intros Hdata.
  assert (Hdict : ∀ items, document = PyDict items →
     get_active_profile migrate_metadata yaml_safe_load workspace_path w
     = Ok match list_find (fun kv : string * pyval => kv.1 = "active") items with
          | Some (_, kv) => kv.2
          | None => PyStr DEFAULT_PROFILE_NAME
          end w1).
  { intros items ->. unfold get_active_profile. unfold bind at 1. rewrite Hdata.
    unfold bind. cbn [py_contains ret]. case_bool_decide as Hin.
    - cbn [py_getitem]. destruct (list_find_key items "active" Hin) as [[i kv] Hfind].
      by rewrite Hfind.
    - destruct (list_find _ items) as [[i kv]|] eqn:Hfind; [|done].
      apply list_find_Some in Hfind as (Hlook & Hkey & _).
      destruct Hin. apply list_elem_of_fmap. exists kv. split; [done|].
      by eapply list_elem_of_lookup_2. }
  split_and!.
  - exact Hdict.
  - intros Hdoc. unfold get_active_profile. unfold bind at 1. rewrite Hdata.
    unfold bind. by destruct Hdoc as [->|[[b ->]|[z ->]]].
  - intros w'. destruct document as [|b|z|s|l|items].
    + unfold get_active_profile. unfold bind at 1. rewrite Hdata. done.
    + unfold get_active_profile. unfold bind at 1. rewrite Hdata. done.
    + unfold get_active_profile. unfold bind at 1. rewrite Hdata. done.
    + unfold get_active_profile. unfold bind at 1. rewrite Hdata.
      unfold bind. cbn [py_contains ret]. by destruct (bool_decide _).
    + unfold get_active_profile. unfold bind at 1. rewrite Hdata.
      unfold bind. cbn [py_contains ret]. by destruct (existsb _ l).
    + by rewrite (Hdict items eq_refl).
Qed.

End MetadataReaders.

Lemma get_metadata_edge_cases_witness :
  get_metadata Scenario.migrate_nothing Scenario.load_document Scenario.str_of
    (PyStr "/ws") (PyStr "default") (PyStr "clean") Scenario.stored_metadata
  = Ok (PyDict []) Scenario.stored_metadata
  ∧ get_metadata Scenario.migrate_nothing Scenario.load_document Scenario.str_of
      (PyStr "/ws") (PyStr "") (PyStr "build") Scenario.stored_metadata
    = Exc TypeError Scenario.stored_metadata.
Proof.
  split.
  - apply (get_metadata_edge_cases Scenario.migrate_nothing Scenario.load_document
             Scenario.str_of "/ws" "default" "clean" Scenario.stored_metadata
             Scenario.stored_metadata eq_refl); [done|done|left; by_evaluation].
  - apply (get_metadata_edge_cases Scenario.migrate_nothing Scenario.load_document
             Scenario.str_of "/ws" "" "build" Scenario.stored_metadata
             Scenario.stored_metadata eq_refl). by left.
Defined.

Lemma get_active_profile_cases_witness :
  get_active_profile Scenario.migrate_nothing Cases.load_profiles (PyStr "/ws")
    Cases.release_active
  = Ok (PyStr "release") Cases.release_active
  ∧ get_active_profile Scenario.migrate_nothing Cases.load_profiles (PyStr "/ws")
      Scenario.stored_metadata
    = Ok (PyStr "default") Scenario.stored_metadata.
Proof.
  split.
  - destruct (get_active_profile_cases Scenario.migrate_nothing Cases.load_profiles
                (PyStr "/ws") Cases.release_active Cases.release_active
                (PyDict [("active", PyStr "release")])) as (Hdict & _ & _).
    + rewrite get_profiles_data_str by reflexivity.
      assert (os_path_exists Cases.release_active (path_of_str (profiles_file "/ws")) = true)
        as -> by by_evaluation.
      assert (read_file Cases.release_active (path_of_str (profiles_file "/ws"))
              = Some "active: release") as -> by by_evaluation.
      reflexivity.
    + exact (Hdict _ eq_refl).
  - destruct (get_active_profile_cases Scenario.migrate_nothing Cases.load_profiles
                (PyStr "/ws") Scenario.stored_metadata Scenario.stored_metadata
                (PyDict [])) as (Hdict & _ & _).
    + rewrite get_profiles_data_str by reflexivity.
      assert (os_path_exists Scenario.stored_metadata (path_of_str (profiles_file "/ws"))
              = false) as -> by by_evaluation.
      reflexivity.
    + exact (Hdict _ eq_refl).
Defined.

(** *** The search for the enclosing workspaces *)

(** *** Strings *)

Lemma str_app_cons c a b : String c a +:+ b = String c (a +:+ b).
Proof. done. Qed.

Lemma str_app_assoc a b c : (a +:+ b) +:+ c = a +:+ (b +:+ c).
Proof. induction a as [|x a IH]; [done|]. rewrite !str_app_cons. by rewrite IH. Qed.

Lemma str_app_nil_r a : a +:+ "" = a.
Proof. induction a as [|x a IH]; [done|]. rewrite str_app_cons. by rewrite IH. Qed.

Lemma str_length_app a b :
  String.length (a +:+ b) = (String.length a + String.length b)%nat.
Proof. induction a as [|x a IH]; [done|]. rewrite str_app_cons. cbn. by rewrite IH. Qed.

Lemma str_app_nonempty_r a b : b ≠ "" → a +:+ b ≠ "".
Proof. intros Hb. destruct a; [done|]. by rewrite str_app_cons. Qed.

(** *** [posixpath.split] *)

Lemma cut_after_last_slash_app p head tail :
  cut_after_last_slash p = (head, tail) → p = head +:+ tail.
Proof.
  revert head tail. induction p as [|c p IH]; intros head tail.
  - by intros [= <- <-].
  - cbn [cut_after_last_slash].
    destruct (cut_after_last_slash p) as [h t]. specialize (IH h t eq_refl).
    case_bool_decide as Hh.
    + subst h. change ("" +:+ t) with t in IH. subst t.
      case_bool_decide; by intros [= <- <-].
    + intros [= <- <-]. rewrite str_app_cons. by f_equal.
Qed.

Lemma rstrip_slashes_prefix s : ∃ rest, s = rstrip_slashes s +:+ rest.
Proof.
  induction s as [|c s [rest IH]]; [by exists ""|].
  cbn [rstrip_slashes]. destruct (bool_decide (rstrip_slashes s = "") && _).
  - by exists (String c s).
  - exists rest. rewrite str_app_cons. by f_equal.
Qed.

Lemma posixpath_split_prefix p head tail :
  posixpath_split p = (head, tail) →
  (∃ rest, p = head +:+ rest)
  ∧ (String.length head + String.length tail ≤ String.length p)%nat.
Proof.
  unfold posixpath_split.
  destruct (cut_after_last_slash p) as [h t] eqn:Hcut.
  apply cut_after_last_slash_app in Hcut. subst p.
  destruct (negb _ && negb _).
  - intros [= <- <-]. destruct (rstrip_slashes_prefix h) as [rest Hrest].
    split.
    + exists (rest +:+ t). rewrite <- str_app_assoc. by rewrite <- Hrest.
    + rewrite Hrest at 2. rewrite !str_length_app. lia.
  - intros [= <- <-]. split; [by exists t|by rewrite str_length_app].
Qed.

(** *** The search for the enclosing workspaces *)

Lemma starts_with_refl p : starts_with p p.
Proof. exists "". by rewrite str_app_nil_r. Qed.

Lemma starts_with_trans a b c : starts_with a b → starts_with b c → starts_with a c.
Proof. intros [r1 ->] [r2 ->]. exists (r1 +:+ r2). by rewrite str_app_assoc. Qed.

Lemma starts_with_length a b : starts_with a b → (String.length a ≤ String.length b)%nat.
Proof. intros [r ->]. rewrite str_length_app. lia. Qed.

Lemma search_upwards_sound (w : gmap path node) : ∀ iterations p workspaces,
  (String.length p < iterations)%nat →
  ∃ found,
    search_upwards iterations w p workspaces = Some (workspaces ++ found)
    ∧ Forall (fun x =>
                os_path_isdir w (path_of_str (posixpath_join x METADATA_DIR_NAME)) = true
                ∧ starts_with x p) found
    ∧ StronglySorted shorter found.
Proof.
  induction iterations as [|n IH]; intros p acc Hlen; [lia|].
  cbn [search_upwards]. case_bool_decide as Hp.
  { exists []. rewrite app_nil_r. split_and!; [done|done|constructor]. }
  set (candidate := path_of_str (posixpath_join p METADATA_DIR_NAME)).
  destruct (posixpath_split p) as [head tail] eqn:Hsplit.
  destruct (posixpath_split_prefix _ _ _ Hsplit) as [Hprefix Hlength].
  set (here := if os_path_exists w candidate && os_path_isdir w candidate
               then [p] else @nil string).
  assert (Hacc : (if os_path_exists w candidate && os_path_isdir w candidate
                  then acc ++ [p] else acc) = acc ++ here).
  { subst here. destruct (_ && _); [done|by rewrite app_nil_r]. }
  rewrite Hacc.
  assert (Hhere : Forall (fun x =>
                    os_path_isdir w (path_of_str (posixpath_join x METADATA_DIR_NAME)) = true
                    ∧ starts_with x p) here).
  { subst here. destruct (os_path_exists w candidate && os_path_isdir w candidate) eqn:Hc;
      [|constructor].
    apply andb_true_iff in Hc as [_ Hdir]. constructor; [|constructor].
    split; [done|apply starts_with_refl]. }
  case_bool_decide as Htail.
  - exists here. split_and!; [done|done|].
    subst here. destruct (_ && _); repeat constructor.
  - destruct (IH head (acc ++ here)) as (found & -> & Hfound & Hsorted).
    { destruct tail; [done|]. cbn in Hlength. lia. }
    exists (here ++ found). split_and!.
    + by rewrite app_assoc.
    + apply Forall_app. split; [done|].
      eapply Forall_impl; [exact Hfound|]. intros x [Hx1 Hx2]. split; [done|].
      by eapply starts_with_trans.
    + subst here. destruct (_ && _); [|done]. cbn [app]. constructor; [done|].
      eapply Forall_impl; [exact Hfound|]. intros x [_ Hx%starts_with_length].
      unfold shorter. destruct tail; [done|]. cbn in Hlength. lia.
Qed.

(** X20.  [find_enclosing_workspaces] on a string always returns and
    leaves the file system alone.  Each path it returns has a metadata
    directory and is a prefix of the given string, the paths come from the
    longest to the shortest, and [find_enclosing_workspace] returns the last
    of them, or [None] when there is none. *)
Theorem find_enclosing_workspaces_sound (search_start_path : string) (w : gmap path node) :
  ∃ workspaces,
    find_enclosing_workspaces (PyStr search_start_path) w = Ok workspaces w
    ∧ (∀ x, x ∈ workspaces →
         os_path_isdir w (path_of_str (posixpath_join x METADATA_DIR_NAME)) = true
         ∧ starts_with x search_start_path)
    ∧ StronglySorted shorter workspaces
    ∧ find_enclosing_workspace (PyStr search_start_path) w
      = Ok (match last workspaces with
            | Some top => PyStr top
            | None => PyNone
            end) w.
Proof.
  assert (Hlast : ∀ l : list string,
            (if bool_decide (l = []) then ret (S:=gmap path node) PyNone
             else ret (PyStr (List.last l "")))
            = ret match last l with Some top => PyStr top | None => PyNone end).
  { intros l. destruct l as [|x l] using rev_ind; [done|].
    rewrite bool_decide_eq_false_2 by (by destruct l).
    rewrite last_snoc. by rewrite last_default_app. }
  unfold find_enclosing_workspace, find_enclosing_workspaces. cbn [truthy].
  case_bool_decide as Hp; cbn [negb].
  - subst. exists []. split_and!; [done| |constructor|done].
    intros x Hx. by apply elem_of_nil in Hx.
  - destruct (search_upwards_sound w (S (String.length search_start_path)) search_start_path [])
      as (found & Hrun & Hfound & Hsorted); [lia|].
    cbn [app] in Hrun. exists found. rewrite Hrun. split_and!; [done| |done|].
    + intros x Hx. by apply (proj1 (Forall_forall _ _) Hfound).
    + unfold bind. rewrite Hrun. by rewrite Hlast.
Qed.

(** *** A path that ends in a slash *)

Lemma cut_after_last_slash_trailing p :
  ends_with_slash p = true → cut_after_last_slash p = (p, "").
Proof.
  induction p as [|c p IH]; [done|]. intros Hend.
  destruct p as [|c' p'].
  - cbn in Hend. apply bool_decide_eq_true in Hend as ->. done.
  - assert (Hend' : ends_with_slash (String c' p') = true) by exact Hend.
    cbn [cut_after_last_slash] in *. rewrite (IH Hend').
    by rewrite bool_decide_eq_false_2.
Qed.

(** X21.  A trailing slash ends the search at the first directory: on a
    path that ends in a slash the result is that path, when it holds a
    metadata directory, and the empty list otherwise; the directories above
    are not looked at. *)
Theorem find_enclosing_workspaces_trailing_slash (search_start_path : string)
    (w : gmap path node) :
  ends_with_slash search_start_path = true →
  find_enclosing_workspaces (PyStr search_start_path) w
  = Ok (if os_path_isdir w (path_of_str (posixpath_join search_start_path METADATA_DIR_NAME))
        then [search_start_path] else []) w.
Proof.
  intros Hend. unfold find_enclosing_workspaces. cbn [truthy].
  assert (Hne : search_start_path ≠ "") by (by intros ->).
  rewrite bool_decide_eq_false_2 by done. cbn [negb search_upwards].
  rewrite bool_decide_eq_false_2 by done.
  assert (Hsplit : (posixpath_split search_start_path).2 = "").
  { unfold posixpath_split. rewrite cut_after_last_slash_trailing by done.
    by destruct (negb _ && negb _). }
  destruct (posixpath_split search_start_path) as [head tail]. cbn in Hsplit. subst tail.
  rewrite bool_decide_eq_true_2 by done.
  destruct (os_path_isdir w _) eqn:Hdir.
  - assert (Hex : os_path_exists w (path_of_str (posixpath_join search_start_path
                                                   METADATA_DIR_NAME)) = true).
    { unfold os_path_isdir in Hdir. apply bool_decide_eq_true.
      destruct (os_stat w _); [by eexists|done]. }
    by rewrite Hex.
  - by rewrite andb_false_r.
Qed.

Lemma find_enclosing_workspaces_trailing_slash_witness :
  find_enclosing_workspaces (PyStr "/ws/src/inner/pkg/") Cases.nested = Ok [] Cases.nested
  ∧ value_of (find_enclosing_workspaces (PyStr "/ws/src/inner/pkg") Cases.nested)
    = Some ["/ws/src/inner"; "/ws"].
Proof.
  split; [|by_evaluation].
  pose proof (find_enclosing_workspaces_trailing_slash "/ws/src/inner/pkg/" Cases.nested
                eq_refl) as Hthm.
  match type of Hthm with
  | context [os_path_isdir ?w ?p] =>
      assert (Hdir : os_path_isdir w p = false) by by_evaluation; rewrite Hdir in Hthm
  end.
  exact Hthm.
Defined.

(** *** The string of a path in normal form *)

Lemma concat_snoc (ns : list string) (n : string) :
  ns ≠ [] → String.concat "/" (ns ++ [n]) = String.concat "/" ns +:+ "/" +:+ n.
Proof.
  induction ns as [|x ns IH]; [done|]. intros _.
  destruct ns as [|y ns'].
  - done.
  - change (String.concat "/" ((x :: y :: ns') ++ [n]))
      with (x +:+ "/" +:+ String.concat "/" ((y :: ns') ++ [n])).
    rewrite IH by done.
    change (String.concat "/" (x :: y :: ns'))
      with (x +:+ "/" +:+ String.concat "/" (y :: ns')).
    by rewrite !str_app_assoc.
Qed.

Lemma render_snoc (ns : list string) (n : string) :
  render (ns ++ [n]) = (if decide (ns = []) then "" else render ns) +:+ "/" +:+ n.
Proof.
  unfold render. case_decide as Hns.
  - by subst.
  - rewrite concat_snoc by done. by rewrite str_app_assoc.
Qed.

Lemma cut_no_slash n : has_slash n = false → cut_after_last_slash n = ("", n).
Proof.
  induction n as [|c n IH]; [done|]. cbn [has_slash]. intros [Hc Hn]%orb_false_elim.
  cbn [cut_after_last_slash]. rewrite IH by done.
  rewrite bool_decide_eq_true_2 by done. by rewrite Hc.
Qed.

Lemma cut_after_slash s n :
  has_slash n = false → cut_after_last_slash (s +:+ "/" +:+ n) = (s +:+ "/", n).
Proof.
  intros Hn. induction s as [|c s IH].
  - change ("" +:+ "/" +:+ n) with (String "/" n). cbn [cut_after_last_slash].
    rewrite cut_no_slash by done. by rewrite !bool_decide_eq_true_2.
  - rewrite str_app_cons. cbn [cut_after_last_slash]. rewrite IH.
    rewrite bool_decide_eq_false_2 by (by apply str_app_nonempty_r).
    by rewrite str_app_cons.
Qed.

Lemma rstrip_slashes_slash s : rstrip_slashes (s +:+ "/") = rstrip_slashes s.
Proof.
  induction s as [|c s IH]; [done|].
  rewrite str_app_cons. cbn [rstrip_slashes]. by rewrite IH.
Qed.

Lemma rstrip_no_slash n : has_slash n = false → rstrip_slashes n = n.
Proof.
  induction n as [|c n IH]; [done|]. cbn [has_slash]. intros [Hc Hn]%orb_false_elim.
  cbn [rstrip_slashes]. rewrite IH by done. rewrite Hc. by rewrite andb_false_r.
Qed.

Lemma rstrip_slashes_name s n :
  n ≠ "" → has_slash n = false → rstrip_slashes (s +:+ n) = s +:+ n.
Proof.
  intros Hne Hn. induction s as [|c s IH].
  - by apply rstrip_no_slash.
  - rewrite str_app_cons. cbn [rstrip_slashes]. rewrite IH.
    by rewrite bool_decide_eq_false_2 by (by apply str_app_nonempty_r).
Qed.

Lemma all_slashes_app a b : all_slashes (a +:+ b) = all_slashes a && all_slashes b.
Proof.
  induction a as [|c a IH]; [done|]. rewrite str_app_cons. cbn [all_slashes].
  rewrite IH. by rewrite andb_assoc.
Qed.

Lemma all_slashes_name n : n ≠ "" → has_slash n = false → all_slashes n = false.
Proof.
  destruct n as [|c n]; [done|]. intros _. cbn [has_slash all_slashes].
  intros [Hc _]%orb_false_elim. by rewrite Hc.
Qed.

Lemma render_last (ns : list string) (n : string) :
  ∃ s, render (ns ++ [n]) = s +:+ "/" +:+ n.
Proof. rewrite render_snoc. by eexists. Qed.

Lemma posixpath_split_render (ns : list string) (n : string) :
  Forall entry_name (ns ++ [n]) →
  posixpath_split (render (ns ++ [n])) = (render ns, n).
Proof.
  intros [Hns [Hne Hn]%Forall_singleton]%Forall_app.
  rewrite render_snoc. unfold posixpath_split.
  rewrite cut_after_slash by done.
  case_decide as Hnil.
  - subst. done.
  - rewrite bool_decide_eq_false_2 by (by apply str_app_nonempty_r).
    destruct ns as [|x ns' _] using rev_ind; [done|].
    apply Forall_app in Hns as [_ [Hxne Hx]%Forall_singleton].
    destruct (render_last ns' x) as [s Hs]. rewrite Hs.
    rewrite !all_slashes_app. rewrite (all_slashes_name x) by done.
    rewrite !andb_false_r, andb_false_l. cbn [negb andb].
    rewrite rstrip_slashes_slash.
    replace (s +:+ "/" +:+ x) with ((s +:+ "/") +:+ x) by apply str_app_assoc.
    by rewrite rstrip_slashes_name.
Qed.

Lemma components_name n : ∀ cur,
  has_slash n = false → cur +:+ n ≠ "" → components n cur = [cur +:+ n].
Proof.
  induction n as [|c n IH]; intros cur Hn Hne.
  - rewrite str_app_nil_r in Hne |- *. cbn. by rewrite bool_decide_eq_false_2.
  - cbn [has_slash] in Hn. apply orb_false_elim in Hn as [Hc Hn].
    rewrite components_cons. rewrite Hc. rewrite IH.
    + by rewrite str_app_assoc.
    + done.
    + rewrite str_app_assoc. exact Hne.
Qed.

Lemma components_concat (names : list string) :
  Forall entry_name names → components (String.concat "/" names) "" = names.
Proof.
  induction names as [|n names IH]; [done|]. intros Hall.
  apply Forall_cons in Hall as [[Hne Hn] Hall].
  destruct names as [|m names'].
  - cbn [String.concat]. by rewrite components_name.
  - change (String.concat "/" (n :: m :: names'))
      with (n +:+ String "/" (String.concat "/" (m :: names'))).
    rewrite components_slash. rewrite components_name by done. rewrite IH by done. done.
Qed.

Lemma path_of_str_render (names : list string) :
  Forall entry_name names → path_of_str (render names) = names.
Proof.
  intros Hall. unfold path_of_str, render.
  change ("/" +:+ String.concat "/" names) with (String "/" (String.concat "/" names)).
  rewrite components_cons. rewrite !bool_decide_eq_true_2 by done.
  by apply components_concat.
Qed.

Lemma render_nonempty names : render names ≠ "".
Proof. done. Qed.

(** *** The directories above a directory *)

Lemma upwards_nil : upwards [] = [[]].
Proof. done. Qed.

Lemma upwards_snoc (ns : list string) (n : string) :
  upwards (ns ++ [n]) = (ns ++ [n]) :: upwards ns.
Proof.
  unfold upwards. rewrite length_app. cbn [length].
  replace (S (length ns + 1)) with (S (S (length ns))) by lia.
  rewrite (seq_S (S (length ns))). rewrite reverse_app. cbn [reverse rev_append app].
  change (reverse [0 + S (length ns)])%nat with [S (length ns)].
  cbn [app fmap list_fmap]. f_equal.
  - rewrite firstn_all2; [done|]. rewrite length_app. cbn. lia.
  - apply list_fmap_ext. intros i x Hx.
    assert (Hin : x ∈ reverse (seq 0 (S (length ns)))) by (by eapply list_elem_of_lookup_2).
    apply elem_of_reverse, elem_of_seq in Hin. apply take_app_le. lia.
Qed.

Lemma prefix_snoc_inv (x ns : list string) (n : string) :
  x `prefix_of` ns ++ [n] → x = ns ++ [n] ∨ x `prefix_of` ns.
Proof.
  intros [k Hk]. destruct k as [|y k' _] using rev_ind.
  - left. by rewrite app_nil_r in Hk.
  - right. rewrite app_assoc in Hk. apply app_inj_tail in Hk as [-> _]. by exists k'.
Qed.

Lemma elem_of_upwards (x names : list string) : x `prefix_of` names → x ∈ upwards names.
Proof.
  induction names as [|n ns IH] using rev_ind; intros Hx.
  - apply prefix_nil_inv in Hx as ->. rewrite upwards_nil. left.
  - rewrite upwards_snoc. apply prefix_snoc_inv in Hx as [->|Hx]; [left|right; by apply IH].
Qed.

(** The last of the directories above [names] with a property is the one
    closest to the root. *)
Lemma last_filter_upwards (P : list string → Prop) `{!∀ x, Decision (P x)}
    (names top : list string) :
  last (filter P (upwards names)) = Some top →
  P top ∧ top `prefix_of` names
  ∧ ∀ other, other `prefix_of` names → P other → top `prefix_of` other.
Proof.
  revert top. induction names as [|n ns IH] using rev_ind; intros top.
  - rewrite upwards_nil, filter_cons, filter_nil. case_decide as HP; [|done].
    intros [= <-]. split_and!; [done|done|]. intros other _ _. apply prefix_nil.
  - rewrite upwards_snoc, filter_cons.
    destruct (filter P (upwards ns)) as [|y l] eqn:Hfilter.
    + case_decide as HP; [|done]. intros [= <-]. split_and!; [done|done|].
      intros other [->|Hother]%prefix_snoc_inv Hp; [done|].
      assert (Hin : other ∈ filter P (upwards ns)).
      { apply list_elem_of_filter. split; [done|]. by apply elem_of_upwards. }
      rewrite Hfilter in Hin. by apply elem_of_nil in Hin.
    + intros Hlast.
      assert (Hlast' : last (y :: l) = Some top).
      { case_decide; [|done]. by rewrite last_cons_cons in Hlast. }
      destruct (IH top Hlast') as (HP & Hpre & Hmin). split_and!; [done| |].
      * etrans; [exact Hpre|]. by apply prefix_app_r.
      * intros other [->|Hother]%prefix_snoc_inv Hp; [|by apply Hmin].
        etrans; [exact Hpre|]. by apply prefix_app_r.
Qed.

Lemma os_path_isdir_exists (f : gmap path node) p :
  os_path_exists f p && os_path_isdir f p = os_path_isdir f p.
Proof.
  destruct (os_path_isdir f p) eqn:Hdir; [|by rewrite andb_false_r].
  rewrite andb_true_r. apply bool_decide_eq_true. unfold os_path_isdir in Hdir.
  destruct (os_stat f p); [by eexists|done].
Qed.

Lemma search_upwards_render (w : gmap path node) : ∀ iterations names workspaces,
  Forall entry_name names → (length names < iterations)%nat →
  search_upwards iterations w (render names) workspaces
  = Some (workspaces ++ (render <$> filter (is_workspace w) (upwards names))).
Proof.
  induction iterations as [|k IH]; intros names acc Hall Hlen; [lia|].
  cbn [search_upwards]. rewrite bool_decide_eq_false_2 by apply render_nonempty.
  rewrite os_path_isdir_exists.
  rewrite path_of_str_join by done. rewrite path_of_str_render by done.
  change (path_of_str METADATA_DIR_NAME) with [METADATA_DIR_NAME].
  destruct names as [|n ns _] using rev_ind.
  - change (posixpath_split (render [])) with ("/", "").
    cbv beta iota zeta. change (String.length "") with 0%nat.
    rewrite (bool_decide_eq_true_2 (0%nat = 0%nat)) by done. rewrite upwards_nil.
    rewrite filter_cons, filter_nil.
    destruct (decide (is_workspace w [])) as [Hws|Hws]; unfold is_workspace in Hws.
    + by rewrite Hws.
    + apply not_true_is_false in Hws. rewrite Hws. by rewrite app_nil_r.
  - rewrite posixpath_split_render by done. cbv beta iota zeta.
    pose proof Hall as [Hns [Hne Hn]%Forall_singleton]%Forall_app.
    rewrite (bool_decide_eq_false_2 (String.length n = 0%nat)) by (by destruct n).
    rewrite length_app in Hlen. cbn in Hlen.
    rewrite IH by (done || lia).
    rewrite upwards_snoc, filter_cons.
    destruct (decide (is_workspace w (ns ++ [n]))) as [Hws|Hws]; unfold is_workspace in Hws.
    + rewrite Hws. cbn [fmap list_fmap]. by rewrite <- app_assoc.
    + apply not_true_is_false in Hws. by rewrite Hws.
Qed.

Lemma render_length names : (length names ≤ String.length (render names))%nat.
Proof.
  unfold render. change ("/" +:+ ?s) with (String "/" s). cbn [String.length].
  induction names as [|n names IH]; [cbn; lia|].
  destruct names as [|m names'].
  - cbn. lia.
  - change (String.concat "/" (n :: m :: names'))
      with (n +:+ String "/" (String.concat "/" (m :: names'))).
    rewrite str_length_app. cbn [String.length length] in *. lia.
Qed.

(** X22.  On an absolute path in normal form, [find_enclosing_workspaces]
    lists exactly the directories among the given one and those above it
    that hold a metadata directory, from the given one upwards, and
    [find_enclosing_workspace] returns the one closest to the root: it is
    above every other one. *)
Theorem find_enclosing_workspace_is_topmost (names : list string) (w : gmap path node) :
  Forall entry_name names →
  let found := filter (is_workspace w) (upwards names) in
  find_enclosing_workspaces (PyStr (render names)) w = Ok (render <$> found) w
  ∧ find_enclosing_workspace (PyStr (render names)) w
    = Ok (match last found with
          | Some top => PyStr (render top)
          | None => PyNone
          end) w
  ∧ ∀ top, last found = Some top →
      is_workspace w top ∧ top `prefix_of` names
      ∧ ∀ other, other `prefix_of` names → is_workspace w other → top `prefix_of` other.
Proof.
  intros Hall found.
  assert (Hrun : find_enclosing_workspaces (PyStr (render names)) w = Ok (render <$> found) w).
  { unfold find_enclosing_workspaces. cbn [truthy].
    rewrite bool_decide_eq_false_2 by apply render_nonempty. cbn [negb].
    rewrite search_upwards_render; [done|done|].
    pose proof (render_length names). lia. }
  split_and!.
  - done.
  - unfold find_enclosing_workspace, bind. rewrite Hrun.
    destruct found as [|x l _] using rev_ind; [done|].
    rewrite bool_decide_eq_false_2 by (rewrite fmap_app; by destruct (render <$> l)).
    rewrite last_snoc. rewrite fmap_app. cbn [fmap list_fmap].
    by rewrite last_default_app.
  - intros top Htop. by apply (last_filter_upwards (is_workspace w)).
Qed.

Lemma find_enclosing_workspace_is_topmost_witness :
  find_enclosing_workspaces (PyStr "/ws/src/inner/pkg") Cases.nested
  = Ok ["/ws/src/inner"; "/ws"] Cases.nested
  ∧ find_enclosing_workspace (PyStr "/ws/src/inner/pkg") Cases.nested
    = Ok (PyStr "/ws") Cases.nested.
Proof.
  pose proof (find_enclosing_workspace_is_topmost ["ws"; "src"; "inner"; "pkg"] Cases.nested)
    as Hthm.
  cbv zeta in Hthm.
  assert (Hfound : filter (is_workspace Cases.nested) (upwards ["ws"; "src"; "inner"; "pkg"])
                   = [["ws"; "src"; "inner"]; ["ws"]]) by by_evaluation.
  rewrite Hfound in Hthm. destruct Hthm as (Hall & Hlast & _).
  - repeat constructor; done.
  - split; [exact Hall|exact Hlast].
Defined.

Import Init.

(** *** The entries of a directory *)

(** A walk that has reached a directory goes on to the entry [c] of it. *)
Lemma walk_components_child (f : gmap path node) (c : string) (follow : bool)
    (enter enter' : path → path → option path) :
  c ≠ "." → c ≠ ".." →
  (∀ base rest dir, enter base rest = Some dir → lookup_node f dir = Some NDir →
     (follow = true → ∀ rel t, f !! (dir ++ [c]) ≠ Some (NLink rel t)) →
     enter' base (rest ++ [c]) = Some (dir ++ [c])) →
  ∀ rest cur dir,
    walk_components enter f true cur rest = Some dir → lookup_node f dir = Some NDir →
    (follow = true → ∀ rel t, f !! (dir ++ [c]) ≠ Some (NLink rel t)) →
    walk_components enter' f follow cur (rest ++ [c]) = Some (dir ++ [c]).
Proof.
  intros Hc1 Hc2 Henter. induction rest as [|x r IH]; intros cur dir.
  - intros [= <-] _ Hlink. cbn [app walk_components]. rewrite !decide_False by done.
    destruct (f !! (cur ++ [c])) as [[| |rel t]|] eqn:Hp; try done.
    destruct follow; [|done]. by destruct (Hlink eq_refl rel t).
  - cbn [app walk_components]. repeat case_decide; [by apply IH..|].
    destruct (f !! (cur ++ [x])) as [[| |rel t]|] eqn:Hp.
    + destruct r; [|done]. intros [= <-]. by rewrite lookup_node_snoc, Hp.
    + by apply IH.
    + assert (Hgo : ∀ A (a b : A), match r ++ [c], follow with
                                   | [], false => a
                                   | _, _ => b
                                   end = b) by (intros; by destruct r, follow).
      rewrite Hgo. rewrite app_assoc.
      destruct r; apply Henter.
    + destruct r; [|done]. intros [= <-]. by rewrite lookup_node_snoc, Hp.
Qed.

Lemma walk_path_child (f : gmap path node) (c : string) (follow : bool) :
  c ≠ "." → c ≠ ".." →
  ∀ budget cur rest dir,
    walk_path budget f true cur rest = Some dir → lookup_node f dir = Some NDir →
    (follow = true → ∀ rel t, f !! (dir ++ [c]) ≠ Some (NLink rel t)) →
    walk_path budget f follow cur (rest ++ [c]) = Some (dir ++ [c]).
Proof.
  intros Hc1 Hc2. induction budget as [|b IHb]; intros cur rest dir; cbn [walk_path];
    apply walk_components_child; done.
Qed.

(** A walk to an entry has gone through the directory of the entry. *)
Lemma walk_components_through (f : gmap path node) (c : string) (follow : bool)
    (enter enter' : path → path → option path) :
  c ≠ "." → c ≠ ".." →
  (∀ base rest loc, reached f base → enter' base (rest ++ [c]) = Some loc →
     ∃ dir, enter base rest = Some dir ∧ lookup_node f dir = Some NDir) →
  ∀ rest cur loc,
    reached f cur → walk_components enter' f follow cur (rest ++ [c]) = Some loc →
    ∃ dir, walk_components enter f true cur rest = Some dir ∧ lookup_node f dir = Some NDir.
Proof.
  intros Hc1 Hc2 Henter. induction rest as [|x r IH]; intros cur loc Hcur.
  - intros _. exists cur. split; [done|]. by apply Hcur.
  - cbn [app walk_components]. repeat case_decide.
    + by apply IH.
    + apply IH. by apply reached_removelast.
    + destruct (f !! (cur ++ [x])) as [[| |rel t]|] eqn:Hx.
      * by destruct r.
      * apply IH. by apply reached_snoc.
      * assert (Hbase : reached f (if rel then cur else [])).
        { destruct rel; [done|apply reached_root]. }
        assert (Hgo : ∀ A (a b : A), match r ++ [c], follow with
                                     | [], false => a
                                     | _, _ => b
                                     end = b) by (intros; by destruct r, follow).
        rewrite Hgo. rewrite app_assoc. intros Hloc.
        destruct (Henter _ _ _ Hbase Hloc) as (dir & Hdir & Hnode).
        exists dir. split; [|done]. by destruct r.
      * by destruct r.
Qed.

Lemma walk_path_through (f : gmap path node) (c : string) (follow : bool) :
  c ≠ "." → c ≠ ".." →
  ∀ budget rest cur loc,
    reached f cur → walk_path budget f follow cur (rest ++ [c]) = Some loc →
    ∃ dir, walk_path budget f true cur rest = Some dir ∧ lookup_node f dir = Some NDir.
Proof.
  intros Hc1 Hc2. induction budget as [|b IHb]; intros rest cur loc; cbn [walk_path];
    apply walk_components_through; try done.
  intros base rest' loc' Hbase. by apply IHb.
Qed.

(** Nothing can be made in what is not a directory. *)
Lemma os_mkdir_no_directory (f : gmap path node) (p : path) (c : string) :
  c ≠ "." → c ≠ ".." → os_path_isdir f p = false → os_mkdir f (p ++ [c]) = None.
Proof.
  intros Hc1 Hc2 Hdir. unfold os_mkdir.
  destruct (entry_location f (p ++ [c])) as [loc|] eqn:Hloc; [|done].
  apply entry_location_Some in Hloc as (Hwalk & _).
  destruct (walk_path_through f c false Hc1 Hc2 _ _ _ _ (reached_root f) Hwalk)
    as (dir & Hdir' & Hnode).
  unfold os_path_isdir, os_stat in Hdir. rewrite Hdir' in Hdir. simpl in Hdir.
  by rewrite Hnode in Hdir.
Qed.

Lemma os_path_exists_no_directory (f : gmap path node) (p : path) (c : string) :
  c ≠ "." → c ≠ ".." → os_path_isdir f p = false → os_path_exists f (p ++ [c]) = false.
Proof.
  intros Hc1 Hc2 Hdir. apply bool_decide_eq_false. intros [n Hn]. unfold os_stat in Hn.
  destruct (walk_path SYMLOOP_MAX f true [] (p ++ [c])) as [loc|] eqn:Hwalk; [|done].
  destruct (walk_path_through f c true Hc1 Hc2 _ _ _ _ (reached_root f) Hwalk)
    as (dir & Hdir' & Hnode).
  unfold os_path_isdir, os_stat in Hdir. rewrite Hdir' in Hdir. simpl in Hdir.
  by rewrite Hnode in Hdir.
Qed.

(** The entry [c] of a directory that has been reached. *)
Lemma os_stat_child (f : gmap path node) (p d : path) (c : string) :
  c ≠ "." → c ≠ ".." →
  walk_path SYMLOOP_MAX f true [] p = Some d → lookup_node f d = Some NDir →
  (∀ rel t, f !! (d ++ [c]) ≠ Some (NLink rel t)) →
  walk_path SYMLOOP_MAX f true [] (p ++ [c]) = Some (d ++ [c])
  ∧ os_stat f (p ++ [c]) = f !! (d ++ [c]).
Proof.
  intros Hc1 Hc2 Hwalk Hnode Hlink.
  assert (Hchild : walk_path SYMLOOP_MAX f true [] (p ++ [c]) = Some (d ++ [c]))
    by (by apply walk_path_child).
  split; [done|]. unfold os_stat. rewrite Hchild. simpl. apply lookup_node_snoc.
Qed.

(** *** The metadata directory *)

Lemma metadata_root_components (workspace_path : string) :
  path_of_str (posixpath_join workspace_path METADATA_DIR_NAME)
  = path_of_str workspace_path ++ [METADATA_DIR_NAME].
Proof. by rewrite path_of_str_join. Qed.

Lemma metadata_entry_components (workspace_path name : string) :
  starts_with_slash name = false →
  path_of_str (posixpath_join (posixpath_join workspace_path METADATA_DIR_NAME) name)
  = (path_of_str workspace_path ++ [METADATA_DIR_NAME]) ++ path_of_str name.
Proof. intros Hname. by rewrite path_of_str_join, metadata_root_components. Qed.

Section InitFacts.
Variable migrate_metadata : pyval → M process unit.

(** X23.  [init_metadata_root] needs a directory to work in: when the
    workspace path is empty or is not an existing directory, the call raises
    [OSError] and changes neither the file system nor the output.  A path
    that does not exist fails the check at the start, a path that is no
    directory makes [os.mkdir] fail. *)
Theorem init_metadata_root_needs_a_directory (workspace_path : string) (reset : bool)
    (s : process) :
  workspace_path = "" ∨ os_path_isdir (files s) (path_of_str workspace_path) = false →
  init_metadata_root migrate_metadata workspace_path reset s = Exc OSError s.
Proof.
  intros Hws. destruct s as [w out]. cbn [files] in Hws.
  unfold init_metadata_root. unfold bind at 1. unfold on_files at 1. cbn [files stdout].
  unfold py_exists_str. case_bool_decide as Hempty; [done|].
  destruct Hws as [?|Hdir]; [done|]. cbn [py_exists].
  destruct (os_path_exists w (path_of_str workspace_path)) eqn:Hex; cbn [negb]; [|done].
  unfold bind at 1. unfold on_files at 1. cbn [files stdout get_metadata_root_path py_join ret].
  unfold bind at 1. unfold on_files at 1. cbn [files stdout py_exists].
  rewrite metadata_root_components.
  rewrite os_path_exists_no_directory by done.
  unfold bind at 1. unfold on_files at 1. cbn [files stdout py_mkdir].
  rewrite metadata_root_components.
  by rewrite os_mkdir_no_directory.
Qed.

(** A workspace that holds the metadata directory with its files, when the
    migration has nothing to do there. *)
Lemma init_metadata_root_again (workspace_path : string) (w : gmap path node)
    (out : list string) (d : path) :
  let root := d ++ [METADATA_DIR_NAME] in
  migrate_metadata (PyStr workspace_path) (Process w out) = Ok tt (Process w out) →
  workspace_path ≠ "" →
  walk_path SYMLOOP_MAX w true [] (path_of_str workspace_path) = Some d →
  lookup_node w d = Some NDir →
  w !! root = Some NDir →
  w !! (root ++ ["README"]) = Some (NFile METADATA_README_TEXT) →
  (∃ content, w !! (root ++ ["CATKIN_IGNORE"]) = Some (NFile content)) →
  init_metadata_root migrate_metadata workspace_path false (Process w out)
  = Ok tt (Process w out).
Proof.
  intros root Hmig Hne Hwalk Hd Hroot Hreadme [content Hignore].
  assert (Hrootwalk : walk_path SYMLOOP_MAX w true [] (path_of_str workspace_path
                                                         ++ [METADATA_DIR_NAME])
                      = Some root
                      ∧ os_stat w (path_of_str workspace_path ++ [METADATA_DIR_NAME])
                        = w !! root).
  { apply os_stat_child; try done. intros rel t. fold root. by rewrite Hroot. }
  destruct Hrootwalk as [Hrootwalk Hrootstat].
  assert (Hrootnode : lookup_node w root = Some NDir).
  { unfold root. by rewrite lookup_node_snoc. }
  destruct (os_stat_child w (path_of_str workspace_path ++ [METADATA_DIR_NAME]) root "README")
    as [Hreadmewalk Hreadmestat]; try done.
  { intros rel t. by rewrite Hreadme. }
  destruct (os_stat_child w (path_of_str workspace_path ++ [METADATA_DIR_NAME]) root
              "CATKIN_IGNORE") as [Hignorewalk Hignorestat]; try done.
  { intros rel t. by rewrite Hignore. }
  unfold init_metadata_root. unfold bind at 1. unfold on_files at 1. cbn [files stdout].
  unfold py_exists_str. rewrite bool_decide_eq_false_2 by done. cbn [py_exists].
  assert (Hex : os_path_exists w (path_of_str workspace_path) = true).
  { apply bool_decide_eq_true. unfold os_stat. rewrite Hwalk. simpl. by rewrite Hd. }
  rewrite Hex. cbn [negb].
  unfold bind at 1. unfold on_files at 1. cbn [files stdout get_metadata_root_path py_join ret].
  unfold bind at 1. unfold on_files at 1. cbn [files stdout py_exists].
  rewrite metadata_root_components.
  assert (Hexroot : os_path_exists w (path_of_str workspace_path ++ [METADATA_DIR_NAME]) = true).
  { apply bool_decide_eq_true. rewrite Hrootstat, Hroot. by eexists. }
  rewrite Hexroot.
  unfold bind at 1. cbn [ret].
  unfold bind at 1. unfold on_files at 1. cbn [files stdout py_join ret].
  unfold bind at 1. unfold on_files at 1. cbn [files stdout py_write].
  rewrite (metadata_entry_components workspace_path "README") by done.
  change (path_of_str "README") with ["README"].
  assert (Hwrite : write_file w ((path_of_str workspace_path ++ [METADATA_DIR_NAME])
                                 ++ ["README"]) METADATA_README_TEXT = Some w).
  { unfold write_file. rewrite Hreadmewalk. simpl. rewrite lookup_node_snoc, Hreadme.
    by rewrite insert_id. }
  rewrite Hwrite.
  unfold bind at 1. rewrite Hmig.
  unfold bind at 1. unfold on_files at 1. cbn [files stdout py_join ret].
  unfold bind at 1. unfold on_files at 1. cbn [files stdout py_exists].
  rewrite (metadata_entry_components workspace_path "CATKIN_IGNORE") by done.
  change (path_of_str "CATKIN_IGNORE") with ["CATKIN_IGNORE"].
  assert (Hexignore : os_path_exists w ((path_of_str workspace_path ++ [METADATA_DIR_NAME])
                                        ++ ["CATKIN_IGNORE"]) = true).
  { apply bool_decide_eq_true. rewrite Hignorestat, Hignore. by eexists. }
  by rewrite Hexignore.
Qed.

(** The part of [init_metadata_root] that follows the creation of the
    directory: the [README] is written, the migration leaves [wm], in which
    the metadata directory is still there, and the [CATKIN_IGNORE] is made. *)
Lemma init_metadata_root_files (workspace_path : string) (w1 wm : gmap path node)
    (out : list string) (d : path) :
  let root := d ++ [METADATA_DIR_NAME] in
  let metadata_root_path := Some (posixpath_join workspace_path METADATA_DIR_NAME) in
  walk_path SYMLOOP_MAX w1 true [] (path_of_str workspace_path) = Some d →
  lookup_node w1 d = Some NDir →
  w1 !! root = Some NDir →
  w1 !! (root ++ ["README"]) = None →
  migrate_metadata (PyStr workspace_path)
    (Process (<[root ++ ["README"] := NFile METADATA_README_TEXT]> w1) out)
  = Ok tt (Process wm out) →
  walk_path SYMLOOP_MAX wm true [] (path_of_str workspace_path ++ [METADATA_DIR_NAME])
  = Some root →
  lookup_node wm root = Some NDir →
  wm !! (root ++ ["CATKIN_IGNORE"]) = None →
  (let* readme_path := on_files (py_join metadata_root_path (PyStr "README")) in
   let* _ := on_files (py_write readme_path METADATA_README_TEXT) in
   let* _ := migrate_metadata (PyStr workspace_path) in
   let* ignore_path := on_files (py_join metadata_root_path (PyStr "CATKIN_IGNORE")) in
   let* present := on_files (py_exists ignore_path) in
   if negb present then on_files (py_touch ignore_path) else ret tt) (Process w1 out)
  = Ok tt (Process (<[root ++ ["CATKIN_IGNORE"] := NFile ""]> wm) out).
Proof.
  intros root metadata_root_path Hwalk1 Hd1 Hroot1 Hreadme1 Hmig Hwalkm Hrootm Hignorem.
  subst metadata_root_path.
  destruct (os_stat_child w1 (path_of_str workspace_path) d METADATA_DIR_NAME)
    as [Hrootwalk1 Hrootstat1]; try done.
  { intros rel t. fold root. by rewrite Hroot1. }
  fold root in Hrootwalk1, Hrootstat1.
  assert (Hrootnode1 : lookup_node w1 root = Some NDir).
  { unfold root. rewrite lookup_node_snoc. by fold root. }
  destruct (os_stat_child w1 (path_of_str workspace_path ++ [METADATA_DIR_NAME]) root "README")
    as [Hreadmewalk Hreadmestat]; try done.
  { intros rel t. by rewrite Hreadme1. }
  destruct (os_stat_child wm (path_of_str workspace_path ++ [METADATA_DIR_NAME]) root
              "CATKIN_IGNORE") as [Hignorewalk Hignorestat]; try done.
  { intros rel t. by rewrite Hignorem. }
  unfold bind at 1. unfold on_files at 1. cbn [files stdout py_join ret].
  unfold bind at 1. unfold on_files at 1. cbn [files stdout py_write].
  rewrite (metadata_entry_components workspace_path "README") by done.
  change (path_of_str "README") with ["README"].
  assert (Hwrite : write_file w1 ((path_of_str workspace_path ++ [METADATA_DIR_NAME])
                                  ++ ["README"]) METADATA_README_TEXT
                   = Some (<[root ++ ["README"] := NFile METADATA_README_TEXT]> w1)).
  { unfold write_file. rewrite Hreadmewalk. simpl. by rewrite lookup_node_snoc, Hreadme1. }
  rewrite Hwrite.
  unfold bind at 1. rewrite Hmig.
  unfold bind at 1. unfold on_files at 1. cbn [files stdout py_join ret].
  unfold bind at 1. unfold on_files at 1. cbn [files stdout py_exists].
  rewrite (metadata_entry_components workspace_path "CATKIN_IGNORE") by done.
  change (path_of_str "CATKIN_IGNORE") with ["CATKIN_IGNORE"].
  assert (Hexignore : os_path_exists wm ((path_of_str workspace_path ++ [METADATA_DIR_NAME])
                                         ++ ["CATKIN_IGNORE"]) = false).
  { apply bool_decide_eq_false. rewrite Hignorestat, Hignorem. by intros [? ?]. }
  rewrite Hexignore. cbn [negb]. unfold on_files. cbn [files stdout py_touch].
  rewrite (metadata_entry_components workspace_path "CATKIN_IGNORE") by done.
  change (path_of_str "CATKIN_IGNORE") with ["CATKIN_IGNORE"].
  unfold touch_file. rewrite Hignorewalk. simpl. by rewrite lookup_node_snoc, Hignorem.
Qed.

(** The metadata directory can be made in a directory that has no entry of
    its name. *)
Lemma os_mkdir_metadata_root (w : gmap path node) (p d : path) :
  walk_path SYMLOOP_MAX w true [] p = Some d →
  lookup_node w d = Some NDir →
  w !! (d ++ [METADATA_DIR_NAME]) = None →
  entry_location w (p ++ [METADATA_DIR_NAME]) = Some (d ++ [METADATA_DIR_NAME])
  ∧ os_mkdir w (p ++ [METADATA_DIR_NAME]) = Some (<[d ++ [METADATA_DIR_NAME] := NDir]> w).
Proof.
  intros Hwalk Hd Hroot.
  assert (Hloc : entry_location w (p ++ [METADATA_DIR_NAME]) = Some (d ++ [METADATA_DIR_NAME])).
  { apply entry_location_Some. split_and!.
    - by apply walk_path_child.
    - by destruct d.
    - unfold os_path_basename. rewrite last_last.
      intros [Hnil|[?|?]]; [|done|done]. by destruct p. }
  split; [done|]. unfold os_mkdir. rewrite Hloc. simpl. by rewrite Hroot.
Qed.

End InitFacts.

(** *** The metadata directory and its migration *)

Section InitMigration.
Variable current_version : string.
Variable migrate_metadata_version : pyval → option string → M (gmap path node) unit.

(** [migrate_metadata] in a workspace whose metadata directory is there:
    without a [VERSION] file it records the version and migrates from no
    version; with the current version recorded it does nothing. *)
Lemma migrate_metadata_in_directory (workspace_path : string) (w : gmap path node)
    (root : path) :
  walk_path SYMLOOP_MAX w true [] (path_of_str workspace_path ++ [METADATA_DIR_NAME])
  = Some root →
  lookup_node w root = Some NDir →
  (w !! (root ++ ["VERSION"]) = None →
   migrate_metadata current_version migrate_metadata_version (PyStr workspace_path) w
   = migrate_metadata_version (PyStr workspace_path) None
       (<[root ++ ["VERSION"] := NFile current_version]> w))
  ∧ (current_version ≠ "" → w !! (root ++ ["VERSION"]) = Some (NFile current_version) →
     migrate_metadata current_version migrate_metadata_version (PyStr workspace_path) w
     = Ok tt w).
Proof.
  intros Hwalk Hroot.
  assert (Hex : os_path_exists w (path_of_str workspace_path ++ [METADATA_DIR_NAME]) = true).
  { apply bool_decide_eq_true. unfold os_stat. rewrite Hwalk. simpl. rewrite Hroot.
    by eexists. }
  assert (Hstart : ∀ node,
    (∀ rel t, node ≠ Some (NLink rel t)) → w !! (root ++ ["VERSION"]) = node →
    walk_path SYMLOOP_MAX w true []
      ((path_of_str workspace_path ++ [METADATA_DIR_NAME]) ++ ["VERSION"])
    = Some (root ++ ["VERSION"])
    ∧ os_stat w ((path_of_str workspace_path ++ [METADATA_DIR_NAME]) ++ ["VERSION"]) = node).
  { intros node Hnode Hlook.
    destruct (os_stat_child w (path_of_str workspace_path ++ [METADATA_DIR_NAME]) root
                "VERSION") as [Hw Hs]; try done.
    - intros rel t. rewrite Hlook. apply Hnode.
    - split; [done|]. by rewrite Hs. }
  assert (Hunfold :
    migrate_metadata current_version migrate_metadata_version (PyStr workspace_path) w
    = match (if os_path_exists w ((path_of_str workspace_path ++ [METADATA_DIR_NAME])
                                  ++ ["VERSION"]) then
               match read_file w ((path_of_str workspace_path ++ [METADATA_DIR_NAME])
                                  ++ ["VERSION"]) with
               | Some text => Ok (if bool_decide (text = "") then None else Some text) w
               | None => Exc OSError w
               end
             else Ok None w) with
      | Ok last_version w' =>
          if bool_decide (last_version ≠ Some current_version) then
            match write_file w' ((path_of_str workspace_path ++ [METADATA_DIR_NAME])
                                 ++ ["VERSION"]) current_version with
            | Some w'' => migrate_metadata_version (PyStr workspace_path) last_version w''
            | None => Exc OSError w'
            end
          else Ok tt w'
      | Exc e w' => Exc e w'
      end).
  { unfold migrate_metadata.
    unfold bind at 1. cbn [get_metadata_root_path py_join ret].
    unfold bind at 1. rewrite bool_decide_eq_false_2 by (by apply posixpath_join_nonempty).
    unfold bind at 1. cbn [py_exists]. rewrite metadata_root_components, Hex. cbn [ret negb].
    unfold bind at 1. cbn [py_join ret].
    unfold bind at 1. cbn [py_exists].
    rewrite (metadata_entry_components workspace_path "VERSION") by done.
    change (path_of_str "VERSION") with ["VERSION"].
    destruct (os_path_exists w ((path_of_str workspace_path ++ [METADATA_DIR_NAME])
                                ++ ["VERSION"])).
    - unfold bind at 1. unfold bind at 1. cbn [py_read].
      rewrite (metadata_entry_components workspace_path "VERSION") by done.
      change (path_of_str "VERSION") with ["VERSION"].
      destruct (read_file w ((path_of_str workspace_path ++ [METADATA_DIR_NAME])
                             ++ ["VERSION"])) as [text|]; [|done].
      cbn [ret]. case_bool_decide; [|done].
      unfold bind. cbn [py_write].
      rewrite (metadata_entry_components workspace_path "VERSION") by done.
      change (path_of_str "VERSION") with ["VERSION"].
      by destruct (write_file w _ _).
    - unfold bind at 1. cbn [ret]. case_bool_decide; [|done].
      unfold bind. cbn [py_write].
      rewrite (metadata_entry_components workspace_path "VERSION") by done.
      change (path_of_str "VERSION") with ["VERSION"].
      by destruct (write_file w _ _). }
  split.
  - intros Hnone. destruct (Hstart None) as [Hw Hs]; [done|done|].
    rewrite Hunfold.
    assert (Hexv : os_path_exists w ((path_of_str workspace_path ++ [METADATA_DIR_NAME])
                                     ++ ["VERSION"]) = false).
    { apply bool_decide_eq_false. rewrite Hs. by intros [? ?]. }
    rewrite Hexv. rewrite bool_decide_eq_true_2 by done.
    unfold write_file. rewrite Hw. simpl. by rewrite lookup_node_snoc, Hnone.
  - intros Hcv Hsome. destruct (Hstart (Some (NFile current_version))) as [Hw Hs];
      [done|done|].
    rewrite Hunfold.
    assert (Hexv : os_path_exists w ((path_of_str workspace_path ++ [METADATA_DIR_NAME])
                                     ++ ["VERSION"]) = true).
    { apply bool_decide_eq_true. rewrite Hs. by eexists. }
    rewrite Hexv. unfold read_file. rewrite Hs.
    rewrite (bool_decide_eq_false_2 (current_version = "")) by done.
    by rewrite bool_decide_eq_false_2 by (by intros []).
Qed.

(** One of three facts tells two paths apart. *)
Local Ltac apart H1 H2 H3 := first [by apply H1 | by apply H2 | by apply H3].

(** X24.  [init_metadata_root], with [migrate_metadata] as the module
    defines it, in a directory that holds nothing under the name of the
    metadata directory.  The version of the package is not the empty string,
    and the migration from no version has nothing to do on a metadata
    directory that holds the [README] and the [VERSION] file only.  Whatever
    [reset] is, the call makes four entries and nothing else: the metadata
    directory, its [README] with the text of the module, the [VERSION] file
    with the version of the package, written by the migration, and an empty
    [CATKIN_IGNORE]; it prints nothing.  A second call without a reset
    changes nothing. *)
Theorem init_metadata_root_fresh (workspace_path : string) (reset : bool) (s : process)
    (d : path) :
  let migrate := fun workspace_path : pyval =>
    on_files (migrate_metadata current_version migrate_metadata_version workspace_path) in
  let root := d ++ [METADATA_DIR_NAME] in
  let stamped :=
    <[root ++ ["VERSION"] := NFile current_version]>
      (<[root ++ ["README"] := NFile METADATA_README_TEXT]>
         (<[root := NDir]> (files s))) in
  let initialised :=
    Process (<[root ++ ["CATKIN_IGNORE"] := NFile ""]> stamped) (stdout s) in
  current_version ≠ "" →
  migrate_metadata_version (PyStr workspace_path) None stamped = Ok tt stamped →
  workspace_path ≠ "" →
  walk_path SYMLOOP_MAX (files s) true [] (path_of_str workspace_path) = Some d →
  lookup_node (files s) d = Some NDir →
  files s !! root = None →
  files s !! (root ++ ["README"]) = None →
  files s !! (root ++ ["VERSION"]) = None →
  files s !! (root ++ ["CATKIN_IGNORE"]) = None →
  init_metadata_root migrate workspace_path reset s = Ok tt initialised
  ∧ init_metadata_root migrate workspace_path false initialised = Ok tt initialised.
Proof.
  intros migrate root stamped initialised Hcv Hmmv Hne Hwalk Hd Hroot Hreadme Hversion
    Hignore.
  destruct s as [w out]. cbn [files stdout] in *.
  set (w1 := <[root := NDir]> w).
  set (w2 := <[root ++ ["README"] := NFile METADATA_README_TEXT]> w1).
  assert (Hstamped : stamped = <[root ++ ["VERSION"] := NFile current_version]> w2) by done.
  set (w4 := <[root ++ ["CATKIN_IGNORE"] := NFile ""]> stamped).
  assert (Hlen : ∀ x, root ++ [x] ≠ root).
  { intros x Heq. apply (f_equal length) in Heq. rewrite length_app in Heq. simpl in Heq. lia. }
  assert (Hlen2 : ∀ x, root ≠ root ++ [x]) by (intros x Heq; by apply (Hlen x)).
  assert (Hinj : ∀ x y, x ≠ y → root ++ [x] ≠ root ++ [y]).
  { intros x y Hxy Heq. apply app_inv_head in Heq. congruence. }
  assert (Hsub1 : w ⊆ w1) by (by apply insert_subseteq).
  assert (Hsub2 : w1 ⊆ w2).
  { apply insert_subseteq. unfold w1. by rewrite lookup_insert_ne. }
  assert (Hsub3 : w2 ⊆ stamped).
  { rewrite Hstamped. apply insert_subseteq. unfold w2, w1.
    by rewrite !lookup_insert_ne by (apart Hlen Hlen2 Hinj). }
  assert (Hsub4 : stamped ⊆ w4).
  { apply insert_subseteq. rewrite Hstamped. unfold w2, w1.
    by rewrite !lookup_insert_ne by (apart Hlen Hlen2 Hinj). }
  assert (Hwalkroot : ∀ f, w1 ⊆ f →
            walk_path SYMLOOP_MAX f true [] (path_of_str workspace_path) = Some d
            ∧ lookup_node f d = Some NDir
            ∧ walk_path SYMLOOP_MAX f true [] (path_of_str workspace_path
                                                ++ [METADATA_DIR_NAME]) = Some root
            ∧ lookup_node f root = Some NDir
            ∧ f !! root = Some NDir).
  { intros f Hf.
    assert (Hrootf : f !! root = Some NDir).
    { eapply lookup_weaken; [|exact Hf]. unfold w1. by rewrite lookup_insert_eq. }
    assert (Hwalkf : walk_path SYMLOOP_MAX f true [] (path_of_str workspace_path) = Some d).
    { eapply walk_path_weaken; [|exact Hwalk|by eexists]. by etrans. }
    assert (Hdf : lookup_node f d = Some NDir).
    { eapply lookup_node_weaken; [|exact Hd]. by etrans. }
    split_and!; try done.
    - apply os_stat_child; try done. intros rel t. fold root. by rewrite Hrootf.
    - unfold root. rewrite lookup_node_snoc. by fold root. }
  destruct (os_stat_child w (path_of_str workspace_path) d METADATA_DIR_NAME)
    as [Hrootwalk Hrootstat]; try done.
  { intros rel t. fold root. by rewrite Hroot. }
  fold root in Hrootwalk, Hrootstat.
  split.
  - unfold init_metadata_root. unfold bind at 1. unfold on_files at 1. cbn [files stdout].
    unfold py_exists_str. rewrite bool_decide_eq_false_2 by done. cbn [py_exists].
    assert (Hex : os_path_exists w (path_of_str workspace_path) = true).
    { apply bool_decide_eq_true. unfold os_stat. rewrite Hwalk. simpl. by rewrite Hd. }
    rewrite Hex. cbn [negb].
    unfold bind at 1. unfold on_files at 1.
    cbn [files stdout get_metadata_root_path py_join ret].
    unfold bind at 1. unfold on_files at 1. cbn [files stdout py_exists].
    rewrite metadata_root_components.
    assert (Hexroot : os_path_exists w (path_of_str workspace_path ++ [METADATA_DIR_NAME])
                      = false).
    { apply bool_decide_eq_false. rewrite Hrootstat, Hroot. by intros [? ?]. }
    rewrite Hexroot.
    unfold bind at 1. unfold on_files at 1. cbn [files stdout py_mkdir].
    rewrite metadata_root_components.
    destruct (os_mkdir_metadata_root w (path_of_str workspace_path) d) as [_ Hmkdir];
      try done.
    rewrite Hmkdir. cbv beta iota.
    destruct (Hwalkroot w1 (reflexivity _)) as (Hwalk1 & Hd1 & _ & _ & Hroot1).
    destruct (Hwalkroot w2 Hsub2) as (_ & _ & Hwalk2 & Hrootnode2 & _).
    destruct (Hwalkroot stamped (transitivity Hsub2 Hsub3))
      as (_ & _ & Hwalks & Hrootnodes & _).
    apply (init_metadata_root_files migrate workspace_path w1 stamped out d); try done.
    + unfold w1. by rewrite lookup_insert_ne by (apart Hlen Hlen2 Hinj).
    + fold root. fold w2. subst migrate. cbv beta. unfold on_files. cbn [files stdout].
      destruct (migrate_metadata_in_directory workspace_path w2 root Hwalk2 Hrootnode2)
        as [Hfirst _].
      rewrite Hfirst.
      * rewrite <- Hstamped. by rewrite Hmmv.
      * unfold w2, w1. by rewrite !lookup_insert_ne by (apart Hlen Hlen2 Hinj).
    + rewrite Hstamped. unfold w2, w1.
      by rewrite !lookup_insert_ne by (apart Hlen Hlen2 Hinj).
  - destruct (Hwalkroot w4 (transitivity Hsub2 (transitivity Hsub3 Hsub4)))
      as (Hwalk4 & Hd4 & Hwalkroot4 & Hrootnode4 & Hroot4).
    apply (init_metadata_root_again migrate workspace_path w4 out d); try done.
    + subst migrate. cbv beta. unfold on_files. cbn [files stdout].
      destruct (migrate_metadata_in_directory workspace_path w4 root Hwalkroot4 Hrootnode4)
        as [_ Hagain].
      rewrite Hagain; [done|done|].
      unfold w4. rewrite lookup_insert_ne by (apart Hlen Hlen2 Hinj).
      rewrite Hstamped. by rewrite lookup_insert_eq.
    + unfold w4. rewrite lookup_insert_ne by (apart Hlen Hlen2 Hinj).
      rewrite Hstamped. rewrite lookup_insert_ne by (apart Hlen Hlen2 Hinj).
      unfold w2. by rewrite lookup_insert_eq.
    + exists "". unfold w4. by rewrite lookup_insert_eq.
Qed.

End InitMigration.

Lemma init_metadata_root_needs_a_directory_witness :
  let migrate := fun workspace_path : pyval =>
    on_files (migrate_metadata "0.4.5" Cases.migrate_version_nothing workspace_path) in
  init_metadata_root migrate "/nowhere" false (Process Scenario.tree [])
  = Exc OSError (Process Scenario.tree [])
  ∧ init_metadata_root migrate "/ws/devel/.private/A/setup.sh" true
      (Process Scenario.tree [])
    = Exc OSError (Process Scenario.tree []).
Proof.
  split; apply init_metadata_root_needs_a_directory; right; by_evaluation.
Defined.

Lemma init_metadata_root_fresh_witness :
  let migrate := fun workspace_path : pyval =>
    on_files (migrate_metadata "0.4.5" Cases.migrate_version_nothing workspace_path) in
  let initialised :=
    Process (<[ ["ws"; ".catkin_tools"; "CATKIN_IGNORE"] := NFile "" ]>
               (<[ ["ws"; ".catkin_tools"; "VERSION"] := NFile "0.4.5" ]>
                  (<[ ["ws"; ".catkin_tools"; "README"] := NFile METADATA_README_TEXT ]>
                     (<[ ["ws"; ".catkin_tools"] := NDir ]> Scenario.tree)))) [] in
  init_metadata_root migrate "/ws" false (Process Scenario.tree []) = Ok tt initialised
  ∧ init_metadata_root migrate "/ws" false initialised = Ok tt initialised.
Proof.
  apply (init_metadata_root_fresh "0.4.5" Cases.migrate_version_nothing "/ws" false
           (Process Scenario.tree []) ["ws"]); try done; by_evaluation.
Defined.

(** *** A reset of the metadata directory *)

(** The directories above an entry are not touched when what is at or below
    the entry changes. *)
Lemma reached_parent (f f' : gmap path node) (p : path) (c : string) :
  (∀ k, ¬ (p ++ [c]) `prefix_of` k → f' !! k = f !! k) →
  reached f p → reached f' p.
Proof.
  intros Hsame Hreached q Hq. specialize (Hreached q Hq).
  destruct q as [|x q']; [done|]. cbn [lookup_node] in *. rewrite Hsame; [done|].
  intros Hpre. apply prefix_length in Hpre. apply prefix_length in Hq.
  rewrite length_app in Hpre. simpl in *. lia.
Qed.

Lemma entry_location_child (f : gmap path node) (p d : path) (c : string) :
  c ≠ "." → c ≠ ".." →
  walk_path SYMLOOP_MAX f true [] p = Some d → lookup_node f d = Some NDir →
  entry_location f (p ++ [c]) = Some (d ++ [c]).
Proof.
  intros Hc1 Hc2 Hwalk Hd. apply entry_location_Some. split_and!.
  - by apply walk_path_child.
  - by destruct d.
  - unfold os_path_basename. rewrite last_last.
    intros [Hnil|[?|?]]; [|done|done]. by destruct p.
Qed.

Section ResetFacts.
Variable current_version : string.
Variable migrate_metadata_version : pyval → option string → M (gmap path node) unit.

(** X25.  A reset empties the metadata directory.  [migrate_metadata] is
    the one the module defines, and the migration from no version has nothing
    to do on a metadata directory that holds the [README] and the [VERSION]
    file only.  On a workspace path in canonical form whose metadata
    directory is a directory, [init_metadata_root] with [reset] prints the
    line that announces the deletion, removes every entry below the metadata
    directory, and leaves the directory with three entries: a new [README],
    the [VERSION] file with the version of the package, written by the
    migration since the old one is gone, and an empty [CATKIN_IGNORE]; what
    is outside the directory stays. *)
Theorem init_metadata_root_reset (workspace_path : string) (s : process) :
  let migrate := fun workspace_path : pyval =>
    on_files (migrate_metadata current_version migrate_metadata_version workspace_path) in
  let p := path_of_str workspace_path in
  let root := p ++ [METADATA_DIR_NAME] in
  let emptied := filter (fun kv : path * node => ¬ below root kv.1) (files s) in
  let stamped :=
    <[root ++ ["VERSION"] := NFile current_version]>
      (<[root ++ ["README"] := NFile METADATA_README_TEXT]> emptied) in
  migrate_metadata_version (PyStr workspace_path) None stamped = Ok tt stamped →
  workspace_path ≠ "" →
  plain p → reached (files s) p →
  files s !! root = Some NDir →
  init_metadata_root migrate workspace_path true s
  = Ok tt (Process (<[root ++ ["CATKIN_IGNORE"] := NFile ""]> stamped)
             (stdout s
              ++ ["Deleting existing metadata from catkin_tools metadata directory: "
                  +:+ posixpath_join workspace_path METADATA_DIR_NAME])).
Proof.
  intros migrate p root emptied stamped Hmmv Hne Hplain Hreached Hroot.
  destruct s as [w out]. cbn [files stdout] in *.
  set (w2 := <[root ++ ["README"] := NFile METADATA_README_TEXT]> emptied).
  assert (Hstamped : stamped = <[root ++ ["VERSION"] := NFile current_version]> w2) by done.
  assert (Hkeep : ∀ k, ¬ root `prefix_of` k → emptied !! k = w !! k).
  { intros k Hk. destruct (w !! k) as [n|] eqn:Hw.
    - apply map_lookup_filter_Some. split; [done|]. cbn. by intros [? _].
    - apply map_lookup_filter_None. by left. }
  assert (Hbelow : ∀ x, emptied !! (root ++ [x]) = None).
  { intros x. apply map_lookup_filter_None. right. intros n _ Hnot. cbn in Hnot.
    apply Hnot. split; [by apply prefix_app_r|].
    intros Heq. apply (f_equal length) in Heq. rewrite length_app in Heq. simpl in Heq. lia. }
  assert (Hroot' : emptied !! root = Some NDir).
  { apply map_lookup_filter_Some. split; [done|]. cbn. by intros [_ ?]. }
  assert (Hlen : ∀ x, root ++ [x] ≠ root).
  { intros x Heq. apply (f_equal length) in Heq. rewrite length_app in Heq. simpl in Heq. lia. }
  assert (Hinj : ∀ x y, x ≠ y → root ++ [x] ≠ root ++ [y]).
  { intros x y Hxy Heq. apply app_inv_head in Heq. congruence. }
  assert (Hwalk : ∀ f, reached f p → walk_path SYMLOOP_MAX f true [] p = Some p
                                     ∧ lookup_node f p = Some NDir).
  { intros f Hf. split; [by apply walk_path_plain|by apply Hf]. }
  destruct (Hwalk w Hreached) as [Hwalk0 Hd0].
  assert (Hreached1 : reached emptied p).
  { apply (reached_parent w emptied p METADATA_DIR_NAME); [|done]. intros k Hk. by apply Hkeep. }
  destruct (Hwalk emptied Hreached1) as [Hwalk1 Hd1].
  assert (Hreached2 : reached (delete root emptied) p).
  { apply (reached_parent emptied _ p METADATA_DIR_NAME); [|done]. intros k Hk.
    apply lookup_delete_ne. by intros <-. }
  destruct (Hwalk _ Hreached2) as [Hwalk2 Hd2].
  destruct (os_stat_child emptied p p METADATA_DIR_NAME) as [Hrootwalk1 _]; try done.
  { intros rel t. fold root. by rewrite Hroot'. }
  fold root in Hrootwalk1.
  assert (Hrootwalk2 : walk_path SYMLOOP_MAX w2 true [] (p ++ [METADATA_DIR_NAME]) = Some root).
  { unfold w2. rewrite walk_path_insert_file; [done|]. intros n. by rewrite Hbelow. }
  assert (Hrootwalk3 : walk_path SYMLOOP_MAX stamped true [] (p ++ [METADATA_DIR_NAME])
                       = Some root).
  { rewrite Hstamped. rewrite walk_path_insert_file; [done|]. intros n. unfold w2.
    rewrite lookup_insert_ne by (by apply Hinj). by rewrite Hbelow. }
  assert (Hrootnode2 : lookup_node w2 root = Some NDir).
  { unfold root at 1. rewrite lookup_node_snoc. fold root. unfold w2.
    rewrite lookup_insert_ne by (by apply Hlen). done. }
  assert (Hrootnode3 : lookup_node stamped root = Some NDir).
  { unfold root at 1. rewrite lookup_node_snoc. fold root. rewrite Hstamped. unfold w2.
    rewrite !lookup_insert_ne by (by apply Hlen). done. }
  unfold init_metadata_root. unfold bind at 1. unfold on_files at 1. cbn [files stdout].
  unfold py_exists_str. rewrite bool_decide_eq_false_2 by done. cbn [py_exists].
  assert (Hex : os_path_exists w (path_of_str workspace_path) = true).
  { apply bool_decide_eq_true. unfold os_stat. fold p. rewrite Hwalk0. simpl. by rewrite Hd0. }
  rewrite Hex. cbn [negb].
  unfold bind at 1. unfold on_files at 1.
  cbn [files stdout get_metadata_root_path py_join ret].
  unfold bind at 1. unfold on_files at 1. cbn [files stdout py_exists].
  rewrite metadata_root_components. fold p. fold root.
  destruct (os_stat_child w p p METADATA_DIR_NAME) as [Hrootwalk Hrootstat]; try done.
  { intros rel t. fold root. by rewrite Hroot. }
  fold root in Hrootwalk, Hrootstat.
  assert (Hexroot : os_path_exists w root = true).
  { apply bool_decide_eq_true. rewrite Hrootstat, Hroot. by eexists. }
  rewrite Hexroot.
  unfold bind at 1. unfold bind at 1. unfold print, modify. cbn [files stdout default].
  unfold bind at 1. unfold on_files at 1. cbn [files stdout py_rmtree].
  rewrite metadata_root_components. fold p. fold root.
  assert (Hrmtree : shutil_rmtree root w = Ok tt (delete root emptied)).
  { unfold shutil_rmtree.
    assert (Hloc : walk_path SYMLOOP_MAX w false [] root = Some root)
      by (by apply walk_path_child).
    rewrite Hloc. unfold root at 1. rewrite lookup_node_snoc. fold root. rewrite Hroot.
    cbv zeta. fold emptied. unfold os_rmdir.
    assert (Hentry : entry_location emptied root = Some root)
      by (by apply entry_location_child).
    rewrite Hentry. simpl. rewrite Hroot'. by rewrite entries_empty. }
  rewrite Hrmtree.
  unfold on_files at 1. cbn [files stdout py_mkdir].
  rewrite metadata_root_components. fold p.
  destruct (os_mkdir_metadata_root (delete root emptied) p p) as [_ Hmkdir]; try done.
  { fold root. by rewrite lookup_delete_eq. }
  rewrite Hmkdir. fold root. unfold id. cbv beta iota.
  rewrite insert_delete_eq. rewrite (insert_id emptied root NDir Hroot').
  apply (init_metadata_root_files migrate workspace_path emptied stamped _ p); try done.
  - fold root. fold w2. subst migrate. cbv beta. unfold on_files. cbn [files stdout].
    destruct (migrate_metadata_in_directory current_version migrate_metadata_version
                workspace_path w2 root Hrootwalk2 Hrootnode2) as [Hfirst _].
    rewrite Hfirst.
    + rewrite <- Hstamped. by rewrite Hmmv.
    + unfold w2. rewrite lookup_insert_ne by (by apply Hinj). apply Hbelow.
  - fold root. rewrite Hstamped. unfold w2.
    rewrite !lookup_insert_ne by (by apply Hinj). apply Hbelow.
Qed.

End ResetFacts.

Lemma init_metadata_root_reset_witness :
  let migrate := fun workspace_path : pyval =>
    on_files (migrate_metadata "0.4.5" Cases.migrate_version_nothing workspace_path) in
  ∃ s',
    init_metadata_root migrate "/ws" true (Process Cases.release_active []) = Ok tt s'
    ∧ stdout s'
      = ["Deleting existing metadata from catkin_tools metadata directory: /ws/.catkin_tools"]
    ∧ files s' !! ["ws"; ".catkin_tools"; "profiles"] = None
    ∧ files s' !! ["ws"; ".catkin_tools"; "profiles"; "profiles.yaml"] = None
    ∧ files s' !! ["ws"; ".catkin_tools"; "VERSION"] = Some (NFile "0.4.5")
    ∧ files s' !! ["ws"; ".catkin_tools"; "CATKIN_IGNORE"] = Some (NFile "").
Proof.
  intros migrate. eexists. split.
  - apply (init_metadata_root_reset "0.4.5" Cases.migrate_version_nothing "/ws"
             (Process Cases.release_active [])).
    + done.
    + done.
    + repeat constructor; done.
    + intros q Hq. destruct q as [|x q]; [done|].
      pose proof (prefix_cons_inv_1 _ _ _ _ Hq) as ->.
      apply prefix_cons_inv_2, prefix_nil_inv in Hq as ->. by_evaluation.
    + by_evaluation.
  - split; [reflexivity|]. split_and!; by_evaluation.
Defined.
